(** * MiniGit: a shallow embedding of [MiniGitSystem.hpp]

    The class [MiniGitSystem] keeps five fields in memory (the commit cache,
    the branch map, the staging area and the two HEAD fields) and persists
    part of them under [.minigit/].  Every member function is rendered here
    as a function on an explicit in-memory state ([MiniGitSystem]) and an
    explicit file system ([World]: the directory contents plus the sequence
    of mutations performed on them, in program order).

    [std::unordered_map] is rendered as an association list: the list of a
    given state is the order in which the container is iterated in that
    state, which the source relies on in the prefix search of [checkout] and
    in the digest computation of [commit].  Where a new key lands in that
    order is left to the implementation of the container: [Umap.assign]
    appends it, and what is proved of the program does not rest on that
    choice; it is stated by lookup, or about the order of a state as it is
    given.
    [std::hash<std::string>] and the system clock are not part of the
    repository; the hash is a section variable and the timestamp an argument
    of [commit].

    File names.  Blobs and commit records are named by digests, which the
    program computes itself; they are the keys of the object store and of
    the commit store.  Branch names and the paths of working files come
    from the user, and the streams are opened on the strings as they are:
    [locate] resolves such a string from the working root, component by
    component, through the directories the record lists. *)

From Stdlib Require Import String Ascii List Bool Arith NArith Lia.
From Stdlib Require Import DecimalString Permutation.
Import ListNotations.
Local Open Scope list_scope.
Local Open Scope string_scope.

Set Implicit Arguments.

(* ================================================================= *)
(** ** Strings *)

Definition newline : ascii := "010"%char.
Definition nl : string := String newline "".

(** [std::string::substr(n)]: the suffix starting at index [n]. *)
Fixpoint substr_from (n : nat) (s : string) : string :=
  match n, s with
  | O, _ => s
  | S _, "" => ""
  | S n', String _ s' => substr_from n' s'
  end.

(** [std::string::substr(0, n)]. *)
Fixpoint substr_to (n : nat) (s : string) : string :=
  match n, s with
  | O, _ => ""
  | S _, "" => ""
  | S n', String c s' => String c (substr_to n' s')
  end.

(** [s.rfind(p, 0) == 0]: [p] is a prefix of [s]. *)
Definition starts_with (p s : string) : bool := String.prefix p s.

(** [s.empty()]. *)
Definition empty (s : string) : bool :=
  match s with "" => true | _ => false end.

(** [filename[0] == '.']; on an empty [std::string], [operator[]](0) is the
    terminating null character. *)
Definition hidden (filename : string) : bool :=
  match filename with
  | String c _ => Ascii.eqb c "."%char
  | "" => false
  end.

(** The successive results of [std::getline] on a stream holding [s]. *)
Fixpoint getlines (s : string) : list string :=
  match s with
  | "" => []
  | String c s' =>
      if Ascii.eqb c newline then "" :: getlines s'
      else match getlines s' with
           | [] => [String c ""]
           | l :: ls => String c l :: ls
           end
  end.

(** One [std::getline] on a freshly opened stream: the target string is
    erased first, so an empty file yields the empty string. *)
Definition getline (s : string) : string :=
  match getlines s with
  | [] => ""
  | l :: _ => l
  end.

Definition isspace (c : ascii) : bool :=
  let n := nat_of_ascii c in
  Nat.eqb n 32 || (Nat.leb 9 n && Nat.leb n 13).

(** [tokens s] is the token that starts [s] (possibly empty) and the
    whitespace-separated tokens after it. *)
Fixpoint tokens (s : string) : string * list string :=
  match s with
  | "" => ("", [])
  | String c s' =>
      let (t, ts) := tokens s' in
      if isspace c then ("", if empty t then ts else t :: ts)
      else (String c t, ts)
  end.

(** The successive results of [ss >> word] on a [std::stringstream]. *)
Definition words (s : string) : list string :=
  let (t, ts) := tokens s in if empty t then ts else t :: ts.

(** [line.find(':')] followed by the two [substr] calls around it. *)
Fixpoint split_colon (s : string) : option (string * string) :=
  match s with
  | "" => None
  | String c s' =>
      if Ascii.eqb c ":"%char then Some ("", s')
      else match split_colon s' with
           | Some (a, b) => Some (String c a, b)
           | None => None
           end
  end.

(** No character of [s] satisfies [p]. *)
Fixpoint no_char (p : ascii -> bool) (s : string) : bool :=
  match s with
  | "" => true
  | String c s' => negb (p c) && no_char p s'
  end.

(** [std::to_string] on the [size_t] returned by the hasher. *)
Definition to_string (n : N) : string :=
  NilZero.string_of_uint (N.to_uint n).

(* ================================================================= *)
(** ** [std::unordered_map<std::string, V>] *)

Module Umap.

Definition t (V : Type) : Type := list (string * V).

Section Ops.
Variable V : Type.

(** [m.find(k)], as an option instead of an iterator. *)
Fixpoint find (k : string) (m : t V) : option V :=
  match m with
  | [] => None
  | (k', v) :: m' => if String.eqb k' k then Some v else find k m'
  end.

(** [m.count(k)]. *)
Definition count (k : string) (m : t V) : bool :=
  match find k m with Some _ => true | None => false end.

(** [m[k] = v].  An existing entry is overwritten where it stands.  Where
    a new entry lands in the iteration is up to the implementation of the
    container; it is appended here, and what is proved of the program is
    stated so that it does not depend on that position. *)
Fixpoint assign (k : string) (v : V) (m : t V) : t V :=
  match m with
  | [] => [(k, v)]
  | (k', v') :: m' =>
      if String.eqb k' k then (k', v) :: m' else (k', v') :: assign k v m'
  end.

(** [m.erase(k)]. *)
Definition erase (k : string) (m : t V) : t V :=
  filter (fun p => negb (String.eqb (fst p) k)) m.

Definition keys (m : t V) : list string := map fst m.

End Ops.

End Umap.

(** [std::unordered_set<std::string>]. *)
Module Uset.

Definition t : Type := list string.

Definition count (k : string) (s : t) : bool :=
  existsb (String.eqb k) s.

Definition insert (k : string) (s : t) : t :=
  if count k s then s else (s ++ [k])%list.

Definition erase (k : string) (s : t) : t :=
  filter (fun x => negb (String.eqb x k)) s.

End Uset.

(* ================================================================= *)
(** ** Data structures *)

Record Commit : Type := mkCommit {
  hash : string;
  message : string;
  timestamp : string;
  parentHashes : list string;
  fileBlobs : Umap.t string      (* filename -> blob hash *)
}.

(** A default-constructed [Commit]. *)
Definition Commit_default : Commit := mkCommit "" "" "" [] [].

Definition with_hash (h : string) (c : Commit) : Commit :=
  mkCommit h (message c) (timestamp c) (parentHashes c) (fileBlobs c).
Definition with_message (m : string) (c : Commit) : Commit :=
  mkCommit (hash c) m (timestamp c) (parentHashes c) (fileBlobs c).
Definition with_timestamp (t : string) (c : Commit) : Commit :=
  mkCommit (hash c) (message c) t (parentHashes c) (fileBlobs c).
Definition with_parentHashes (ps : list string) (c : Commit) : Commit :=
  mkCommit (hash c) (message c) (timestamp c) ps (fileBlobs c).
Definition with_fileBlobs (fb : Umap.t string) (c : Commit) : Commit :=
  mkCommit (hash c) (message c) (timestamp c) (parentHashes c) fb.

(** The private fields of [class MiniGitSystem]. *)
Record MiniGitSystem : Type := mkSystem {
  commits : Umap.t Commit;        (* hash -> Commit object *)
  branches : Umap.t string;       (* branch name -> commit hash *)
  stagingArea : Umap.t string;    (* filename -> blob hash *)
  headBranch : string;
  headCommitHash : string
}.

(* ================================================================= *)
(** ** The file system *)

(** What a name in the working root denotes. *)
Inductive DirEntry : Type :=
| RegularFile (content : string)
| Directory.

(** The part of the file system the program touches: the entries of the
    working root other than [.minigit], and the tree under [.minigit]. *)
Record FileSystem : Type := mkFS {
  workdir : Umap.t DirEntry;
  dot_minigit : bool;             (* .minigit/ exists *)
  objects_dir : bool;             (* .minigit/objects/ exists *)
  commits_dir : bool;             (* .minigit/commits/ exists *)
  refs_heads_dir : bool;          (* .minigit/refs/heads/ exists *)
  objects : Umap.t string;        (* .minigit/objects/<hash> *)
  commit_files : Umap.t string;   (* .minigit/commits/<hash> *)
  ref_files : Umap.t string;      (* .minigit/refs/heads/<branch> *)
  HEAD_file : option string       (* .minigit/HEAD *)
}.

Inductive MiniGitDir : Type := DotMinigit | ObjectsDir | CommitsDir | RefsHeadsDir.

(* ----------------------------------------------------------------- *)
(** *** Paths

    A stream is opened on a path, which the operating system resolves from
    the working root.  [components] splits a path at its separators and
    [locate] follows the components through the directories of the record:
    [.] and empty components stay where they are, [.minigit], [objects],
    [commits], [refs] and [heads] lead into the repository when the
    directory exists, and the last component names the file.  The record
    lists the entries of the working root and the files of the repository
    and nothing else: a path that is absolute, or that leads through a
    subdirectory of the working root, a regular file or a missing
    directory, denotes nothing in it.  A [..] in the middle of a path is
    not followed either: such a path is taken to denote nothing. *)

Definition is_slash (c : ascii) : bool := Ascii.eqb c "/"%char.

(** The pieces of [p] between its separators. *)
Fixpoint components (p : string) : list string :=
  match p with
  | "" => [""]
  | String c p' =>
      if is_slash c then "" :: components p'
      else match components p' with
           | [] => [String c ""]
           | x :: xs => String c x :: xs
           end
  end.

(** A single path component that names an entry of a directory. *)
Definition is_filename (name : string) : bool :=
  negb (empty name) && no_char is_slash name
  && negb (String.eqb name ".") && negb (String.eqb name "..").

(** The name of an entry of the working root: [.minigit] is the
    repository, not a working file. *)
Definition is_workname (name : string) : bool :=
  is_filename name && negb (String.eqb name ".minigit").

(** Where a resolution stands: in the working root, in one of the
    directories of the repository, or in [.minigit/refs]. *)
Inductive Position : Type :=
| AtRoot
| Inside (d : MiniGitDir)
| InsideRefs.

(** What a path denotes. *)
Inductive Place : Type :=
| WorkingEntry (name : string)   (* <name> in the working root *)
| HeadFile                       (* .minigit/HEAD *)
| ObjectFile (name : string)     (* .minigit/objects/<name> *)
| CommitFile (name : string)     (* .minigit/commits/<name> *)
| RefFile (name : string)        (* .minigit/refs/heads/<name> *)
| DirectoryPlace                 (* a directory that exists *)
| NoPlace.                       (* nothing of the record *)

(** The directory a component leads into. *)
Definition enter (fs : FileSystem) (pos : Position) (c : string)
  : option Position :=
  match pos with
  | AtRoot =>
      if String.eqb c ".minigit" && dot_minigit fs then Some (Inside DotMinigit)
      else None
  | Inside DotMinigit =>
      if String.eqb c "objects" && objects_dir fs then Some (Inside ObjectsDir)
      else if String.eqb c "commits" && commits_dir fs then Some (Inside CommitsDir)
      else if String.eqb c "refs" && refs_heads_dir fs then Some InsideRefs
      else None
  | InsideRefs =>
      if String.eqb c "heads" && refs_heads_dir fs then Some (Inside RefsHeadsDir)
      else None
  | Inside _ => None
  end.

(** The file a last component names. *)
Definition file_at (pos : Position) (c : string) : Place :=
  match pos with
  | AtRoot => if String.eqb c ".minigit" then NoPlace else WorkingEntry c
  | Inside DotMinigit => if String.eqb c "HEAD" then HeadFile else NoPlace
  | Inside ObjectsDir => ObjectFile c
  | Inside CommitsDir => CommitFile c
  | Inside RefsHeadsDir => RefFile c
  | InsideRefs => NoPlace
  end.

Fixpoint locate_from (fs : FileSystem) (pos : Position) (cs : list string)
  : Place :=
  match cs with
  | [] => NoPlace
  | c :: rest =>
      match rest with
      | [] =>
          if empty c || String.eqb c "." || String.eqb c ".."
          then DirectoryPlace
          else match enter fs pos c with
               | Some _ => DirectoryPlace
               | None => file_at pos c
               end
      | _ :: _ =>
          if empty c || String.eqb c "." then locate_from fs pos rest
          else if String.eqb c ".." then NoPlace
          else match enter fs pos c with
               | Some pos' => locate_from fs pos' rest
               | None => NoPlace
               end
      end
  end.

Definition locate (fs : FileSystem) (path : string) : Place :=
  match path with
  | "" => NoPlace
  | String c _ =>
      if is_slash c then NoPlace
      else locate_from fs AtRoot (components path)
  end.

(** What an output stream that was opened on a place and written to
    leaves behind; a directory is never opened. *)
Definition write_at (place : Place) (content : string) (fs : FileSystem)
  : FileSystem :=
  match place with
  | WorkingEntry name =>
      match Umap.find name (workdir fs) with
      | Some Directory => fs
      | _ =>
          mkFS (Umap.assign name (RegularFile content) (workdir fs))
               (dot_minigit fs) (objects_dir fs) (commits_dir fs)
               (refs_heads_dir fs) (objects fs) (commit_files fs)
               (ref_files fs) (HEAD_file fs)
      end
  | HeadFile =>
      mkFS (workdir fs) (dot_minigit fs) (objects_dir fs) (commits_dir fs)
           (refs_heads_dir fs) (objects fs) (commit_files fs) (ref_files fs)
           (Some content)
  | ObjectFile name =>
      mkFS (workdir fs) (dot_minigit fs) (objects_dir fs) (commits_dir fs)
           (refs_heads_dir fs) (Umap.assign name content (objects fs))
           (commit_files fs) (ref_files fs) (HEAD_file fs)
  | CommitFile name =>
      mkFS (workdir fs) (dot_minigit fs) (objects_dir fs) (commits_dir fs)
           (refs_heads_dir fs) (objects fs)
           (Umap.assign name content (commit_files fs)) (ref_files fs)
           (HEAD_file fs)
  | RefFile name =>
      mkFS (workdir fs) (dot_minigit fs) (objects_dir fs) (commits_dir fs)
           (refs_heads_dir fs) (objects fs) (commit_files fs)
           (Umap.assign name content (ref_files fs)) (HEAD_file fs)
  | DirectoryPlace => fs
  | NoPlace => fs
  end.

(** The path of the ref file of a branch. *)
Definition branch_ref_path (name : string) : string :=
  ".minigit/refs/heads/" ++ name.

Arguments locate : simpl never.
Arguments branch_ref_path : simpl never.

(** The mutations the program performs on the file system.  A blob, a
    commit record and a ref are named in their directory; a working file is
    written on the path the program was given. *)
Inductive FsOp : Type :=
| DirectoryCreate (d : MiniGitDir)
| BlobWrite (blobHash content : string)
| CommitWrite (commitHash text : string)
| BranchRefWrite (name text : string)
| HeadWrite (text : string)
| WorkingFileWrite (filename content : string)
| WorkingFileRemove (filename : string).

Definition apply_op (op : FsOp) (fs : FileSystem) : FileSystem :=
  match op with
  | DirectoryCreate DotMinigit =>
      mkFS (workdir fs) true (objects_dir fs) (commits_dir fs)
           (refs_heads_dir fs) (objects fs) (commit_files fs) (ref_files fs)
           (HEAD_file fs)
  | DirectoryCreate ObjectsDir =>
      mkFS (workdir fs) (dot_minigit fs) true (commits_dir fs)
           (refs_heads_dir fs) (objects fs) (commit_files fs) (ref_files fs)
           (HEAD_file fs)
  | DirectoryCreate CommitsDir =>
      mkFS (workdir fs) (dot_minigit fs) (objects_dir fs) true
           (refs_heads_dir fs) (objects fs) (commit_files fs) (ref_files fs)
           (HEAD_file fs)
  | DirectoryCreate RefsHeadsDir =>   (* create_directories: parents too *)
      mkFS (workdir fs) true (objects_dir fs) (commits_dir fs)
           true (objects fs) (commit_files fs) (ref_files fs)
           (HEAD_file fs)
  | BlobWrite h content =>
      mkFS (workdir fs) (dot_minigit fs) (objects_dir fs) (commits_dir fs)
           (refs_heads_dir fs) (Umap.assign h content (objects fs))
           (commit_files fs) (ref_files fs) (HEAD_file fs)
  | CommitWrite h text =>
      mkFS (workdir fs) (dot_minigit fs) (objects_dir fs) (commits_dir fs)
           (refs_heads_dir fs) (objects fs)
           (Umap.assign h text (commit_files fs)) (ref_files fs) (HEAD_file fs)
  | BranchRefWrite name text =>
      mkFS (workdir fs) (dot_minigit fs) (objects_dir fs) (commits_dir fs)
           (refs_heads_dir fs) (objects fs) (commit_files fs)
           (Umap.assign name text (ref_files fs)) (HEAD_file fs)
  | HeadWrite text =>
      mkFS (workdir fs) (dot_minigit fs) (objects_dir fs) (commits_dir fs)
           (refs_heads_dir fs) (objects fs) (commit_files fs) (ref_files fs)
           (Some text)
  | WorkingFileWrite filename content =>
      write_at (locate fs filename) content fs
  | WorkingFileRemove filename =>
      mkFS (Umap.erase filename (workdir fs))
           (dot_minigit fs) (objects_dir fs) (commits_dir fs)
           (refs_heads_dir fs) (objects fs) (commit_files fs) (ref_files fs)
           (HEAD_file fs)
  end.

(** The file system together with the mutations performed so far, oldest
    first. *)
Record World : Type := mkWorld {
  disk : FileSystem;
  trace : list FsOp
}.

Definition perform (op : FsOp) (w : World) : World :=
  mkWorld (apply_op op (disk w)) (trace w ++ [op])%list.

(** Replaying a sequence of mutations from a file system. *)
Definition replay (ops : list FsOp) (fs : FileSystem) : FileSystem :=
  fold_left (fun fs op => apply_op op fs) ops fs.

(** Performing a sequence of mutations, in order. *)
Definition perform_all (ops : list FsOp) (w : World) : World :=
  fold_left (fun w op => perform op w) ops w.

(** What the program finds at a path it was given for a working file:
    the entry of the working root of that name or, when the working root
    has no entry of that name, what the path leads to. *)
Definition entry_at (fs : FileSystem) (path : string) : option DirEntry :=
  match Umap.find path (workdir fs) with
  | Some e => Some e
  | None =>
      match locate fs path with
      | WorkingEntry name => Umap.find name (workdir fs)
      | HeadFile => option_map RegularFile (HEAD_file fs)
      | ObjectFile name => option_map RegularFile (Umap.find name (objects fs))
      | CommitFile name =>
          option_map RegularFile (Umap.find name (commit_files fs))
      | RefFile name => option_map RegularFile (Umap.find name (ref_files fs))
      | DirectoryPlace => Some Directory
      | NoPlace => None
      end
  end.

(** [fs::exists(filename)]. *)
Definition fs_exists (fs : FileSystem) (filename : string) : bool :=
  match entry_at fs filename with
  | Some _ => true
  | None => false
  end.

Definition is_regular_file (e : DirEntry) : bool :=
  match e with RegularFile _ => true | Directory => false end.

(** The test applied to every entry of [fs::directory_iterator(".")]. *)
Definition scanned (filename : string) (e : DirEntry) : bool :=
  is_regular_file e && negb (String.eqb filename ".minigit")
  && negb (hidden filename).

(* ================================================================= *)
(** ** Results reported by the operations

    The source reports on [std::cout] and [std::cerr]; each constructor
    stands for one of the messages, quoted next to it. *)

Inductive Warning : Type :=
| MissingObject (filename blobHash : string)
    (* "Warning: Blob for ... not found. Skipping." *)
| CouldNotWriteFile (filename : string).
    (* "Warning: Could not write file ... Skipping." *)

Inductive InitOutcome : Type :=
| AlreadyInitialized   (* "MiniGit repository already initialized in .minigit" *)
| Initialized.         (* "Initialized empty MiniGit repository in .minigit" *)

Inductive AddOutcome : Type :=
| AddNotARepository    (* "Not a MiniGit repository. Please run 'init' first." *)
| NoSuchPath           (* "Error: File does not exist: ..." *)
| NotARegularFile      (* "Error: Not a regular file: ..." *)
| AlreadyStaged        (* "File already up to date in staging: ..." *)
| Added.               (* "Added file to staging: ..." *)

Inductive CommitOutcome : Type :=
| CommitNotARepository
| NoEffectiveChanges   (* "No changes to commit. Staging area is empty or identical to HEAD." *)
| Committed (c : Commit).   (* "Committed as ..." *)

Inductive BranchOutcome : Type :=
| BranchNotARepository
| NoCommits            (* "Cannot create branch: No commits yet." *)
| BranchExists         (* "Error: Branch '...' already exists." *)
| BranchCreated.       (* "Created branch: ... pointing to ..." *)

Inductive CheckoutOutcome : Type :=
| CheckoutNotARepository
| WorkingDirDirty      (* "Error: Your working directory has uncommitted changes. ..." *)
| AlreadyOnEmptyBranch (* "Already on branch '...'." (empty branch) *)
| SwitchedToEmptyBranch (* "Switched to branch: ... (empty branch, no files restored)." *)
| UnknownTarget        (* "Error: Branch or commit not found: ..." *)
| CorruptCommit        (* "Error: Target ... points to a corrupt commit. Cannot checkout." *)
| AlreadyOn            (* "Already on ..." *)
| CheckedOut (warnings : list Warning).
                       (* "Checked out commit: ..." / "Switched to branch: ..." *)

Record StagedChanges : Type := mkStaged {
  added : list string;
  modified : list string;
  deleted : list string
}.

Record WorkingDirChanges : Type := mkUnstaged {
  wd_modified : list string;
  wd_deleted : list string;
  untracked : list string
}.

(* ================================================================= *)
(** ** Private utility methods *)

Definition set_commits (cs : Umap.t Commit) (g : MiniGitSystem) : MiniGitSystem :=
  mkSystem cs (branches g) (stagingArea g) (headBranch g) (headCommitHash g).
Definition set_branches (bs : Umap.t string) (g : MiniGitSystem) : MiniGitSystem :=
  mkSystem (commits g) bs (stagingArea g) (headBranch g) (headCommitHash g).
Definition set_stagingArea (sa : Umap.t string) (g : MiniGitSystem) : MiniGitSystem :=
  mkSystem (commits g) (branches g) sa (headBranch g) (headCommitHash g).
Definition set_head (b h : string) (g : MiniGitSystem) : MiniGitSystem :=
  mkSystem (commits g) (branches g) (stagingArea g) b h.

(** [readFileContent]: the empty string when the file cannot be read. *)
Definition readFileContent (fs : FileSystem) (filename : string) : string :=
  match entry_at fs filename with
  | Some (RegularFile content) => content
  | _ => ""
  end.

(** [saveBlob]: the stream opens when [.minigit/objects] exists. *)
Definition saveBlob (blobHash content : string) (w : World) : World :=
  if objects_dir (disk w) then perform (BlobWrite blobHash content) w else w.

(** [loadBlob]: the empty string when the blob file cannot be opened. *)
Definition loadBlob (fs : FileSystem) (blobHash : string) : string :=
  match Umap.find blobHash (objects fs) with
  | Some content => content
  | None => ""
  end.

(** The text [writeCommitToFile] sends to the commit file. *)
Definition commit_text (c : Commit) : string :=
  "message:" ++ message c ++ nl ++
  "timestamp:" ++ timestamp c ++ nl ++
  "parents:" ++ String.concat "" (map (fun p => p ++ " ") (parentHashes c)) ++ nl ++
  "files:" ++ nl ++
  String.concat "" (map (fun fb => fst fb ++ ":" ++ snd fb ++ nl) (fileBlobs c)).

Definition writeCommitToFile (c : Commit) (w : World) : World :=
  if commits_dir (disk w) then perform (CommitWrite (hash c) (commit_text c)) w
  else w.

(** The [while (std::getline(file, line))] loop of [loadCommitFromFile];
    [inFiles] is set while the inner loop that follows a [files:] line is
    running. *)
Fixpoint parseCommitLines (inFiles : bool) (lines : list string) (c : Commit)
  : Commit :=
  match lines with
  | [] => c
  | line :: rest =>
      if inFiles then
        if empty line then parseCommitLines false rest c
        else parseCommitLines true rest
               (match split_colon line with
                | Some (filename, blobHash) =>
                    with_fileBlobs (Umap.assign filename blobHash (fileBlobs c)) c
                | None => c
                end)
      else if starts_with "message:" line then
        parseCommitLines false rest (with_message (substr_from 8 line) c)
      else if starts_with "timestamp:" line then
        parseCommitLines false rest (with_timestamp (substr_from 10 line) c)
      else if starts_with "parents:" line then
        parseCommitLines false rest
          (with_parentHashes (parentHashes c ++ words (substr_from 8 line))%list c)
      else if starts_with "files:" line then
        parseCommitLines true rest c
      else parseCommitLines false rest c
  end.

(** [loadCommitFromFile]: an empty [hash] field indicates failure. *)
Definition loadCommitFromFile (fs : FileSystem) (commitHash : string) : Commit :=
  match Umap.find commitHash (commit_files fs) with
  | None => Commit_default
  | Some text =>
      parseCommitLines false (getlines text) (with_hash commitHash Commit_default)
  end.

(** [fs::create_directories(".minigit/refs/heads")]. *)
Definition create_refs_heads (w : World) : World :=
  if refs_heads_dir (disk w) then w
  else perform (DirectoryCreate RefsHeadsDir) w.

(** The second half of [saveHeadAndBranchRefs]: [.minigit/HEAD]. *)
Definition save_head (g : MiniGitSystem) (w : World) : World :=
  if dot_minigit (disk w) then
    perform (HeadWrite (if negb (empty (headBranch g))
                        then "ref: refs/heads/" ++ headBranch g ++ nl
                        else headCommitHash g ++ nl)) w
  else w.

(** [saveHeadAndBranchRefs]: the ref file of the current branch, then
    [.minigit/HEAD].  When the stream of the ref file does not open, the
    function returns at once and [.minigit/HEAD] is not written either. *)
Definition saveHeadAndBranchRefs (g : MiniGitSystem) (w : World) : World :=
  if negb (empty (headBranch g)) && negb (empty (headCommitHash g)) then
    let w1 := create_refs_heads w in
    match locate (disk w1) (branch_ref_path (headBranch g)) with
    | RefFile name =>
        save_head g (perform (BranchRefWrite name (headCommitHash g ++ nl)) w1)
    | _ => w1      (* "Error: Could not save branch ref for ..." *)
    end
  else save_head g w.

(** The mutations [saveHeadAndBranchRefs] performs when [.minigit] and
    [.minigit/refs/heads] exist and the name of the current branch is a
    file name. *)
Definition save_ops (g : MiniGitSystem) : list FsOp :=
  ((if negb (empty (headBranch g)) && negb (empty (headCommitHash g))
    then [BranchRefWrite (headBranch g) (headCommitHash g ++ nl)]
    else [])
   ++ [HeadWrite (if negb (empty (headBranch g))
                  then "ref: refs/heads/" ++ headBranch g ++ nl
                  else headCommitHash g ++ nl)])%list.

(** [loadRepoState]. *)
Definition loadRepoState (g : MiniGitSystem) (fs : FileSystem) : MiniGitSystem :=
  let head :=
    match HEAD_file fs with
    | Some content =>
        let line := getline content in
        if starts_with "ref: refs/heads/" line then
          let b := substr_from 16 line in
          (b, match locate fs (branch_ref_path b) with
              | RefFile name =>
                  match Umap.find name (ref_files fs) with
                  | Some text => getline text
                  | None => ""
                  end
              | _ => ""
              end)
        else ("", line)
    | None => ("master", "")
    end in
  let cs :=
    if commits_dir fs then
      fold_left (fun acc entry =>
                   Umap.assign (fst entry) (loadCommitFromFile fs (fst entry)) acc)
                (commit_files fs) (commits g)
    else commits g in
  let bs :=
    if refs_heads_dir fs then
      fold_left (fun acc entry =>
                   Umap.assign (fst entry) (getline (snd entry)) acc)
                (ref_files fs) (branches g)
    else branches g in
  mkSystem cs bs [] (fst head) (snd head).

(** The constructor [MiniGitSystem()]: what a process holds after start-up. *)
Definition MiniGitSystem_new (fs : FileSystem) : MiniGitSystem :=
  let g0 := mkSystem [] [] [] "master" "" in
  if dot_minigit fs then loadRepoState g0 fs else g0.

(** The names [fs::directory_iterator(".")] contributes to [wdFiles]. *)
Definition scan_workdir (fs : FileSystem) : Uset.t :=
  fold_left (fun acc entry =>
               if scanned (fst entry) (snd entry) then Uset.insert (fst entry) acc
               else acc)
            (workdir fs) [].

(** One turn of the first loop of [populateWorkingDirectory]. *)
Definition materialize (st : World * Uset.t * list Warning)
           (entry : string * string) : World * Uset.t * list Warning :=
  let '(w, wdFiles, warnings) := st in
  let '(filename, blobHash) := entry in
  let content := loadBlob (disk w) blobHash in
  if empty content && negb (Umap.count blobHash (objects (disk w))) then
    (w, wdFiles, (warnings ++ [MissingObject filename blobHash])%list)
  else
    match Umap.find filename (workdir (disk w)) with
    | Some Directory =>
        (w, Uset.erase filename wdFiles,
         (warnings ++ [CouldNotWriteFile filename])%list)
    | _ =>
        (perform (WorkingFileWrite filename content) w,
         Uset.erase filename wdFiles, warnings)
    end.

(** One turn of the second loop of [populateWorkingDirectory]. *)
Definition remove_stale (c : Commit) (w : World) (wdFilename : string) : World :=
  if String.eqb wdFilename ".minigit" || hidden wdFilename then w
  else if negb (Umap.count wdFilename (fileBlobs c)) then
    perform (WorkingFileRemove wdFilename) w
  else w.

Definition populateWorkingDirectory (c : Commit) (w : World)
  : World * list Warning :=
  let '(w1, wdFiles, warnings) :=
    fold_left materialize (fileBlobs c) (w, scan_workdir (disk w), []) in
  (fold_left (remove_stale c) wdFiles w1, warnings).

(** The block that opens [commit] and [checkout]: load the HEAD commit into
    the cache when it is not there, and point at the cache entry. *)
Definition currentHeadCommit (g : MiniGitSystem) (fs : FileSystem)
  : MiniGitSystem * option Commit :=
  if empty (headCommitHash g) then (g, None)
  else
    let g' :=
      if Umap.count (headCommitHash g) (commits g) then g
      else set_commits (Umap.assign (headCommitHash g)
                          (loadCommitFromFile fs (headCommitHash g)) (commits g)) g in
    (g', Umap.find (headCommitHash g) (commits g')).

Definition commitFiles_of (headCommit : option Commit) : Umap.t string :=
  match headCommit with
  | Some c => fileBlobs c
  | None => []
  end.

Definition getStagedChanges (g : MiniGitSystem) (fs : FileSystem)
           (headCommit : option Commit) : StagedChanges :=
  let commitFiles := commitFiles_of headCommit in
  mkStaged
    (map fst (filter (fun e => negb (Umap.count (fst e) commitFiles))
                     (stagingArea g)))
    (map fst (filter (fun e => match Umap.find (fst e) commitFiles with
                               | Some committed => negb (String.eqb committed (snd e))
                               | None => false
                               end)
                     (stagingArea g)))
    (map fst (filter (fun e => negb (Umap.count (fst e) (stagingArea g))
                               && negb (fs_exists fs (fst e)))
                     commitFiles)).

(* ----------------------------------------------------------------- *)
(** *** The specification's terms

    The specification speaks of HEAD's tree and of staged changes without
    saying how the code gets at them.  They are written down here from its
    words, apart from [currentHeadCommit] and the classifier, so that
    [commit] can be compared with them. *)






(* ================================================================= *)
(** ** Public API *)

Definition is_nil (A : Type) (l : list A) : bool :=
  match l with [] => true | _ => false end.

(** The test [!staged.added.empty() || ... || !unstaged.untracked.empty()]
    of [checkout]. *)
Definition has_changes (staged : StagedChanges) (unstaged : WorkingDirChanges)
  : bool :=
  negb (is_nil (added staged)) || negb (is_nil (modified staged))
  || negb (is_nil (deleted staged)) || negb (is_nil (wd_modified unstaged))
  || negb (is_nil (wd_deleted unstaged)) || negb (is_nil (untracked unstaged)).

(** The test [staged.added.empty() && staged.modified.empty() &&
    staged.deleted.empty()] of [commit]. *)
Definition nothing_staged (staged : StagedChanges) : bool :=
  is_nil (added staged) && is_nil (modified staged) && is_nil (deleted staged).

(** The string [commit] hands to the hasher. *)
Definition commitContentToHash (c : Commit) : string :=
  message c ++ timestamp c ++ String.concat "" (parentHashes c)
  ++ String.concat "" (map (fun fb => fst fb ++ snd fb) (fileBlobs c)).

(** The effect of [status] on the object: it only prints, and caches the
    HEAD commit when it is not in [commits]. *)
Definition status (g : MiniGitSystem) (fs : FileSystem) : MiniGitSystem :=
  if negb (dot_minigit fs) then g
  else if empty (headCommitHash g) then g
  else if Umap.count (headCommitHash g) (commits g) then g
  else set_commits (Umap.assign (headCommitHash g)
                      (loadCommitFromFile fs (headCommitHash g)) (commits g)) g.

(** Lines 716-734 of [checkout]: the pair [(targetCommitHash, newHeadBranch)]. *)
Definition resolve_target (g : MiniGitSystem) (target : string)
  : string * string :=
  match Umap.find target (branches g) with
  | Some h => (h, target)
  | None =>
      if Umap.count target (commits g) then (target, "")
      else
        match List.find (fun entry => starts_with target (fst entry)
                                      && Nat.leb 4 (String.length target))
                        (commits g) with
        | Some entry => (fst entry, "")
        | None => ("", "")
        end
  end.

(** The commit digests [checkout] searches: the keys of the commit cache
    and, since [checkout] first loads the HEAD commit into the cache, the
    HEAD digest. *)
Definition known_digest (g : MiniGitSystem) (d : string) : Prop :=
  In d (Umap.keys (commits g))
  \/ (empty (headCommitHash g) = false /\ d = headCommitHash g).

(** The loop of the empty-branch case of [checkout]. *)
Definition clear_workdir (w : World) : World :=
  fold_left (fun w entry =>
               if scanned (fst entry) (snd entry)
               then perform (WorkingFileRemove (fst entry)) w else w)
            (workdir (disk w)) w.

(** [init]. *)
Definition init (g : MiniGitSystem) (w : World)
  : InitOutcome * MiniGitSystem * World :=
  if dot_minigit (disk w) then (AlreadyInitialized, g, w)
  else
    let w1 := perform (DirectoryCreate DotMinigit) w in
    let w2 := perform (DirectoryCreate ObjectsDir) w1 in
    let w3 := perform (DirectoryCreate CommitsDir) w2 in
    let w4 := create_refs_heads w3 in
    let g' := mkSystem (commits g) (Umap.assign "master" "" (branches g))
                       (stagingArea g) "master" "" in
    (Initialized, g', saveHeadAndBranchRefs g' w4).

(** [branch]. *)
Definition branch (g : MiniGitSystem) (w : World) (name : string)
  : BranchOutcome * MiniGitSystem * World :=
  if negb (dot_minigit (disk w)) then (BranchNotARepository, g, w)
  else if empty (headCommitHash g) then (NoCommits, g, w)
  else if Umap.count name (branches g) then (BranchExists, g, w)
  else
    let g' := set_branches (Umap.assign name (headCommitHash g) (branches g)) g in
    (BranchCreated, g', saveHeadAndBranchRefs g' w).

Section Hashing.

(** [std::hash<std::string>], supplied by the C++ standard library. *)
Variable hasher : string -> N.

Definition hashFileContent (content : string) : string :=
  to_string (hasher content).

Definition getUnstagedChanges (g : MiniGitSystem) (fs : FileSystem)
           (headCommit : option Commit) : WorkingDirChanges :=
  let commitFiles := commitFiles_of headCommit in
  let entries := filter (fun e => scanned (fst e) (snd e)) (workdir fs) in
  mkUnstaged
    (flat_map
       (fun e =>
          let filename := fst e in
          let currentHash := hashFileContent (readFileContent fs filename) in
          match Umap.find filename (stagingArea g) with
          | Some stagedHash =>
              if negb (String.eqb stagedHash currentHash)
              then [filename ++ " (not staged - staged version differs from WD)"]
              else []
          | None =>
              match Umap.find filename commitFiles with
              | Some committed =>
                  if negb (String.eqb committed currentHash) then [filename]
                  else []
              | None => []
              end
          end)
       entries)
    (map fst (filter (fun e => negb (Uset.count (fst e) (scan_workdir fs))
                               && negb (Umap.count (fst e) (stagingArea g)))
                     commitFiles))
    (map fst (filter (fun e => negb (Umap.count (fst e) (stagingArea g))
                               && negb (Umap.count (fst e) commitFiles))
                     entries)).

(** [add].  A read never fails here, so the branch for an unreadable
    non-empty file is not taken. *)
Definition add (g : MiniGitSystem) (w : World) (filename : string)
  : AddOutcome * MiniGitSystem * World :=
  if negb (dot_minigit (disk w)) then (AddNotARepository, g, w)
  else
    match entry_at (disk w) filename with
    | None => (NoSuchPath, g, w)
    | Some Directory => (NotARegularFile, g, w)
    | Some (RegularFile _) =>
        let content := readFileContent (disk w) filename in
        let h := hashFileContent content in
        match Umap.find filename (stagingArea g) with
        | Some staged =>
            if String.eqb staged h then (AlreadyStaged, g, w)
            else (Added, set_stagingArea (Umap.assign filename h (stagingArea g)) g,
                  saveBlob h content w)
        | None =>
            (Added, set_stagingArea (Umap.assign filename h (stagingArea g)) g,
             saveBlob h content w)
        end
    end.

(** The snapshot of the new commit: lines 578-594 of [commit]. *)
Definition new_fileBlobs (g : MiniGitSystem) (headCommit : option Commit)
           (staged : StagedChanges) : Umap.t string :=
  let base := if negb (empty (headCommitHash g)) then commitFiles_of headCommit
              else [] in
  let overlaid := fold_left (fun acc e => Umap.assign (fst e) (snd e) acc)
                            (stagingArea g) base in
  fold_left (fun acc filename => Umap.erase filename acc) (deleted staged) overlaid.

(** [commit]; [now] is the value of [getCurrentTime()]. *)
Definition commit (g : MiniGitSystem) (w : World) (message now : string)
  : CommitOutcome * MiniGitSystem * World :=
  if negb (dot_minigit (disk w)) then (CommitNotARepository, g, w)
  else
    let (g1, headCommit) := currentHeadCommit g (disk w) in
    let staged := getStagedChanges g1 (disk w) headCommit in
    if nothing_staged staged then (NoEffectiveChanges, set_stagingArea [] g1, w)
    else
      let parents := if negb (empty (headCommitHash g1)) then [headCommitHash g1]
                     else [] in
      let c0 := mkCommit "" message now parents (new_fileBlobs g1 headCommit staged) in
      let newCommit := with_hash (hashFileContent (commitContentToHash c0)) c0 in
      let g2 :=
        mkSystem (Umap.assign (hash newCommit) newCommit (commits g1))
                 (if negb (empty (headBranch g1))
                  then Umap.assign (headBranch g1) (hash newCommit) (branches g1)
                  else branches g1)
                 (stagingArea g1) (headBranch g1) (hash newCommit) in
      let w1 := saveHeadAndBranchRefs g2 w in
      let w2 := writeCommitToFile newCommit w1 in
      (Committed newCommit, set_stagingArea [] g2, w2).

(** [checkout]. *)
Definition checkout (g : MiniGitSystem) (w : World) (target : string)
  : CheckoutOutcome * MiniGitSystem * World :=
  if negb (dot_minigit (disk w)) then (CheckoutNotARepository, g, w)
  else
    let (g1, headCommit) := currentHeadCommit g (disk w) in
    let staged := getStagedChanges g1 (disk w) headCommit in
    let unstaged := getUnstagedChanges g1 (disk w) headCommit in
    if has_changes staged unstaged then (WorkingDirDirty, status g1 (disk w), w)
    else
      let (targetCommitHash, newHeadBranch) := resolve_target g1 target in
      if empty targetCommitHash && negb (empty newHeadBranch) then
        if String.eqb (headBranch g1) newHeadBranch then (AlreadyOnEmptyBranch, g1, w)
        else
          let w1 := clear_workdir w in
          let g2 := set_head newHeadBranch targetCommitHash g1 in
          (SwitchedToEmptyBranch, set_stagingArea [] g2, saveHeadAndBranchRefs g2 w1)
      else if empty targetCommitHash then (UnknownTarget, g1, w)
      else
        let g2 :=
          if Umap.count targetCommitHash (commits g1) then g1
          else set_commits (Umap.assign targetCommitHash
                              (loadCommitFromFile (disk w) targetCommitHash)
                              (commits g1)) g1 in
        let targetCommit :=
          match Umap.find targetCommitHash (commits g2) with
          | Some c => c
          | None => Commit_default
          end in
        if negb (Umap.count targetCommitHash (commits g1))
           && empty (hash targetCommit) then (CorruptCommit, g2, w)
        else if String.eqb (headCommitHash g2) targetCommitHash
                && ((empty newHeadBranch && empty (headBranch g2))
                    || String.eqb newHeadBranch (headBranch g2)) then
          (AlreadyOn, g2, w)
        else
          let g3 := set_head newHeadBranch targetCommitHash g2 in
          let w1 := saveHeadAndBranchRefs g3 w in
          let (w2, warnings) := populateWorkingDirectory targetCommit w1 in
          (CheckedOut warnings, set_stagingArea [] g3, w2).

End Hashing.

(* ================================================================= *)
(** ** Example data

    [sample_hasher] stands in for [std::hash<std::string>] wherever an
    operation has to be evaluated on concrete data; the general theorems
    quantify over the hasher. *)

Fixpoint poly_hash (acc : N) (s : string) : N :=
  match s with
  | "" => acc
  | String c s' =>
      poly_hash ((acc * 131 + N_of_ascii c) mod 18446744073709551616)%N s'
  end.

Definition sample_hasher (s : string) : N := poly_hash 7 s.

(** A directory that holds [file.txt] and no repository. *)
Definition fresh_fs : FileSystem :=
  mkFS [("file.txt", RegularFile ("Line 1" ++ nl ++ "Line 2" ++ nl))]
       false false false false [] [] [] None.

(** The same directory after [init]. *)
Definition initialized_fs : FileSystem :=
  mkFS [("file.txt", RegularFile ("Line 1" ++ nl ++ "Line 2" ++ nl))]
       true true true true [] [] []
       (Some ("ref: refs/heads/master" ++ nl)).

(** The object a process holds after [init], and after [add file.txt]. *)
Definition initialized_system : MiniGitSystem :=
  mkSystem [] [("master", "")] [] "master" "".

Definition staged_system : MiniGitSystem :=
  mkSystem [] [("master", "")] [("file.txt", "4590712520188692798")]
           "master" "".

Definition staged_fs : FileSystem :=
  mkFS [("file.txt", RegularFile ("Line 1" ++ nl ++ "Line 2" ++ nl))]
       true true true true
       [("4590712520188692798", "Line 1" ++ nl ++ "Line 2" ++ nl)] [] []
       (Some ("ref: refs/heads/master" ++ nl)).

(** The first commit of the walk-through, made at a fixed time. *)
Definition first_commit : Commit :=
  mkCommit "8276604627639202864" "Add file.txt" "2024-01-01 10:00:00" []
           [("file.txt", "4590712520188692798")].

Definition committed_system : MiniGitSystem :=
  mkSystem [("8276604627639202864", first_commit)]
           [("master", "8276604627639202864")] []
           "master" "8276604627639202864".

Definition committed_fs : FileSystem :=
  mkFS [("file.txt", RegularFile ("Line 1" ++ nl ++ "Line 2" ++ nl))]
       true true true true
       [("4590712520188692798", "Line 1" ++ nl ++ "Line 2" ++ nl)]
       [("8276604627639202864", commit_text first_commit)]
       [("master", "8276604627639202864" ++ nl)]
       (Some ("ref: refs/heads/master" ++ nl)).

(** Two commits whose digests share their first four characters; the second
    one deleted the only file, and HEAD is on it. *)
Definition twin_older : Commit :=
  mkCommit "12345678" "Add file.txt" "2024-01-01 10:00:00" []
           [("file.txt", "4590712520188692798")].

Definition twin_newer : Commit :=
  mkCommit "12349999" "Remove file.txt" "2024-01-02 10:00:00" ["12345678"] [].

Definition twin_system : MiniGitSystem :=
  mkSystem [("12345678", twin_older); ("12349999", twin_newer)]
           [("master", "12349999")] [] "master" "12349999".

(** The same object with the commit map iterating the other way round. *)
Definition twin_system_reversed : MiniGitSystem :=
  mkSystem [("12349999", twin_newer); ("12345678", twin_older)]
           [("master", "12349999")] [] "master" "12349999".

Definition twin_fs : FileSystem :=
  mkFS [] true true true true
       [("4590712520188692798", "Line 1" ++ nl ++ "Line 2" ++ nl)]
       [("12345678", commit_text twin_older); ("12349999", commit_text twin_newer)]
       [("master", "12349999" ++ nl)]
       (Some ("ref: refs/heads/master" ++ nl)).

(** [file.txt] staged again with the content HEAD already has. *)
Definition restaged_system : MiniGitSystem :=
  mkSystem [("8276604627639202864", first_commit)]
           [("master", "8276604627639202864")]
           [("file.txt", "4590712520188692798")]
           "master" "8276604627639202864".

(** After the first commit: [file.txt] was deleted from the working
    directory and [other.txt] was created and staged. *)
Definition second_system : MiniGitSystem :=
  mkSystem [("8276604627639202864", first_commit)]
           [("master", "8276604627639202864")]
           [("other.txt", "17637697")]
           "master" "8276604627639202864".

Definition second_fs : FileSystem :=
  mkFS [("other.txt", RegularFile "new")]
       true true true true
       [("4590712520188692798", "Line 1" ++ nl ++ "Line 2" ++ nl);
        ("17637697", "new")]
       [("8276604627639202864", commit_text first_commit)]
       [("master", "8276604627639202864" ++ nl)]
       (Some ("ref: refs/heads/master" ++ nl)).

(** Another process: it is on an empty branch [main], caches an unrelated
    commit, and has staged the same [file.txt]. *)
Definition main_system : MiniGitSystem :=
  mkSystem [("12345678", mkCommit "12345678" "Other" "2023-12-31 09:00:00" [] [])]
           [("main", "")]
           [("file.txt", "4590712520188692798")]
           "main" "".

(** After the first commit, with [file.txt] edited and not staged. *)
Definition modified_fs : FileSystem :=
  mkFS [("file.txt",
         RegularFile ("Modified Line 1" ++ nl ++ "Line 2" ++ nl ++ "New Line 3" ++ nl))]
       true true true true
       [("4590712520188692798", "Line 1" ++ nl ++ "Line 2" ++ nl)]
       [("8276604627639202864", commit_text first_commit)]
       [("master", "8276604627639202864" ++ nl)]
       (Some ("ref: refs/heads/master" ++ nl)).



(** Two processes on a repository without commits that have staged the
    same two files; the index of the second iterates the other way round. *)
Definition ordered_system : MiniGitSystem :=
  mkSystem [] [("master", "")] [("a.txt", "1"); ("b.txt", "2")] "master" "".

Definition reordered_system : MiniGitSystem :=
  mkSystem [] [("master", "")] [("b.txt", "2"); ("a.txt", "1")] "master" "".

(** The process of [second_system] on a branch whose name holds a
    separator; no directory [.minigit/refs/heads/feat] exists. *)
Definition slash_branch_system : MiniGitSystem :=
  mkSystem [("8276604627639202864", first_commit)]
           [("master", "8276604627639202864");
            ("feat/x", "8276604627639202864")]
           [("other.txt", "17637697")]
           "feat/x" "8276604627639202864".

(** Two commits of one file whose two lines change places. *)
Definition swapped_older : Commit :=
  mkCommit "11110000" "Two lines" "2024-01-01 10:00:00" []
           [("file.txt", "501")].

Definition swapped_newer : Commit :=
  mkCommit "22220000" "Swap the lines" "2024-01-02 10:00:00" ["11110000"]
           [("file.txt", "502")].

Definition swapped_system : MiniGitSystem :=
  mkSystem [("11110000", swapped_older); ("22220000", swapped_newer)]
           [("master", "22220000")] [] "master" "22220000".

Definition swapped_fs : FileSystem :=
  mkFS [("file.txt", RegularFile ("b" ++ nl ++ "a" ++ nl))]
       true true true true
       [("501", "a" ++ nl ++ "b" ++ nl); ("502", "b" ++ nl ++ "a" ++ nl)]
       [("11110000", commit_text swapped_older);
        ("22220000", commit_text swapped_newer)]
       [("master", "22220000" ++ nl)]
       (Some ("ref: refs/heads/master" ++ nl)).

(** An object store that lacks blob [77], and one that holds it empty. *)
Definition fs_without_blob : FileSystem :=
  mkFS [] true true true true [] [] [] (Some ("ref: refs/heads/master" ++ nl)).

Definition fs_with_empty_blob : FileSystem :=
  mkFS [] true true true true [("77", "")] [] []
       (Some ("ref: refs/heads/master" ++ nl)).

(** No ref file and no detached HEAD names a commit that has no record:
    the condition an interrupted run is meant to preserve. *)
Definition names_stored_commit (fs : FileSystem) (line : string) : bool :=
  empty line || Umap.count line (commit_files fs).

Definition no_dangling_ref (fs : FileSystem) : bool :=
  forallb (fun entry => names_stored_commit fs (getline (snd entry)))
          (ref_files fs)
  && match HEAD_file fs with
     | Some content =>
         starts_with "ref: refs/heads/" (getline content)
         || names_stored_commit fs (getline content)
     | None => true
     end.

(* ================================================================= *)
(** ** [log] *)

(** The annotation printed after the abbreviated digest. *)
Inductive HeadMark : Type :=
| HeadOnBranch (b : string)    (* " (HEAD -> b)" *)
| HeadDetached                 (* " (HEAD, detached)" *)
| NoMark.

(** What [log] prints for one commit. *)
Record LogEntry : Type := mkLogEntry {
  entry_commit : string;            (* c.hash.substr(0, 7) *)
  entry_mark : HeadMark;
  entry_branches : list string;     (* the other branches pointing here *)
  entry_parents : list string;      (* p.substr(0, 7) for every parent *)
  entry_date : string;
  entry_message : string
}.

Inductive LogResult : Type :=
| LogNotARepository
| LogNoCommits                  (* "No commits yet." *)
| LogHistory (entries : list LogEntry) (corrupt : option string).
    (* [corrupt]: "Error: Corrupt commit reference ... Stopping log." *)

(** [branches[headBranch]] evaluated for reading: [operator[]] inserts an
    empty digest when the key is missing. *)
Definition touch_branch (g : MiniGitSystem) : MiniGitSystem :=
  if Umap.count (headBranch g) (branches g) then g
  else set_branches (Umap.assign (headBranch g) "" (branches g)) g.

(** One turn of the [while] loop of [log] on [current]: the object
    afterwards and, unless the loop breaks on a corrupt reference, the entry
    printed and the next value of [current]. *)
Definition log_body (fs : FileSystem) (g : MiniGitSystem) (current : string)
  : MiniGitSystem * option (LogEntry * string) :=
  let g1 :=
    if Umap.count current (commits g) then g
    else set_commits (Umap.assign current (loadCommitFromFile fs current)
                                  (commits g)) g in
  let c := match Umap.find current (commits g1) with
           | Some c => c
           | None => Commit_default
           end in
  if negb (Umap.count current (commits g)) && empty (hash c) then (g1, None)
  else
    let g2 := if negb (empty (headBranch g1)) then touch_branch g1 else g1 in
    let mark :=
      if negb (empty (headBranch g1))
         && match Umap.find (headBranch g1) (branches g2) with
            | Some h => String.eqb h current
            | None => false
            end
      then HeadOnBranch (headBranch g1)
      else if empty (headBranch g1) && String.eqb (headCommitHash g1) current
           then HeadDetached
           else NoMark in
    let others :=
      map fst (filter (fun e => negb (String.eqb (fst e) (headBranch g2))
                                && String.eqb (snd e) current)
                      (branches g2)) in
    (g2,
     Some (mkLogEntry (substr_to 7 (hash c)) mark others
                      (map (substr_to 7) (parentHashes c))
                      (timestamp c) (message c),
           match parentHashes c with
           | [] => ""
           | p :: _ => p
           end)).

(** The [while] loop of [log]; [None] when [fuel] turns do not finish it. *)
Fixpoint log_loop (fuel : nat) (fs : FileSystem) (g : MiniGitSystem)
         (current : string) (visitedCommits : Uset.t) (entries : list LogEntry)
  : option (MiniGitSystem * list LogEntry * Uset.t * option string) :=
  if empty current || Uset.count current visitedCommits
  then Some (g, entries, visitedCommits, None)
  else
    match fuel with
    | O => None
    | S fuel' =>
        match log_body fs g current with
        | (g', None) => Some (g', entries, visitedCommits, Some current)
        | (g', Some (entry, next)) =>
            log_loop fuel' fs g' next (Uset.insert current visitedCommits)
                     (entries ++ [entry])%list
        end
    end.

(** [log]. *)
Definition log (fuel : nat) (g : MiniGitSystem) (fs : FileSystem)
  : option (LogResult * MiniGitSystem) :=
  if negb (dot_minigit fs) then Some (LogNotARepository, g)
  else if empty (headCommitHash g) then Some (LogNoCommits, g)
  else
    match log_loop fuel fs g (headCommitHash g) [] [] with
    | Some (g', entries, _, corrupt) => Some (LogHistory entries corrupt, g')
    | None => None
    end.

(** The commit digests a run of [log] can come across: the keys of the
    cache and the names of the commit files. *)
Definition commit_universe (g : MiniGitSystem) (fs : FileSystem) : list string :=
  (Umap.keys (commits g) ++ Umap.keys (commit_files fs))%list.

(* ================================================================= *)
(** ** [displayLineDiff] *)

Inductive DiffLine : Type :=
| Unchanged (line : string)     (* "  " << line *)
| Removed (line : string)       (* "- " << line *)
| Inserted (line : string).     (* "+ " << line *)

Definition render (d : DiffLine) : string :=
  match d with
  | Unchanged line => "  " ++ line
  | Removed line => "- " ++ line
  | Inserted line => "+ " ++ line
  end.

(** One turn of the [while] loop of [displayLineDiff].  The two vectors are
    given from [oldIdx] and from [newIdx] on; the turn yields the lines
    printed and the two vectors from the new indices on. *)
Definition diff_turn (oldLines newLines : list string)
  : list DiffLine * list string * list string :=
  let oldLeft := negb (is_nil oldLines) in
  let newLeft := negb (is_nil newLines) in
  let oldLine := hd "" oldLines in
  let newLine := hd "" newLines in
  if oldLeft && newLeft && String.eqb oldLine newLine then
    ([Unchanged oldLine], tl oldLines, tl newLines)
  else
    let oldFoundInNew := oldLeft && existsb (String.eqb oldLine) newLines in
    let newFoundInOld := newLeft && existsb (String.eqb newLine) oldLines in
    if oldLeft && negb oldFoundInNew then
      ([Removed oldLine], tl oldLines, newLines)
    else if newLeft && negb newFoundInOld then
      ([Inserted newLine], oldLines, tl newLines)
    else
      let first :=
        if oldLeft && negb newFoundInOld
        then ([Removed oldLine], tl oldLines) else ([], oldLines) in
      let second :=
        if newLeft && negb oldFoundInNew
        then ([Inserted newLine], tl newLines) else ([], newLines) in
      ((fst first ++ fst second)%list, snd first, snd second).

(** The [while] loop of [displayLineDiff]; [None] when [fuel] turns do not
    finish it. *)
Fixpoint diff_loop (fuel : nat) (oldLines newLines : list string)
  : option (list DiffLine) :=
  if is_nil oldLines && is_nil newLines then Some []
  else
    match fuel with
    | O => None
    | S fuel' =>
        let '(printed, oldLines', newLines') := diff_turn oldLines newLines in
        match diff_loop fuel' oldLines' newLines' with
        | Some rest => Some (printed ++ rest)%list
        | None => None
        end
    end.

(** [displayLineDiff]: the lines sent to [std::cout]. *)
Definition displayLineDiff (fuel : nat) (oldContent newContent filename : string)
  : option (list string) :=
  match diff_loop fuel (getlines oldContent) (getlines newContent) with
  | Some printed =>
      Some (("--- Diff for: " ++ filename ++ " ---")
              :: (map render printed ++ ["---------------------------"])%list)
  | None => None
  end.

(** The old and the new text as a finished diff shows them. *)
Fixpoint old_side (printed : list DiffLine) : list string :=
  match printed with
  | [] => []
  | Unchanged line :: rest => line :: old_side rest
  | Removed line :: rest => line :: old_side rest
  | Inserted _ :: rest => old_side rest
  end.

Fixpoint new_side (printed : list DiffLine) : list string :=
  match printed with
  | [] => []
  | Unchanged line :: rest => line :: new_side rest
  | Inserted line :: rest => line :: new_side rest
  | Removed _ :: rest => new_side rest
  end.

(* ================================================================= *)
(** ** [status] *)

(** The HEAD commit [status] classifies against: lines 804-818.  Unlike
    [commit] and [checkout], [status] drops a commit it has just loaded when
    the load failed. *)
Definition status_head_commit (g : MiniGitSystem) (fs : FileSystem)
  : option Commit :=
  if empty (headCommitHash g) then None
  else if Umap.count (headCommitHash g) (commits g) then
    Umap.find (headCommitHash g) (commits g)
  else
    let c := loadCommitFromFile fs (headCommitHash g) in
    if empty (hash c) then None else Some c.

(** What [status] prints, piece by piece. *)
Record StatusReport : Type := mkReport {
  report_branch : string;           (* "On branch ..." *)
  report_head : string;             (* "HEAD points to: ..." *)
  report_staged : StagedChanges;    (* "Changes to be committed:" *)
  report_unstaged : WorkingDirChanges;
  report_clean : bool               (* "Your working directory is clean." *)
}.

(* ================================================================= *)
(** ** [diff] *)

(** One call of [displayLineDiff]: the two texts and the label, which is
    the path followed by a note. *)
Record DiffCall : Type := mkDiffCall {
  diff_old : string;
  diff_new : string;
  diff_path : string;
  diff_note : string
}.

Inductive DiffOutcome : Type :=
| DiffNotARepository
| DiffNoHead           (* "No HEAD commit to compare against. Use `commit` first." *)
| DiffCommitNotFound (arg : string)
                       (* "Error: Commit ... not found or corrupt." *)
| DiffShown (calls : list DiffCall)
                       (* the calls of [displayLineDiff], in order, each of
                          which returned; without any, "No differences ..."
                          is printed *)
| DiffUsage.

(** The lambda [resolveHash] of [diff]. *)
Definition resolveHash (g : MiniGitSystem) (h : string) : string :=
  if Nat.eqb (String.length h) 40 then h
  else
    match List.find (fun entry => starts_with h (fst entry)
                                  && Nat.leb 4 (String.length h))
                    (commits g) with
    | Some entry => fst entry
    | None => ""
    end.

(** The test [h.empty() || commits.find(h) == commits.end() ||
    commits[h].hash.empty()] of [diff], with the commit when it passes. *)
Definition usable_commit (g : MiniGitSystem) (h : string) : option Commit :=
  if empty h then None
  else
    match Umap.find h (commits g) with
    | Some c => if empty (hash c) then None else Some c
    | None => None
    end.

(** The set [allFiles] after inserting two runs of names. *)
Definition all_files (first second : list string) : Uset.t :=
  fold_left (fun acc k => Uset.insert k acc) second
            (fold_left (fun acc k => Uset.insert k acc) first []).

(** The body of the loop over [allFiles], for each of the modes. *)
Definition diff_staged_file (fs : FileSystem) (index headTree : Umap.t string)
           (filename : string) : list DiffCall :=
  match Umap.find filename index, Umap.find filename headTree with
  | Some staged, Some committed =>
      if negb (String.eqb (loadBlob fs staged) (loadBlob fs committed))
      then [mkDiffCall (loadBlob fs committed) (loadBlob fs staged) filename ""]
      else []
  | None, Some committed =>
      [mkDiffCall (loadBlob fs committed) "" filename " (deleted from staged)"]
  | Some staged, None =>
      [mkDiffCall "" (loadBlob fs staged) filename " (new file staged)"]
  | None, None => []
  end.

Definition diff_commits_file (fs : FileSystem) (c1 c2 : Commit)
           (filename : string) : list DiffCall :=
  match Umap.find filename (fileBlobs c1), Umap.find filename (fileBlobs c2) with
  | Some b1, Some b2 =>
      if negb (String.eqb b1 b2)
      then [mkDiffCall (loadBlob fs b1) (loadBlob fs b2) filename ""]
      else []
  | Some b1, None => [mkDiffCall (loadBlob fs b1) "" filename " (deleted)"]
  | None, Some b2 => [mkDiffCall "" (loadBlob fs b2) filename " (new file)"]
  | None, None => []
  end.

Definition diff_workdir_file (fs : FileSystem) (c : Commit) (filename : string)
  : list DiffCall :=
  let inWD := match entry_at fs filename with
              | Some (RegularFile _) => true
              | _ => false
              end in
  match inWD, Umap.find filename (fileBlobs c) with
  | true, Some b =>
      if negb (String.eqb (readFileContent fs filename) (loadBlob fs b))
      then [mkDiffCall (loadBlob fs b) (readFileContent fs filename) filename ""]
      else []
  | false, Some b => [mkDiffCall (loadBlob fs b) "" filename " (deleted in WD)"]
  | true, None =>
      [mkDiffCall "" (readFileContent fs filename) filename " (new in WD)"]
  | false, None => []
  end.

(** The first mode: working directory against the index. *)
Definition diff_unstaged (g : MiniGitSystem) (fs : FileSystem) : list DiffCall :=
  (flat_map (fun entry =>
               if scanned (fst entry) (snd entry) then
                 match Umap.find (fst entry) (stagingArea g) with
                 | Some staged =>
                     if negb (String.eqb (readFileContent fs (fst entry))
                                         (loadBlob fs staged))
                     then [mkDiffCall (loadBlob fs staged)
                                      (readFileContent fs (fst entry))
                                      (fst entry) ""]
                     else []
                 | None => []
                 end
               else [])
            (workdir fs)
   ++ flat_map (fun pair =>
                  if negb (fs_exists fs (fst pair))
                  then [mkDiffCall (loadBlob fs (snd pair)) "" (fst pair)
                                   " (deleted from WD)"]
                  else [])
               (stagingArea g))%list.

(** The calls of [displayLineDiff] that the loops of [diff] make, in
    order, as long as each call returns. *)
Definition diff_calls (g : MiniGitSystem) (fs : FileSystem) (arg1 arg2 : string)
  : DiffOutcome * MiniGitSystem :=
  if negb (dot_minigit fs) then (DiffNotARepository, g)
  else if empty arg1 && empty arg2 then (DiffShown (diff_unstaged g fs), g)
  else if String.eqb arg1 "--staged" || String.eqb arg1 "--cached" then
    if empty (headCommitHash g) then (DiffNoHead, g)
    else
      let (g', headCommit) := currentHeadCommit g fs in
      let headTree := commitFiles_of headCommit in
      (DiffShown
         (flat_map (diff_staged_file fs (stagingArea g') headTree)
                   (all_files (Umap.keys (stagingArea g')) (Umap.keys headTree))),
       g')
  else if negb (empty arg1) && negb (empty arg2) then
    match usable_commit g (resolveHash g arg1) with
    | None => (DiffCommitNotFound arg1, g)
    | Some c1 =>
        match usable_commit g (resolveHash g arg2) with
        | None => (DiffCommitNotFound arg2, g)
        | Some c2 =>
            (DiffShown
               (flat_map (diff_commits_file fs c1 c2)
                         (all_files (Umap.keys (fileBlobs c1))
                                    (Umap.keys (fileBlobs c2)))),
             g)
        end
    end
  else if negb (empty arg1) && empty arg2 then
    match usable_commit g (resolveHash g arg1) with
    | None => (DiffCommitNotFound arg1, g)
    | Some c =>
        (DiffShown
           (flat_map (diff_workdir_file fs c)
                     (all_files
                        (map fst (filter (fun entry =>
                                            scanned (fst entry) (snd entry))
                                         (workdir fs)))
                        (Umap.keys (fileBlobs c)))),
         g)
    end
  else (DiffUsage, g).

(** Whether a call of [displayLineDiff] returns within [fuel] turns of its
    loop. *)
Definition returns (fuel : nat) (call : DiffCall) : bool :=
  match displayLineDiff fuel (diff_old call) (diff_new call)
                        (diff_path call ++ diff_note call) with
  | Some _ => true
  | None => false
  end.

(** [diff].  The calls are made one after the other from inside the loops,
    so the function returns only when every call does; [None] when one of
    them does not return within [fuel] turns. *)
Definition diff (fuel : nat) (g : MiniGitSystem) (fs : FileSystem)
           (arg1 arg2 : string) : option (DiffOutcome * MiniGitSystem) :=
  match diff_calls g fs arg1 arg2 with
  | (DiffShown calls, g') =>
      if forallb (returns fuel) calls then Some (DiffShown calls, g') else None
  | result => Some result
  end.

(* ================================================================= *)
(** ** Well-formed commit records *)

(** The fields [writeCommitToFile] can write so that [loadCommitFromFile]
    reads them back: the message, the timestamp and every blob digest fit on
    a line, every parent digest is a non-empty word, every path fits on a
    line and holds no colon, and the paths are distinct. *)
Definition is_newline (c : ascii) : bool := Ascii.eqb c newline.
Definition is_colon (c : ascii) : bool := Ascii.eqb c ":"%char.

Definition parent_ok (p : string) : bool :=
  negb (empty p) && no_char isspace p.

Definition entry_ok (e : string * string) : bool :=
  no_char is_newline (fst e) && no_char is_colon (fst e)
  && no_char is_newline (snd e).

Definition record_ok (c : Commit) : bool :=
  no_char is_newline (message c) && no_char is_newline (timestamp c)
  && forallb parent_ok (parentHashes c) && forallb entry_ok (fileBlobs c).

Section Reporting.
Variable hasher : string -> N.

(** [status], as the report it prints; [None] outside a repository. *)
Definition status_report (g : MiniGitSystem) (fs : FileSystem)
  : option StatusReport :=
  if negb (dot_minigit fs) then None
  else
    let headCommit := status_head_commit g fs in
    let g' := status g fs in
    let staged := getStagedChanges g' fs headCommit in
    let unstaged := getUnstagedChanges hasher g' fs headCommit in
    Some (mkReport
            (if empty (headBranch g) then "(detached HEAD)" else headBranch g)
            (if empty (headCommitHash g) then "No commits yet"
             else substr_to 7 (headCommitHash g))
            staged unstaged
            (nothing_staged staged && is_nil (wd_modified unstaged)
             && is_nil (wd_deleted unstaged) && is_nil (untracked unstaged))).

End Reporting.

(** A malformed history: two cached commits that name each other as
    parent, HEAD on the first. *)
Definition cyclic_system : MiniGitSystem :=
  mkSystem [("11112222", mkCommit "11112222" "One" "2024-01-01 10:00:00"
                                  ["33334444"] []);
            ("33334444", mkCommit "33334444" "Two" "2024-01-02 10:00:00"
                                  ["11112222"] [])]
           [("master", "11112222")] [] "master" "11112222".

(** After the first commit, with [file.txt] deleted and nothing staged. *)
Definition emptied_fs : FileSystem :=
  mkFS [] true true true true
       [("4590712520188692798", "Line 1" ++ nl ++ "Line 2" ++ nl)]
       [("8276604627639202864", commit_text first_commit)]
       [("master", "8276604627639202864" ++ nl)]
       (Some ("ref: refs/heads/master" ++ nl)).

(** What a path of the target tree denotes once [populateWorkingDirectory]
    has dealt with it: untouched when its blob is missing or a directory is
    in the way, a regular file with the blob's content otherwise. *)
Definition materialized (fs : FileSystem) (filename blobHash : string)
  : option DirEntry :=
  if empty (loadBlob fs blobHash) && negb (Umap.count blobHash (objects fs))
  then Umap.find filename (workdir fs)
  else match Umap.find filename (workdir fs) with
       | Some Directory => Some Directory
       | _ => Some (RegularFile (loadBlob fs blobHash))
       end.

(** A mutation of the working directory leaves [.minigit] alone. *)
Definition same_repository (fs fs' : FileSystem) : Prop :=
  dot_minigit fs' = dot_minigit fs
  /\ objects_dir fs' = objects_dir fs
  /\ commits_dir fs' = commits_dir fs
  /\ refs_heads_dir fs' = refs_heads_dir fs
  /\ objects fs' = objects fs
  /\ commit_files fs' = commit_files fs
  /\ ref_files fs' = ref_files fs
  /\ HEAD_file fs' = HEAD_file fs.

(** After the first commit, with an empty ref file [empty] beside the one
    of [master], a hidden file and a directory in the working root. *)
Definition empty_branch_fs : FileSystem :=
  mkFS [("file.txt", RegularFile ("Line 1" ++ nl ++ "Line 2" ++ nl));
        (".hidden", RegularFile "keep");
        ("docs", Directory)]
       true true true true
       [("4590712520188692798", "Line 1" ++ nl ++ "Line 2" ++ nl)]
       [("8276604627639202864", commit_text first_commit)]
       [("master", "8276604627639202864" ++ nl); ("empty", "")]
       (Some ("ref: refs/heads/master" ++ nl)).

(** Two commit objects with the same identity, message, timestamp, parents
    in order and tree mapping. *)
Definition same_record (c c' : Commit) : Prop :=
  hash c' = hash c
  /\ message c' = message c
  /\ timestamp c' = timestamp c
  /\ parentHashes c' = parentHashes c
  /\ forall path,
       Umap.find path (fileBlobs c') = Umap.find path (fileBlobs c).

(* ================================================================= *)
(** * Theorems *)

(** ** Facts about the containers *)

Module UmapFacts.

Section Facts.
Variable V : Type.

Lemma find_assign_same (k : string) (v : V) (m : Umap.t V) :
  Umap.find k (Umap.assign k v m) = Some v.
Proof.
  induction m as [|[k' v'] m IH]; simpl.
  - now rewrite String.eqb_refl.
  - destruct (String.eqb k' k) eqn:E; simpl; rewrite E; auto.
Qed.

Lemma find_assign_other (k k' : string) (v : V) (m : Umap.t V) :
  k <> k' -> Umap.find k' (Umap.assign k v m) = Umap.find k' m.
Proof.
  intros Hne. induction m as [|[k0 v0] m IH]; simpl.
  - destruct (String.eqb k k') eqn:E; auto.
    apply String.eqb_eq in E. contradiction.
  - destruct (String.eqb k0 k) eqn:E; simpl.
    + apply String.eqb_eq in E. subst k0.
      destruct (String.eqb k k') eqn:E'; auto.
      apply String.eqb_eq in E'. contradiction.
    + now rewrite IH.
Qed.

Lemma find_assign (k k' : string) (v : V) (m : Umap.t V) :
  Umap.find k' (Umap.assign k v m)
  = if String.eqb k k' then Some v else Umap.find k' m.
Proof.
  destruct (String.eqb k k') eqn:E.
  - apply String.eqb_eq in E. subst. apply find_assign_same.
  - apply String.eqb_neq in E. now apply find_assign_other.
Qed.

Lemma find_erase (k k' : string) (m : Umap.t V) :
  Umap.find k' (Umap.erase k m)
  = if String.eqb k k' then None else Umap.find k' m.
Proof.
  unfold Umap.erase. induction m as [|[k0 v0] m IH]; simpl.
  - now destruct (String.eqb k k').
  - destruct (String.eqb k0 k) eqn:E; simpl.
    + apply String.eqb_eq in E. subst k0. rewrite IH.
      now destruct (String.eqb k k').
    + rewrite IH. destruct (String.eqb k0 k') eqn:E'; auto.
      apply String.eqb_eq in E'. subst k0.
      rewrite String.eqb_sym in E. now rewrite E.
Qed.

Lemma count_assign (k k' : string) (v : V) (m : Umap.t V) :
  Umap.count k' (Umap.assign k v m) = String.eqb k k' || Umap.count k' m.
Proof.
  unfold Umap.count. rewrite find_assign. now destruct (String.eqb k k').
Qed.

Lemma find_In_keys (k : string) (v : V) (m : Umap.t V) :
  Umap.find k m = Some v -> In k (Umap.keys m).
Proof.
  induction m as [|[k0 v0] m IH]; simpl; [discriminate|].
  destruct (String.eqb k0 k) eqn:E.
  - apply String.eqb_eq in E. auto.
  - auto.
Qed.

Lemma find_None_keys (k : string) (m : Umap.t V) :
  Umap.find k m = None <-> ~ In k (Umap.keys m).
Proof.
  induction m as [|[k0 v0] m IH]; simpl.
  - tauto.
  - destruct (String.eqb k0 k) eqn:E.
    + apply String.eqb_eq in E. split; [discriminate | tauto].
    + apply String.eqb_neq in E. tauto.
Qed.

(** Keys stay unique, as they are in a [std::unordered_map]. *)
Lemma keys_assign (k : string) (v : V) (m : Umap.t V) :
  Umap.keys (Umap.assign k v m)
  = if Umap.count k m then Umap.keys m else (Umap.keys m ++ [k])%list.
Proof.
  unfold Umap.count. induction m as [|[k0 v0] m IH]; simpl; auto.
  destruct (String.eqb k0 k) eqn:E; simpl; auto.
  rewrite IH. now destruct (Umap.find k m).
Qed.

Lemma NoDup_keys_assign (k : string) (v : V) (m : Umap.t V) :
  NoDup (Umap.keys m) -> NoDup (Umap.keys (Umap.assign k v m)).
Proof.
  intros Hnd. rewrite keys_assign. unfold Umap.count.
  destruct (Umap.find k m) eqn:E; auto.
  apply find_None_keys in E.
  apply NoDup_rev in Hnd. rewrite <- (rev_involutive (_ ++ _)).
  apply NoDup_rev. rewrite rev_app_distr. simpl.
  constructor; auto. now rewrite <- in_rev.
Qed.

End Facts.

End UmapFacts.

(* ================================================================= *)
(** ** Persisting HEAD and the current branch *)

Lemma create_refs_heads_frame (w : World) :
  workdir (disk (create_refs_heads w)) = workdir (disk w)
  /\ objects (disk (create_refs_heads w)) = objects (disk w)
  /\ commit_files (disk (create_refs_heads w)) = commit_files (disk w)
  /\ ref_files (disk (create_refs_heads w)) = ref_files (disk w)
  /\ HEAD_file (disk (create_refs_heads w)) = HEAD_file (disk w)
  /\ objects_dir (disk (create_refs_heads w)) = objects_dir (disk w)
  /\ commits_dir (disk (create_refs_heads w)) = commits_dir (disk w)
  /\ refs_heads_dir (disk (create_refs_heads w)) = true.
Proof.
  unfold create_refs_heads.
  destruct (refs_heads_dir (disk w)) eqn:E; simpl; repeat split; auto.
Qed.

Lemma save_head_frame (g : MiniGitSystem) (w : World) :
  workdir (disk (save_head g w)) = workdir (disk w)
  /\ objects (disk (save_head g w)) = objects (disk w)
  /\ commit_files (disk (save_head g w)) = commit_files (disk w)
  /\ ref_files (disk (save_head g w)) = ref_files (disk w)
  /\ dot_minigit (disk (save_head g w)) = dot_minigit (disk w)
  /\ objects_dir (disk (save_head g w)) = objects_dir (disk w)
  /\ commits_dir (disk (save_head g w)) = commits_dir (disk w)
  /\ refs_heads_dir (disk (save_head g w)) = refs_heads_dir (disk w).
Proof.
  unfold save_head. destruct (dot_minigit (disk w)) eqn:E; simpl; rewrite ?E;
    repeat split; auto.
Qed.

(** *** Resolving the path of a ref file *)

Lemma components_cons (a b : string) :
  no_char is_slash a = true ->
  components (a ++ String "/"%char b) = a :: components b.
Proof.
  induction a as [|c a IH]; simpl; intros H; [reflexivity|].
  apply andb_true_iff in H. destruct H as [Hc Ha].
  apply negb_true_iff in Hc. rewrite Hc, (IH Ha). reflexivity.
Qed.

Lemma components_single (name : string) :
  no_char is_slash name = true -> components name = [name].
Proof.
  induction name as [|c name IH]; simpl; intros H; [reflexivity|].
  apply andb_true_iff in H. destruct H as [Hc Ha].
  apply negb_true_iff in Hc. rewrite Hc, (IH Ha). reflexivity.
Qed.

Lemma components_branch_ref_path (name : string) :
  components (branch_ref_path name)
  = ".minigit" :: "refs" :: "heads" :: components name.
Proof.
  change (branch_ref_path name)
    with (".minigit" ++ String "/"%char
            ("refs" ++ String "/"%char ("heads" ++ String "/"%char name))).
  now rewrite !components_cons.
Qed.

Lemma components_nonempty (p : string) : components p <> [].
Proof.
  destruct p as [|c p]; simpl; [discriminate|].
  destruct (is_slash c); [discriminate|].
  destruct (components p); discriminate.
Qed.

(** Below [.minigit/refs/heads] a path names a ref file, the directory
    itself, or nothing. *)
Lemma locate_from_heads (fs : FileSystem) (cs : list string) :
  locate_from fs (Inside RefsHeadsDir) cs = NoPlace
  \/ locate_from fs (Inside RefsHeadsDir) cs = DirectoryPlace
  \/ exists name, locate_from fs (Inside RefsHeadsDir) cs = RefFile name.
Proof.
  induction cs as [|c cs IH]; simpl; [now left|].
  destruct cs as [|c' cs].
  - destruct (empty c || String.eqb c "." || String.eqb c "..");
      [right; now left|].
    right. right. now exists c.
  - destruct (empty c || String.eqb c "."); [exact IH|].
    destruct (String.eqb c ".."); now left.
Qed.

Lemma locate_from_root_heads (fs : FileSystem) (c : string) (cs : list string) :
  locate_from fs AtRoot (".minigit" :: "refs" :: "heads" :: c :: cs)
  = if dot_minigit fs && refs_heads_dir fs
    then locate_from fs (Inside RefsHeadsDir) (c :: cs)
    else NoPlace.
Proof.
  change (locate_from fs AtRoot (".minigit" :: "refs" :: "heads" :: c :: cs))
    with (match enter fs AtRoot ".minigit" with
          | Some pos1 =>
              match enter fs pos1 "refs" with
              | Some pos2 =>
                  match enter fs pos2 "heads" with
                  | Some pos3 => locate_from fs pos3 (c :: cs)
                  | None => NoPlace
                  end
              | None => NoPlace
              end
          | None => NoPlace
          end).
  destruct (dot_minigit fs) eqn:Hd, (refs_heads_dir fs) eqn:Hr;
    unfold enter; simpl String.eqb; rewrite ?Hd, ?Hr; reflexivity.
Qed.

Lemma locate_branch_ref_path (fs : FileSystem) (name : string) :
  locate fs (branch_ref_path name)
  = if dot_minigit fs && refs_heads_dir fs
    then locate_from fs (Inside RefsHeadsDir) (components name)
    else NoPlace.
Proof.
  unfold locate.
  change (branch_ref_path name)
    with (String "."%char ("minigit/refs/heads/" ++ name)) at 1.
  cbv beta iota.
  change (is_slash "."%char) with false. cbv iota.
  rewrite components_branch_ref_path.
  pose proof (components_nonempty name) as Hne.
  destruct (components name) as [|c cs]; [contradiction|].
  apply locate_from_root_heads.
Qed.

Lemma locate_branch_ref_cases (fs : FileSystem) (name : string) :
  locate fs (branch_ref_path name) = NoPlace
  \/ locate fs (branch_ref_path name) = DirectoryPlace
  \/ exists n, locate fs (branch_ref_path name) = RefFile n.
Proof.
  rewrite locate_branch_ref_path.
  destruct (dot_minigit fs && refs_heads_dir fs); [|now left].
  apply locate_from_heads.
Qed.

(** A branch whose name is a file name has its ref file in
    [.minigit/refs/heads], provided the directories are there. *)
Lemma locate_branch_ref (fs : FileSystem) (name : string) :
  is_filename name = true ->
  locate fs (branch_ref_path name)
  = if dot_minigit fs && refs_heads_dir fs then RefFile name else NoPlace.
Proof.
  intros Hname. rewrite locate_branch_ref_path.
  destruct (dot_minigit fs && refs_heads_dir fs); [|reflexivity].
  unfold is_filename in Hname.
  repeat (apply andb_true_iff in Hname; destruct Hname as [Hname ?]).
  apply negb_true_iff in Hname, H, H0.
  rewrite (components_single _ H1). unfold locate_from, enter, file_at.
  now rewrite Hname, H, H0.
Qed.

(** A name of the working root is a path to the entry of that name. *)
Lemma locate_workname (fs : FileSystem) (name : string) :
  is_workname name = true -> locate fs name = WorkingEntry name.
Proof.
  intros Hname. unfold is_workname, is_filename in Hname.
  apply andb_true_iff in Hname. destruct Hname as [Hname Hrepo].
  apply andb_true_iff in Hname. destruct Hname as [Hname Hup].
  apply andb_true_iff in Hname. destruct Hname as [Hname Hdot].
  apply andb_true_iff in Hname. destruct Hname as [Hname Hslash].
  apply negb_true_iff in Hname, Hrepo, Hup, Hdot.
  unfold locate. rewrite (components_single _ Hslash).
  destruct name as [|c name]; [discriminate|].
  simpl in Hslash. apply andb_true_iff in Hslash. destruct Hslash as [Hc _].
  apply negb_true_iff in Hc. rewrite Hc.
  unfold locate_from, enter, file_at. now rewrite Hname, Hdot, Hup, Hrepo.
Qed.

Lemma saveHeadAndBranchRefs_frame (g : MiniGitSystem) (w : World) :
  workdir (disk (saveHeadAndBranchRefs g w)) = workdir (disk w)
  /\ objects (disk (saveHeadAndBranchRefs g w)) = objects (disk w)
  /\ commit_files (disk (saveHeadAndBranchRefs g w)) = commit_files (disk w)
  /\ objects_dir (disk (saveHeadAndBranchRefs g w)) = objects_dir (disk w)
  /\ commits_dir (disk (saveHeadAndBranchRefs g w)) = commits_dir (disk w).
Proof.
  destruct (create_refs_heads_frame w) as (Hw & Ho & Hc & _ & _ & Hod & Hcd & _).
  unfold saveHeadAndBranchRefs.
  destruct (negb (empty (headBranch g)) && negb (empty (headCommitHash g))).
  - cbv zeta.
    destruct (locate (disk (create_refs_heads w)) (branch_ref_path (headBranch g)));
      try (repeat split; assumption).
    destruct (save_head_frame g
                (perform (BranchRefWrite name (headCommitHash g ++ nl))
                         (create_refs_heads w)))
      as (Hw' & Ho' & Hc' & _ & _ & Hod' & Hcd' & _).
    rewrite Hw', Ho', Hc', Hod', Hcd'. simpl. repeat split; assumption.
  - destruct (save_head_frame g w) as (Hw' & Ho' & Hc' & _ & _ & Hod' & Hcd' & _).
    repeat split; assumption.
Qed.

(** The ref files after [saveHeadAndBranchRefs]: at most the ref file the
    path of the current branch leads to is written. *)
Lemma saveHeadAndBranchRefs_ref_files (g : MiniGitSystem) (w : World) :
  ref_files (disk (saveHeadAndBranchRefs g w))
  = if negb (empty (headBranch g)) && negb (empty (headCommitHash g))
    then match locate (disk (create_refs_heads w))
                      (branch_ref_path (headBranch g)) with
         | RefFile name =>
             Umap.assign name (headCommitHash g ++ nl) (ref_files (disk w))
         | _ => ref_files (disk w)
         end
    else ref_files (disk w).
Proof.
  destruct (create_refs_heads_frame w) as (_ & _ & _ & Hr & _).
  unfold saveHeadAndBranchRefs.
  destruct (negb (empty (headBranch g)) && negb (empty (headCommitHash g))).
  - cbv zeta.
    destruct (locate (disk (create_refs_heads w)) (branch_ref_path (headBranch g)));
      try exact Hr.
    destruct (save_head_frame g
                (perform (BranchRefWrite name (headCommitHash g ++ nl))
                         (create_refs_heads w)))
      as (_ & _ & _ & Hr' & _).
    rewrite Hr'. simpl. now rewrite Hr.
  - now destruct (save_head_frame g w) as (_ & _ & _ & Hr' & _).
Qed.

Lemma create_refs_heads_dirs (w : World) :
  dot_minigit (disk w) = true ->
  dot_minigit (disk (create_refs_heads w)) = true
  /\ refs_heads_dir (disk (create_refs_heads w)) = true.
Proof.
  intros Hrepo. unfold create_refs_heads.
  destruct (refs_heads_dir (disk w)) eqn:E; simpl; auto.
Qed.

(** In a repository, on a branch whose name is a file name, the ref file
    opens: the ref of the current branch is written, then HEAD. *)
Lemma saveHeadAndBranchRefs_named (g : MiniGitSystem) (w : World) :
  dot_minigit (disk w) = true ->
  (empty (headBranch g) = false -> is_filename (headBranch g) = true) ->
  saveHeadAndBranchRefs g w
  = save_head g
      (if negb (empty (headBranch g)) && negb (empty (headCommitHash g))
       then perform (BranchRefWrite (headBranch g) (headCommitHash g ++ nl))
                    (create_refs_heads w)
       else w).
Proof.
  intros Hrepo Hfile. unfold saveHeadAndBranchRefs.
  destruct (empty (headBranch g)) eqn:Eb; simpl; [reflexivity|].
  destruct (negb (empty (headCommitHash g))); [|reflexivity].
  destruct (create_refs_heads_dirs w Hrepo) as [Hd Hr].
  rewrite locate_branch_ref by exact (Hfile eq_refl).
  now rewrite Hd, Hr.
Qed.

Lemma saveHeadAndBranchRefs_ref_files_named (g : MiniGitSystem) (w : World) :
  dot_minigit (disk w) = true ->
  (empty (headBranch g) = false -> is_filename (headBranch g) = true) ->
  ref_files (disk (saveHeadAndBranchRefs g w))
  = if negb (empty (headBranch g)) && negb (empty (headCommitHash g))
    then Umap.assign (headBranch g) (headCommitHash g ++ nl) (ref_files (disk w))
    else ref_files (disk w).
Proof.
  intros Hrepo Hfile. rewrite saveHeadAndBranchRefs_ref_files.
  destruct (empty (headBranch g)) eqn:Eb; simpl; [reflexivity|].
  destruct (negb (empty (headCommitHash g))); [|reflexivity].
  destruct (create_refs_heads_dirs w Hrepo) as [Hd Hr].
  rewrite locate_branch_ref by exact (Hfile eq_refl).
  now rewrite Hd, Hr.
Qed.

(** What a reload makes of the ref directory: the branch map of a new
    process lists exactly the ref files. *)
Lemma fold_assign_count (A : Type) (f : string -> A -> string)
      (l : Umap.t A) (acc : Umap.t string) (name : string) :
  Umap.count name
    (fold_left (fun acc entry => Umap.assign (fst entry) (f (fst entry) (snd entry)) acc)
               l acc)
  = Umap.count name acc || Umap.count name l.
Proof.
  revert acc. induction l as [|[k v] l IH]; intros acc; simpl.
  - now rewrite orb_false_r.
  - rewrite IH, UmapFacts.count_assign.
    change (Umap.count name ((k, v) :: l))
      with (match (if String.eqb k name then Some v else Umap.find name l) with
            | Some _ => true | None => false end).
    fold (Umap.count name l).
    destruct (String.eqb k name); simpl.
    + now rewrite orb_true_r.
    + reflexivity.
Qed.

Lemma reload_lists_ref_files (fs : FileSystem) (name : string) :
  dot_minigit fs = true -> refs_heads_dir fs = true ->
  Umap.count name (branches (MiniGitSystem_new fs))
  = Umap.count name (ref_files fs).
Proof.
  intros Hd Hr. unfold MiniGitSystem_new, loadRepoState. rewrite Hd, Hr. simpl.
  exact (fold_assign_count (fun _ text => getline text) (ref_files fs) [] name).
Qed.

(* ================================================================= *)
(** ** [branch] *)

Lemma branch_created_inv (g : MiniGitSystem) (w : World) (name : string)
      (g' : MiniGitSystem) (w' : World) :
  branch g w name = (BranchCreated, g', w') ->
  dot_minigit (disk w) = true
  /\ empty (headCommitHash g) = false
  /\ Umap.count name (branches g) = false
  /\ g' = set_branches (Umap.assign name (headCommitHash g) (branches g)) g
  /\ w' = saveHeadAndBranchRefs g' w.
Proof.
  unfold branch.
  destruct (dot_minigit (disk w)); simpl; [|discriminate].
  destruct (empty (headCommitHash g)); [discriminate|].
  destruct (Umap.count name (branches g)); [discriminate|].
  intros H. inversion H; subst. repeat split.
Qed.

(** The ref file of the new branch is never written: [branch] persists
    through [saveHeadAndBranchRefs], which writes the ref of the current
    branch only. *)
Lemma branch_leaves_new_ref_unwritten (g : MiniGitSystem) (w : World)
      (name : string) (g' : MiniGitSystem) (w' : World) :
  branch g w name = (BranchCreated, g', w') ->
  name <> headBranch g ->
  (empty (headBranch g) = false -> is_filename (headBranch g) = true) ->
  Umap.find name (ref_files (disk w')) = Umap.find name (ref_files (disk w)).
Proof.
  intros H Hne Hfile. apply branch_created_inv in H.
  destruct H as (_ & _ & _ & Hg & Hw). subst w'.
  rewrite saveHeadAndBranchRefs_ref_files. subst g'. simpl.
  destruct (empty (headBranch g)) eqn:Eb; simpl; auto.
  destruct (negb (empty (headCommitHash g))); auto.
  rewrite locate_branch_ref by exact (Hfile eq_refl).
  destruct (dot_minigit _ && refs_heads_dir _); auto.
  apply UmapFacts.find_assign_other. congruence.
Qed.

(** On a disk that already holds what [saveHeadAndBranchRefs] writes for
    the current HEAD, a successful [branch] leaves the whole disk as it
    was. *)
Lemma assign_same_value (V : Type) (k : string) (v : V) (m : Umap.t V) :
  Umap.find k m = Some v -> Umap.assign k v m = m.
Proof.
  induction m as [|[k0 v0] m IH]; simpl; [discriminate|].
  destruct (String.eqb k0 k) eqn:E.
  - intros H. now inversion H.
  - intros H. now rewrite IH.
Qed.

Lemma branch_rewrites_what_is_there (g : MiniGitSystem) (w : World)
      (name : string) (g' : MiniGitSystem) (w' : World) :
  branch g w name = (BranchCreated, g', w') ->
  refs_heads_dir (disk w) = true ->
  is_filename (headBranch g) = true ->
  Umap.find (headBranch g) (ref_files (disk w)) = Some (headCommitHash g ++ nl) ->
  HEAD_file (disk w) = Some ("ref: refs/heads/" ++ headBranch g ++ nl) ->
  disk w' = disk w.
Proof.
  intros H Hrefs Hfile Href Hhead. apply branch_created_inv in H.
  destruct H as (Hrepo & Hcommit & _ & Hg & Hw). subst w' g'.
  assert (Hattached : empty (headBranch g) = false)
    by (destruct (headBranch g); [discriminate Hfile | reflexivity]).
  unfold saveHeadAndBranchRefs, create_refs_heads, save_head. simpl.
  rewrite Hattached, Hcommit, Hrefs. simpl.
  rewrite locate_branch_ref by exact Hfile. simpl.
  rewrite Hrepo, Hrefs. simpl.
  rewrite ?Hrepo, ?Hattached. simpl.
  rewrite (assign_same_value _ _ Href).
  destruct w as [[wd dm od cd rd ob cf rf hf] tr]. simpl in *.
  now subst.
Qed.

(** C1, evaluated on the repository of the walk-through after its first
    commit: [branch feature] succeeds and binds [feature] in memory, yet no
    file [.minigit/refs/heads/feature] exists afterwards, and the process
    that starts next lists [master] alone. *)
Theorem branch_ref_file_missing :
  let r := branch committed_system (mkWorld committed_fs []) "feature" in
  fst (fst r) = BranchCreated
  /\ Umap.find "feature" (branches (snd (fst r))) = Some "8276604627639202864"
  /\ Umap.find "feature" (ref_files (disk (snd r))) = None
  /\ Umap.keys (branches (MiniGitSystem_new (disk (snd r)))) = ["master"].
Proof.
  vm_compute. repeat split.
Qed.



(* ================================================================= *)
(** ** [init] *)

(** What [init] leaves behind in a directory without [.minigit]: the
    directories [.minigit], [.minigit/objects], [.minigit/commits] and
    [.minigit/refs/heads] exist and [.minigit/HEAD] holds the line
    [ref: refs/heads/master]; the ref directory holds exactly the files it
    held before, which in a fresh directory is none: master is a branch in
    memory only until the first commit writes its ref file. *)
Theorem init_layout (g : MiniGitSystem) (w : World) :
  dot_minigit (disk w) = false ->
  let r := init g w in
  fst (fst r) = Initialized
  /\ dot_minigit (disk (snd r)) = true
  /\ objects_dir (disk (snd r)) = true
  /\ commits_dir (disk (snd r)) = true
  /\ refs_heads_dir (disk (snd r)) = true
  /\ ref_files (disk (snd r)) = ref_files (disk w)
  /\ HEAD_file (disk (snd r)) = Some ("ref: refs/heads/master" ++ nl)
  /\ headBranch (snd (fst r)) = "master"
  /\ headCommitHash (snd (fst r)) = ""
  /\ Umap.find "master" (branches (snd (fst r))) = Some "".
Proof.
  intros Hfresh. unfold init. rewrite Hfresh. cbv zeta.
  unfold saveHeadAndBranchRefs, create_refs_heads. simpl.
  destruct (refs_heads_dir (disk w)) eqn:E; simpl; rewrite ?E; repeat split;
    apply UmapFacts.find_assign_same.
Qed.

Lemma init_layout_witness :
  dot_minigit (disk (mkWorld fresh_fs [])) = false
  /\ ref_files (disk (snd (init (MiniGitSystem_new fresh_fs) (mkWorld fresh_fs []))))
     = []
  /\ HEAD_file (disk (snd (init (MiniGitSystem_new fresh_fs) (mkWorld fresh_fs []))))
     = Some ("ref: refs/heads/master" ++ nl).
Proof.
  pose proof (init_layout (MiniGitSystem_new fresh_fs) (mkWorld fresh_fs [])
                eq_refl) as H.
  split; [reflexivity|].
  split; [exact (proj1 (proj2 (proj2 (proj2 (proj2 (proj2 H))))))
         | exact (proj1 (proj2 (proj2 (proj2 (proj2 (proj2 (proj2 H)))))))].
Defined.

(** C8, evaluated in the fresh directory of the walk-through: [init]
    succeeds, creates the four directories and writes [.minigit/HEAD] with
    the line [ref: refs/heads/master], and binds [master] to the empty
    digest in memory; yet it leaves no file [.minigit/refs/heads/master],
    empty or not, although the call of [saveHeadAndBranchRefs] is there to
    "create the HEAD file and master ref": the only mutations are the four
    directories and HEAD, and the process that starts next has no branch in
    its branch map. *)
Lemma init_writes_no_master_ref :
  let r := init (MiniGitSystem_new fresh_fs) (mkWorld fresh_fs []) in
  fst (fst r) = Initialized
  /\ refs_heads_dir (disk (snd r)) = true
  /\ Umap.find "master" (ref_files (disk (snd r))) <> Some ""
  /\ Umap.find "master" (ref_files (disk (snd r))) = None
  /\ Umap.find "master" (branches (snd (fst r))) = Some ""
  /\ HEAD_file (disk (snd r)) = Some ("ref: refs/heads/master" ++ nl)
  /\ trace (snd r)
     = [DirectoryCreate DotMinigit; DirectoryCreate ObjectsDir;
        DirectoryCreate CommitsDir; DirectoryCreate RefsHeadsDir;
        HeadWrite ("ref: refs/heads/master" ++ nl)]
  /\ branches (MiniGitSystem_new (disk (snd r))) = [].
Proof.
  vm_compute. repeat split. discriminate.
Qed.

(** The example states are the ones the operations produce. *)
Example init_example :
  init (MiniGitSystem_new fresh_fs) (mkWorld fresh_fs [])
  = (Initialized, initialized_system,
     mkWorld initialized_fs
             [DirectoryCreate DotMinigit; DirectoryCreate ObjectsDir;
              DirectoryCreate CommitsDir; DirectoryCreate RefsHeadsDir;
              HeadWrite ("ref: refs/heads/master" ++ nl)]).
Proof. reflexivity. Qed.

Example add_example :
  add sample_hasher initialized_system (mkWorld initialized_fs []) "file.txt"
  = (Added, staged_system,
     mkWorld staged_fs
             [BlobWrite "4590712520188692798" ("Line 1" ++ nl ++ "Line 2" ++ nl)]).
Proof. vm_compute. reflexivity. Qed.

Example commit_example :
  commit sample_hasher staged_system (mkWorld staged_fs [])
         "Add file.txt" "2024-01-01 10:00:00"
  = (Committed first_commit, committed_system,
     mkWorld committed_fs
             [BranchRefWrite "master" ("8276604627639202864" ++ nl);
              HeadWrite ("ref: refs/heads/master" ++ nl);
              CommitWrite "8276604627639202864" (commit_text first_commit)]).
Proof. vm_compute. reflexivity. Qed.

Example reload_example :
  MiniGitSystem_new committed_fs = committed_system.
Proof. vm_compute. reflexivity. Qed.

(* ================================================================= *)
(** ** [commit] *)

Lemma currentHeadCommit_frame (g : MiniGitSystem) (fs : FileSystem) :
  branches (fst (currentHeadCommit g fs)) = branches g
  /\ stagingArea (fst (currentHeadCommit g fs)) = stagingArea g
  /\ headBranch (fst (currentHeadCommit g fs)) = headBranch g
  /\ headCommitHash (fst (currentHeadCommit g fs)) = headCommitHash g
  /\ (commits (fst (currentHeadCommit g fs)) = commits g
      \/ commits (fst (currentHeadCommit g fs))
         = Umap.assign (headCommitHash g)
             (loadCommitFromFile fs (headCommitHash g)) (commits g)).
Proof.
  unfold currentHeadCommit.
  destruct (empty (headCommitHash g)); simpl; [tauto|].
  destruct (Umap.count (headCommitHash g) (commits g)); simpl; tauto.
Qed.

(** The classifier reads the index, never the rest of the object. *)
Lemma getStagedChanges_index (g1 g2 : MiniGitSystem) (fs : FileSystem)
      (headCommit : option Commit) :
  stagingArea g1 = stagingArea g2 ->
  getStagedChanges g1 fs headCommit = getStagedChanges g2 fs headCommit.
Proof.
  intros H. unfold getStagedChanges. now rewrite H.
Qed.

Lemma to_string_nonempty (n : N) : empty (to_string n) = false.
Proof.
  unfold to_string. now destruct (N.to_uint n).
Qed.


Lemma fold_erase_find (dels : list string) (m : Umap.t string) (path : string) :
  Umap.find path (fold_left (fun acc filename => Umap.erase filename acc) dels m)
  = if existsb (String.eqb path) dels then None else Umap.find path m.
Proof.
  revert m. induction dels as [|d dels IH]; intros m; simpl; auto.
  rewrite IH, UmapFacts.find_erase, (String.eqb_sym path d).
  destruct (String.eqb d path); simpl; auto.
  now destruct (existsb (String.eqb path) dels).
Qed.

Lemma perform_all_disk (ops : list FsOp) (w : World) :
  disk (perform_all ops w) = replay ops (disk w).
Proof.
  unfold perform_all, replay. revert w.
  induction ops as [|op ops IH]; intros w; simpl; [reflexivity | apply IH].
Qed.

Lemma perform_all_trace (ops : list FsOp) (w : World) :
  trace (perform_all ops w) = (trace w ++ ops)%list.
Proof.
  unfold perform_all. revert w.
  induction ops as [|op ops IH]; intros w; simpl.
  - now rewrite app_nil_r.
  - rewrite IH. simpl. now rewrite <- app_assoc.
Qed.

Lemma saveHeadAndBranchRefs_ops (g : MiniGitSystem) (w : World) :
  dot_minigit (disk w) = true ->
  refs_heads_dir (disk w) = true ->
  (empty (headBranch g) = false -> is_filename (headBranch g) = true) ->
  saveHeadAndBranchRefs g w = perform_all (save_ops g) w.
Proof.
  intros Hrepo Hrefs Hfile.
  unfold saveHeadAndBranchRefs, save_ops, create_refs_heads, save_head.
  rewrite Hrefs.
  destruct (empty (headBranch g)) eqn:Eb; simpl.
  - rewrite Hrepo. reflexivity.
  - destruct (negb (empty (headCommitHash g))); simpl.
    + rewrite locate_branch_ref by exact (Hfile eq_refl).
      rewrite Hrepo, Hrefs. simpl. rewrite ?Hrepo. reflexivity.
    + rewrite Hrepo. reflexivity.
Qed.







Section CommitFacts.
Variable hasher : string -> N.

(** What [commit] returns when it gets past the check for staged changes. *)
Lemma commit_creates (g : MiniGitSystem) (w : World) (message now : string) :
  dot_minigit (disk w) = true ->
  nothing_staged
    (getStagedChanges g (disk w) (snd (currentHeadCommit g (disk w)))) = false ->
  let g1 := fst (currentHeadCommit g (disk w)) in
  let headCommit := snd (currentHeadCommit g (disk w)) in
  let staged := getStagedChanges g (disk w) headCommit in
  let c0 := mkCommit "" message now
                     (if negb (empty (headCommitHash g)) then [headCommitHash g]
                      else [])
                     (new_fileBlobs g1 headCommit staged) in
  let c := with_hash (hashFileContent hasher (commitContentToHash c0)) c0 in
  let g2 := mkSystem (Umap.assign (hash c) c (commits g1))
                     (if negb (empty (headBranch g))
                      then Umap.assign (headBranch g) (hash c) (branches g)
                      else branches g)
                     (stagingArea g) (headBranch g) (hash c) in
  commit hasher g w message now
  = (Committed c, set_stagingArea [] g2,
     writeCommitToFile c (saveHeadAndBranchRefs g2 w)).
Proof.
  intros Hrepo Hstaged. cbv zeta.
  destruct (currentHeadCommit_frame g (disk w)) as (Hb & Hs & Hhb & Hhc & _).
  unfold commit. rewrite Hrepo. simpl negb. cbv iota.
  destruct (currentHeadCommit g (disk w)) as [g1 headCommit] eqn:E.
  simpl in *.
  rewrite (getStagedChanges_index g1 g (disk w) headCommit Hs), Hstaged.
  rewrite Hb, Hs, Hhb, Hhc. reflexivity.
Qed.

(** C6: when the classifier finds nothing added, modified or deleted in
    the index, [commit] reports that there is nothing to record, performs no
    file-system mutation (the disk and the mutation trace are what they
    were, so no commit record, ref or HEAD is written), keeps both HEAD
    fields and every branch binding, and empties the index.  The commit
    cache gains at most the HEAD commit, loaded from its record. *)
Theorem commit_nothing_staged (g : MiniGitSystem) (w : World)
        (message now : string) :
  dot_minigit (disk w) = true ->
  nothing_staged
    (getStagedChanges g (disk w) (snd (currentHeadCommit g (disk w)))) = true ->
  exists g',
    commit hasher g w message now = (NoEffectiveChanges, g', w)
    /\ stagingArea g' = []
    /\ headBranch g' = headBranch g
    /\ headCommitHash g' = headCommitHash g
    /\ branches g' = branches g
    /\ (commits g' = commits g
        \/ commits g' = Umap.assign (headCommitHash g)
                          (loadCommitFromFile (disk w) (headCommitHash g))
                          (commits g)).
Proof.
  intros Hrepo Hstaged.
  destruct (currentHeadCommit_frame g (disk w)) as (Hb & Hs & Hhb & Hhc & Hc).
  unfold commit. rewrite Hrepo. simpl negb. cbv iota.
  destruct (currentHeadCommit g (disk w)) as [g1 headCommit] eqn:E.
  simpl in *.
  rewrite (getStagedChanges_index g1 g (disk w) headCommit Hs), Hstaged.
  exists (set_stagingArea [] g1). simpl. repeat split; auto.
Qed.

(** [add] keeps the keys of the index unique, and a process starts with
    an empty index. *)
Lemma add_keeps_index_keys_unique (g : MiniGitSystem) (w : World)
      (filename : string) :
  NoDup (Umap.keys (stagingArea g)) ->
  NoDup (Umap.keys (stagingArea (snd (fst (add hasher g w filename))))).
Proof.
  intros Hnd. unfold add.
  destruct (negb (dot_minigit (disk w))); simpl; auto.
  destruct (entry_at (disk w) filename) as [[content|]|]; simpl; auto.
  destruct (Umap.find filename (stagingArea g)) as [staged|]; simpl.
  - destruct (String.eqb staged _); simpl; auto.
    now apply UmapFacts.NoDup_keys_assign.
  - now apply UmapFacts.NoDup_keys_assign.
Qed.


Lemma commit_committed_inv (g : MiniGitSystem) (w : World) (msg now : string)
      (c : Commit) (g' : MiniGitSystem) (w' : World) :
  commit hasher g w msg now = (Committed c, g', w') ->
  hash c = hashFileContent hasher (commitContentToHash c)
  /\ message c = msg
  /\ timestamp c = now.
Proof.
  unfold commit.
  destruct (negb (dot_minigit (disk w))); [discriminate|].
  destruct (currentHeadCommit g (disk w)) as [g1 headCommit].
  destruct (nothing_staged _); [discriminate|].
  intros H. inversion H; subst. repeat split.
Qed.

(** C9, as the code has it: the digest of a commit that [commit] creates
    is the hash of the message, the timestamp, the parent digests in order
    and, for every entry of the tree in the order the tree is iterated, the
    path and the blob digest, all concatenated; nothing else of the process
    enters it.  Two runs that agree on the message, the timestamp, the
    parent list and the tree as it is iterated therefore compute the same
    digest, whatever else differs between them.  Both runs hash with the
    same [std::hash]. *)
Theorem commit_digest_deterministic
        (g1 g2 : MiniGitSystem) (w1 w2 : World)
        (message1 message2 now1 now2 : string)
        (c1 c2 : Commit) (g1' g2' : MiniGitSystem) (w1' w2' : World) :
  commit hasher g1 w1 message1 now1 = (Committed c1, g1', w1') ->
  commit hasher g2 w2 message2 now2 = (Committed c2, g2', w2') ->
  hash c1
  = hashFileContent hasher
      (message1 ++ now1 ++ String.concat "" (parentHashes c1)
       ++ String.concat "" (map (fun fb => fst fb ++ snd fb) (fileBlobs c1)))
  /\ (message1 = message2 ->
      now1 = now2 ->
      parentHashes c1 = parentHashes c2 ->
      fileBlobs c1 = fileBlobs c2 ->
      hash c1 = hash c2).
Proof.
  intros H1 H2.
  apply commit_committed_inv in H1. apply commit_committed_inv in H2.
  destruct H1 as (H1 & Hm1 & Ht1). destruct H2 as (H2 & Hm2 & Ht2).
  split.
  - rewrite H1. unfold commitContentToHash. now rewrite Hm1, Ht1.
  - intros Hm Ht Hp Hf. rewrite H1, H2. unfold commitContentToHash.
    now rewrite Hm1, Hm2, Ht1, Ht2, Hm, Ht, Hp, Hf.
Qed.

(** C2, as the code has it: a [commit] that creates a commit writes the
    ref file of the current branch (when HEAD is attached; the name of the
    branch is a file name), then [.minigit/HEAD], and the commit record
    last.  The commit store is therefore still what it was before the call
    at the two intermediate points, after the ref and after HEAD have been
    written. *)
Theorem commit_write_order (g : MiniGitSystem) (w : World)
        (message now : string) :
  dot_minigit (disk w) = true ->
  refs_heads_dir (disk w) = true ->
  commits_dir (disk w) = true ->
  (empty (headBranch g) = false -> is_filename (headBranch g) = true) ->
  nothing_staged
    (getStagedChanges g (disk w) (snd (currentHeadCommit g (disk w)))) = false ->
  exists c g' w',
    commit hasher g w message now = (Committed c, g', w')
    /\ let ref_ops :=
         if empty (headBranch g) then []
         else [BranchRefWrite (headBranch g) (hash c ++ nl)] in
       let head_op :=
         HeadWrite (if empty (headBranch g) then hash c ++ nl
                    else "ref: refs/heads/" ++ headBranch g ++ nl) in
       trace w'
       = (trace w ++ ref_ops ++ [head_op; CommitWrite (hash c) (commit_text c)])%list
       /\ disk w'
          = replay (ref_ops ++ [head_op; CommitWrite (hash c) (commit_text c)])
                   (disk w)
       /\ commit_files (replay ref_ops (disk w)) = commit_files (disk w)
       /\ commit_files (replay (ref_ops ++ [head_op]) (disk w))
          = commit_files (disk w).
Proof.
  intros Hrepo Hrefs Hcommits Hfile Hstaged.
  pose proof (commit_creates g w message now Hrepo Hstaged) as H.
  cbv zeta in H. rewrite H. clear H.
  eexists _, _, _. split; [reflexivity|]. cbv zeta.
  rewrite (saveHeadAndBranchRefs_ops _ w Hrepo Hrefs) by exact Hfile.
  unfold save_ops. simpl headBranch. simpl headCommitHash. simpl hash.
  unfold hashFileContent. rewrite to_string_nonempty, andb_true_r.
  set (c := commit_text _). set (h := to_string _).
  unfold writeCommitToFile. simpl hash.
  destruct (empty (headBranch g)) eqn:E; simpl negb; cbv iota;
    rewrite perform_all_disk; simpl; rewrite Hcommits; simpl;
    rewrite <- ?app_assoc; simpl; repeat split;
    rewrite ?Hcommits; reflexivity.
Qed.

End CommitFacts.

(** *** Instances on the walk-through *)

Example commit_main_example :
  commit sample_hasher main_system (mkWorld staged_fs [])
         "Add file.txt" "2024-01-01 10:00:00"
  = (Committed first_commit,
     mkSystem [("12345678", mkCommit "12345678" "Other" "2023-12-31 09:00:00" [] []);
               ("8276604627639202864", first_commit)]
              [("main", "8276604627639202864")] []
              "main" "8276604627639202864",
     mkWorld (mkFS [("file.txt", RegularFile ("Line 1" ++ nl ++ "Line 2" ++ nl))]
                   true true true true
                   [("4590712520188692798", "Line 1" ++ nl ++ "Line 2" ++ nl)]
                   [("8276604627639202864", commit_text first_commit)]
                   [("main", "8276604627639202864" ++ nl)]
                   (Some ("ref: refs/heads/main" ++ nl)))
             [BranchRefWrite "main" ("8276604627639202864" ++ nl);
              HeadWrite ("ref: refs/heads/main" ++ nl);
              CommitWrite "8276604627639202864" (commit_text first_commit)]).
Proof. vm_compute. reflexivity. Qed.

Lemma commit_nothing_staged_witness :
  dot_minigit committed_fs = true
  /\ nothing_staged
       (getStagedChanges restaged_system committed_fs
          (snd (currentHeadCommit restaged_system committed_fs))) = true
  /\ exists g',
       commit sample_hasher restaged_system (mkWorld committed_fs [])
              "Again" "2024-01-03 10:00:00"
       = (NoEffectiveChanges, g', mkWorld committed_fs [])
       /\ stagingArea g' = []
       /\ headCommitHash g' = "8276604627639202864".
Proof.
  split; [reflexivity|]. split; [reflexivity|].
  destruct (commit_nothing_staged sample_hasher restaged_system
              (mkWorld committed_fs []) "Again" "2024-01-03 10:00:00"
              eq_refl eq_refl) as (g' & H & Hs & _ & Hh & _).
  exists g'. split; [exact H|]. split; [exact Hs | exact Hh].
Defined.


Lemma commit_digest_deterministic_witness :
  staged_system <> main_system
  /\ match fst (fst (commit sample_hasher staged_system (mkWorld staged_fs [])
                            "Add file.txt" "2024-01-01 10:00:00")),
           fst (fst (commit sample_hasher main_system (mkWorld staged_fs [])
                            "Add file.txt" "2024-01-01 10:00:00")) with
     | Committed c1, Committed c2 =>
         hash c1 = hash c2
         /\ hash c1
            = hashFileContent sample_hasher
                ("Add file.txt" ++ "2024-01-01 10:00:00"
                 ++ "file.txt" ++ "4590712520188692798")
     | _, _ => False
     end.
Proof.
  split; [discriminate|].
  rewrite commit_example, commit_main_example. simpl fst.
  destruct (@commit_digest_deterministic sample_hasher _ _ _ _ _ _ _ _ _ _ _ _ _ _
              commit_example commit_main_example) as [Hformula Hsame].
  split; [exact (Hsame eq_refl eq_refl eq_refl eq_refl) | exact Hformula].
Defined.

(** Two runs that agree on the message, the timestamp, the parents and the
    tree as a mapping, and whose trees are iterated in different orders:
    the digests differ. *)
Lemma commit_digest_depends_on_tree_order :
  match fst (fst (commit sample_hasher ordered_system (mkWorld initialized_fs [])
                         "Add two files" "2024-01-01 10:00:00")),
        fst (fst (commit sample_hasher reordered_system
                         (mkWorld initialized_fs [])
                         "Add two files" "2024-01-01 10:00:00")) with
  | Committed c1, Committed c2 =>
      message c1 = message c2
      /\ timestamp c1 = timestamp c2
      /\ parentHashes c1 = parentHashes c2
      /\ (forall path,
            Umap.find path (fileBlobs c1) = Umap.find path (fileBlobs c2))
      /\ fileBlobs c1 = [("a.txt", "1"); ("b.txt", "2")]
      /\ fileBlobs c2 = [("b.txt", "2"); ("a.txt", "1")]
      /\ hash c1 <> hash c2
  | _, _ => False
  end.
Proof.
  remember (fst (fst (commit sample_hasher ordered_system
                             (mkWorld initialized_fs [])
                             "Add two files" "2024-01-01 10:00:00"))) as r1 eqn:E1.
  remember (fst (fst (commit sample_hasher reordered_system
                             (mkWorld initialized_fs [])
                             "Add two files" "2024-01-01 10:00:00"))) as r2 eqn:E2.
  vm_compute in E1, E2. subst r1 r2.
  cbn [message timestamp parentHashes fileBlobs hash].
  repeat split; try discriminate.
  intros path. cbn [Umap.find].
  destruct (String.eqb "a.txt" path) eqn:Ea, (String.eqb "b.txt" path) eqn:Eb;
    try reflexivity.
  apply String.eqb_eq in Ea, Eb. subst path. discriminate Eb.
Qed.

Lemma commit_write_order_witness :
  dot_minigit staged_fs = true
  /\ refs_heads_dir staged_fs = true
  /\ commits_dir staged_fs = true
  /\ is_filename (headBranch staged_system) = true
  /\ nothing_staged
       (getStagedChanges staged_system staged_fs
          (snd (currentHeadCommit staged_system staged_fs))) = false
  /\ exists c g' w',
       commit sample_hasher staged_system (mkWorld staged_fs [])
              "Add file.txt" "2024-01-01 10:00:00" = (Committed c, g', w')
       /\ trace w'
          = [BranchRefWrite "master" (hash c ++ nl);
             HeadWrite ("ref: refs/heads/master" ++ nl);
             CommitWrite (hash c) (commit_text c)].
Proof.
  repeat (split; [reflexivity|]).
  destruct (commit_write_order sample_hasher staged_system
              (mkWorld staged_fs []) "Add file.txt" "2024-01-01 10:00:00"
              eq_refl eq_refl eq_refl (fun _ => eq_refl) eq_refl)
    as (c & g' & w' & H & Ht & _).
  exists c, g', w'. split; [exact H | exact Ht].
Defined.

(** On the first commit of the walk-through the ref file of [master] is
    written first and the commit record last: once the ref is written, it
    names a digest that has no record yet, and that is still so after HEAD
    is written. *)
Lemma commit_ref_written_before_record :
  let r := commit sample_hasher staged_system (mkWorld staged_fs [])
                  "Add file.txt" "2024-01-01 10:00:00" in
  let d := "8276604627639202864" in
  fst (fst r) = Committed first_commit
  /\ trace (snd r)
     = [BranchRefWrite "master" (d ++ nl);
        HeadWrite ("ref: refs/heads/master" ++ nl);
        CommitWrite d (commit_text first_commit)]
  /\ no_dangling_ref staged_fs = true
  /\ no_dangling_ref (replay [BranchRefWrite "master" (d ++ nl)] staged_fs) = false
  /\ no_dangling_ref
       (replay [BranchRefWrite "master" (d ++ nl);
                HeadWrite ("ref: refs/heads/master" ++ nl)] staged_fs) = false.
Proof.
  vm_compute. repeat split.
Qed.

(** On a branch whose ref file cannot be opened ([feat/x], without a
    directory [feat] among the refs) [saveHeadAndBranchRefs] returns before
    it writes anything: [commit] creates the commit in memory and writes its
    record, and neither a ref file nor [.minigit/HEAD] changes. *)
Example commit_on_unopenable_branch_example :
  let r := commit sample_hasher slash_branch_system (mkWorld second_fs [])
                  "Replace file" "2024-01-02 10:00:00" in
  match fst (fst r) with
  | Committed c =>
      trace (snd r) = [CommitWrite (hash c) (commit_text c)]
      /\ headCommitHash (snd (fst r)) = hash c
      /\ ref_files (disk (snd r)) = ref_files second_fs
      /\ HEAD_file (disk (snd r)) = HEAD_file second_fs
  | _ => False
  end.
Proof.
  vm_compute. repeat split.
Qed.

(* ================================================================= *)
(** ** [checkout] *)

Lemma status_frame (g : MiniGitSystem) (fs : FileSystem) :
  branches (status g fs) = branches g
  /\ stagingArea (status g fs) = stagingArea g
  /\ headBranch (status g fs) = headBranch g
  /\ headCommitHash (status g fs) = headCommitHash g.
Proof.
  unfold status.
  destruct (negb (dot_minigit fs)); [tauto|].
  destruct (empty (headCommitHash g)); [tauto|].
  destruct (Umap.count (headCommitHash g) (commits g)); simpl; tauto.
Qed.

Lemma find_first_match (V : Type) (f : string -> bool) (m : Umap.t V)
      (before : list string) (d : string) (after : list string) :
  Umap.keys m = (before ++ d :: after)%list ->
  f d = true ->
  (forall k, In k before -> f k = false) ->
  exists v, List.find (fun entry => f (fst entry)) m = Some (d, v).
Proof.
  revert m. induction before as [|b before IH]; intros m Hkeys Hd Hbefore;
    destruct m as [|[k v] m]; simpl in Hkeys; try discriminate;
    inversion Hkeys; subst; simpl.
  - rewrite Hd. now exists v.
  - rewrite (Hbefore b (or_introl eq_refl)).
    apply IH; auto. intros k Hk. apply Hbefore. now right.
Qed.

Lemma find_no_match (V : Type) (f : string -> bool) (m : Umap.t V) :
  (forall k, In k (Umap.keys m) -> f k = false) ->
  List.find (fun entry => f (fst entry)) m = None.
Proof.
  induction m as [|[k v] m IH]; intros H; simpl; auto.
  rewrite (H k (or_introl eq_refl)). apply IH.
  intros k' Hk'. apply H. now right.
Qed.

Lemma find_some_count (V : Type) (f : string * V -> bool) (m : Umap.t V)
      (entry : string * V) :
  List.find f m = Some entry -> Umap.count (fst entry) m = true.
Proof.
  intros H. apply List.find_some in H. destruct H as [Hin _].
  unfold Umap.count.
  destruct (Umap.find (fst entry) m) eqn:E; auto.
  apply UmapFacts.find_None_keys in E. exfalso. apply E.
  unfold Umap.keys. now apply in_map.
Qed.

Lemma starts_with_nonempty (p s : string) :
  starts_with p s = true -> 4 <= String.length p -> empty s = false.
Proof.
  destruct s; simpl; auto. destruct p; simpl; [lia | discriminate].
Qed.

Section CheckoutFacts.
Variable hasher : string -> N.

Lemma getUnstagedChanges_index (g1 g2 : MiniGitSystem) (fs : FileSystem)
      (headCommit : option Commit) :
  stagingArea g1 = stagingArea g2 ->
  getUnstagedChanges hasher g1 fs headCommit
  = getUnstagedChanges hasher g2 fs headCommit.
Proof.
  intros H. unfold getUnstagedChanges. now rewrite H.
Qed.

(** C3: when [checkout] finds a staged change, an unstaged change or an
    untracked file, it refuses with the dirty-working-directory error and
    returns with the file system untouched (every ref file, [.minigit/HEAD]
    and every working file are what they were, and no mutation is added to
    the trace), and with both HEAD fields, the branch map and the index of
    the object unchanged. *)
Theorem checkout_dirty_unchanged (g : MiniGitSystem) (w : World)
        (target : string) :
  dot_minigit (disk w) = true ->
  has_changes
    (getStagedChanges g (disk w) (snd (currentHeadCommit g (disk w))))
    (getUnstagedChanges hasher g (disk w) (snd (currentHeadCommit g (disk w))))
  = true ->
  exists g',
    checkout hasher g w target = (WorkingDirDirty, g', w)
    /\ headBranch g' = headBranch g
    /\ headCommitHash g' = headCommitHash g
    /\ branches g' = branches g
    /\ stagingArea g' = stagingArea g.
Proof.
  intros Hrepo Hdirty.
  destruct (currentHeadCommit_frame g (disk w)) as (Hb & Hs & Hhb & Hhc & _).
  unfold checkout. rewrite Hrepo. simpl negb. cbv iota.
  destruct (currentHeadCommit g (disk w)) as [g1 headCommit] eqn:E.
  simpl in *.
  rewrite (getStagedChanges_index g1 g (disk w) headCommit Hs),
          (getUnstagedChanges_index g1 g (disk w) headCommit Hs), Hdirty.
  exists (status g1 (disk w)).
  destruct (status_frame g1 (disk w)) as (Hb' & Hs' & Hhb' & Hhc').
  repeat split; congruence.
Qed.

(** The digests in the cache once [checkout] has loaded the HEAD commit
    into it. *)
Lemma known_digest_cached (g : MiniGitSystem) (fs : FileSystem) (d : string) :
  In d (Umap.keys (commits (fst (currentHeadCommit g fs)))) <-> known_digest g d.
Proof.
  unfold currentHeadCommit, known_digest.
  destruct (empty (headCommitHash g)) eqn:Eh; simpl.
  - split; [auto | intros [H|[H _]]; [auto | discriminate]].
  - destruct (Umap.count (headCommitHash g) (commits g)) eqn:Ec; simpl.
    + split; [auto|]. intros [H|[_ H]]; auto. subst d.
      unfold Umap.count in Ec.
      destruct (Umap.find (headCommitHash g) (commits g)) eqn:E;
        [|discriminate].
      exact (UmapFacts.find_In_keys _ _ E).
    + rewrite UmapFacts.keys_assign, Ec, in_app_iff. simpl.
      split; [intros [H|[H|[]]]; auto | intros [H|[_ H]]; auto].
Qed.

(** When HEAD points at no commit or its commit is cached, [checkout]
    searches the cache as it is. *)
Lemma currentHeadCommit_cached (g : MiniGitSystem) (fs : FileSystem) :
  empty (headCommitHash g) = true
  \/ Umap.count (headCommitHash g) (commits g) = true ->
  fst (currentHeadCommit g fs) = g.
Proof.
  unfold currentHeadCommit. intros [H|H].
  - now rewrite H.
  - destruct (empty (headCommitHash g)); [reflexivity|]. now rewrite H.
Qed.

Lemma find_some_match (V : Type) (f : string * V -> bool) (m : Umap.t V)
      (x : string * V) :
  In x m -> f x = true ->
  exists entry, List.find f m = Some entry /\ In entry m /\ f entry = true.
Proof.
  intros Hin Hf. destruct (List.find f m) as [entry|] eqn:E.
  - exists entry. apply List.find_some in E. tauto.
  - pose proof (List.find_none f m E x Hin). congruence.
Qed.

(** The prefix search of [checkout], once it has found an entry. *)
Lemma checkout_prefix_found (g : MiniGitSystem) (w : World) (target : string)
      (entry : string * Commit) :
  dot_minigit (disk w) = true ->
  has_changes
    (getStagedChanges g (disk w) (snd (currentHeadCommit g (disk w))))
    (getUnstagedChanges hasher g (disk w) (snd (currentHeadCommit g (disk w))))
  = false ->
  Umap.find target (branches g) = None ->
  ~ known_digest g target ->
  List.find (fun e => starts_with target (fst e)
                      && Nat.leb 4 (String.length target))
            (commits (fst (currentHeadCommit g (disk w)))) = Some entry ->
  exists outcome g' w',
    checkout hasher g w target = (outcome, g', w')
    /\ (outcome = AlreadyOn \/ exists warnings, outcome = CheckedOut warnings)
    /\ headBranch g' = ""
    /\ headCommitHash g' = fst entry.
Proof.
  intros Hrepo Hclean Hbranch Hexact Hfind.
  destruct (currentHeadCommit_frame g (disk w)) as (Hb & Hs & Hhb & Hhc & _).
  rewrite <- known_digest_cached with (fs := disk w) in Hexact.
  unfold checkout. rewrite Hrepo. simpl negb. cbv iota.
  destruct (currentHeadCommit g (disk w)) as [g1 headCommit] eqn:E.
  cbn [fst snd] in *.
  rewrite (getStagedChanges_index g1 g (disk w) headCommit Hs),
          (getUnstagedChanges_index g1 g (disk w) headCommit Hs), Hclean.
  apply UmapFacts.find_None_keys in Hexact.
  unfold resolve_target. rewrite Hb, Hbranch.
  assert (Hcnt : Umap.count target (commits g1) = false)
    by (unfold Umap.count; now rewrite Hexact).
  rewrite Hcnt, Hfind. simpl fst.
  pose proof (@find_some_count _ _ _ _ Hfind) as Hcount.
  apply List.find_some in Hfind. destruct Hfind as [_ Hmatch].
  apply andb_prop in Hmatch. destruct Hmatch as [Hd Hlen].
  apply Nat.leb_le in Hlen.
  rewrite (@starts_with_nonempty _ _ Hd Hlen). simpl.
  unfold Umap.count in *.
  destruct (Umap.find (fst entry) (commits g1)) as [c0|] eqn:Efind;
    [|discriminate Hcount]. simpl.
  destruct (String.eqb (headCommitHash g1) (fst entry)) eqn:Ehead; simpl.
  - destruct (empty (headBranch g1)) eqn:Ebranch; simpl.
    + exists AlreadyOn, g1, w. repeat split; auto.
      * now destruct (headBranch g1).
      * now apply String.eqb_eq.
    + destruct (headBranch g1) eqn:Ehb; [discriminate|]. simpl.
      destruct (populateWorkingDirectory _ _) as [w2 warnings].
      eexists _, _, _. split; [reflexivity|]. simpl. repeat split.
      right. now exists warnings.
  - destruct (populateWorkingDirectory _ _) as [w2 warnings].
    eexists _, _, _. split; [reflexivity|]. simpl. repeat split.
    right. now exists warnings.
Qed.

(** C4, as the code has it: for a clean repository and a target that is
    neither a branch name nor a known commit digest, [checkout] resolves
    the target whenever it has at least four characters and is a prefix of
    some known digest: it ends with a detached HEAD on a known digest that
    has the target as a prefix, whether or not other digests share the
    prefix.  Among several, it is the first in the iteration of the commit
    cache (stated for a cache that holds HEAD's commit, so that the search
    iterates the cache as it is given).  It reports an unknown target, and
    changes neither HEAD, the branch map, the index nor the file system,
    exactly when the target is shorter than four characters or no known
    digest has it as a prefix. *)
Theorem checkout_prefix_resolution (g : MiniGitSystem) (w : World)
        (target : string) :
  dot_minigit (disk w) = true ->
  has_changes
    (getStagedChanges g (disk w) (snd (currentHeadCommit g (disk w))))
    (getUnstagedChanges hasher g (disk w) (snd (currentHeadCommit g (disk w))))
  = false ->
  Umap.find target (branches g) = None ->
  ~ known_digest g target ->
  (4 <= String.length target ->
   (exists d, known_digest g d /\ starts_with target d = true) ->
   exists outcome g' w',
     checkout hasher g w target = (outcome, g', w')
     /\ (outcome = AlreadyOn \/ exists warnings, outcome = CheckedOut warnings)
     /\ headBranch g' = ""
     /\ known_digest g (headCommitHash g')
     /\ starts_with target (headCommitHash g') = true)
  /\ (forall before d after,
        empty (headCommitHash g) = true
        \/ Umap.count (headCommitHash g) (commits g) = true ->
        Umap.keys (commits g) = (before ++ d :: after)%list ->
        4 <= String.length target ->
        starts_with target d = true ->
        (forall k, In k before -> starts_with target k = false) ->
        exists outcome g' w',
          checkout hasher g w target = (outcome, g', w')
          /\ headBranch g' = ""
          /\ headCommitHash g' = d)
  /\ (String.length target < 4
       \/ (forall k, known_digest g k -> starts_with target k = false) ->
      exists g',
        checkout hasher g w target = (UnknownTarget, g', w)
        /\ headBranch g' = headBranch g
        /\ headCommitHash g' = headCommitHash g
        /\ branches g' = branches g
        /\ stagingArea g' = stagingArea g).
Proof.
  intros Hrepo Hclean Hbranch Hexact. split; [|split].
  - intros Hlen (d & Hknown & Hd).
    apply (known_digest_cached g (disk w)) in Hknown.
    apply in_map_iff in Hknown. destruct Hknown as ([k c] & Hk & Hin).
    simpl in Hk. subst k.
    destruct (@find_some_match _
                (fun e => starts_with target (fst e)
                          && Nat.leb 4 (String.length target))
                _ (d, c) Hin) as (entry & Hfind & Hentry & Hmatch).
    { cbn [fst]. rewrite Hd. cbn [andb]. now apply Nat.leb_le. }
    destruct (checkout_prefix_found w Hrepo Hclean Hbranch Hexact Hfind)
      as (outcome & g' & w' & H & Hout & Hb & Hh).
    exists outcome, g', w'. repeat split; auto.
    + rewrite Hh. apply (known_digest_cached g (disk w)).
      unfold Umap.keys. now apply in_map.
    + rewrite Hh. apply andb_prop in Hmatch. tauto.
  - intros before d after Hcached Hkeys Hlen Hd Hbefore.
    assert (Hleb : Nat.leb 4 (String.length target) = true)
      by now apply Nat.leb_le.
    destruct (@find_first_match _
                (fun k => starts_with target k && Nat.leb 4 (String.length target))
                (commits g) before d after Hkeys) as [c Hfind].
    { now rewrite Hd, Hleb. }
    { intros k Hk. now rewrite (Hbefore k Hk). }
    rewrite <- (currentHeadCommit_cached g (disk w) Hcached) in Hfind at 1.
    destruct (checkout_prefix_found w Hrepo Hclean Hbranch Hexact Hfind)
      as (outcome & g' & w' & H & _ & Hb & Hh).
    exists outcome, g', w'. repeat split; auto.
  - intros Hnone.
    destruct (currentHeadCommit_frame g (disk w)) as (Hb & Hs & Hhb & Hhc & _).
    assert (Hexact' : ~ In target
                        (Umap.keys (commits (fst (currentHeadCommit g (disk w))))))
      by now rewrite known_digest_cached.
    assert (Hnone' :
      String.length target < 4
      \/ (forall k, In k (Umap.keys
                            (commits (fst (currentHeadCommit g (disk w))))) ->
                    starts_with target k = false)).
    { destruct Hnone as [Hshort|Hnone]; [now left | right].
      intros k Hk. apply Hnone. now apply (known_digest_cached g (disk w)). }
    unfold checkout. rewrite Hrepo. simpl negb. cbv iota.
    destruct (currentHeadCommit g (disk w)) as [g1 headCommit] eqn:E.
    simpl in *.
    rewrite (getStagedChanges_index g1 g (disk w) headCommit Hs),
            (getUnstagedChanges_index g1 g (disk w) headCommit Hs), Hclean.
    apply UmapFacts.find_None_keys in Hexact'.
    unfold resolve_target. rewrite Hb, Hbranch.
    assert (Hcnt : Umap.count target (commits g1) = false)
      by (unfold Umap.count; now rewrite Hexact').
    rewrite Hcnt.
    rewrite (@find_no_match _
               (fun k => starts_with target k && Nat.leb 4 (String.length target))).
    + simpl. exists g1. repeat split; congruence.
    + intros k Hk. destruct Hnone' as [Hshort | Hnone'].
      * replace (Nat.leb 4 (String.length target)) with false
          by (symmetry; apply Nat.leb_gt; lia).
        apply andb_false_r.
      * now rewrite (Hnone' k Hk).
Qed.

End CheckoutFacts.

(** *** Instances on the walk-through *)

Example twin_reload_example : MiniGitSystem_new twin_fs = twin_system.
Proof. vm_compute. reflexivity. Qed.

Lemma checkout_dirty_unchanged_witness :
  dot_minigit modified_fs = true
  /\ has_changes
       (getStagedChanges committed_system modified_fs
          (snd (currentHeadCommit committed_system modified_fs)))
       (getUnstagedChanges sample_hasher committed_system modified_fs
          (snd (currentHeadCommit committed_system modified_fs))) = true
  /\ exists g',
       checkout sample_hasher committed_system (mkWorld modified_fs []) "8276"
       = (WorkingDirDirty, g', mkWorld modified_fs [])
       /\ headBranch g' = "master"
       /\ headCommitHash g' = "8276604627639202864".
Proof.
  assert (Hdirty :
    has_changes
      (getStagedChanges committed_system modified_fs
         (snd (currentHeadCommit committed_system modified_fs)))
      (getUnstagedChanges sample_hasher committed_system modified_fs
         (snd (currentHeadCommit committed_system modified_fs))) = true)
    by (vm_compute; reflexivity).
  split; [reflexivity|]. split; [exact Hdirty|].
  destruct (checkout_dirty_unchanged sample_hasher committed_system
              (mkWorld modified_fs []) "8276" eq_refl Hdirty)
    as (g' & H & Hb & Hh & _).
  exists g'. split; [exact H|]. split; [exact Hb | exact Hh].
Defined.

Lemma checkout_prefix_resolution_witness :
  dot_minigit twin_fs = true
  /\ Umap.find "1234" (branches twin_system) = None
  /\ ~ known_digest twin_system "1234"
  /\ (exists outcome g' w',
        checkout sample_hasher twin_system (mkWorld twin_fs []) "1234"
        = (outcome, g', w')
        /\ headBranch g' = ""
        /\ known_digest twin_system (headCommitHash g')
        /\ starts_with "1234" (headCommitHash g') = true)
  /\ (exists outcome g' w',
        checkout sample_hasher twin_system (mkWorld twin_fs []) "1234"
        = (outcome, g', w')
        /\ headBranch g' = ""
        /\ headCommitHash g' = "12345678")
  /\ (exists g',
        checkout sample_hasher twin_system (mkWorld twin_fs []) "9999"
        = (UnknownTarget, g', mkWorld twin_fs [])).
Proof.
  assert (Hclean :
    has_changes
      (getStagedChanges twin_system twin_fs
         (snd (currentHeadCommit twin_system twin_fs)))
      (getUnstagedChanges sample_hasher twin_system twin_fs
         (snd (currentHeadCommit twin_system twin_fs))) = false)
    by (vm_compute; reflexivity).
  assert (Hknown : forall d, known_digest twin_system d ->
                             d = "12345678" \/ d = "12349999").
  { intros d [[H|[H|[]]]|[_ H]]; auto. }
  assert (H1234 : ~ known_digest twin_system "1234").
  { intros H. apply Hknown in H. destruct H as [H|H]; discriminate H. }
  assert (H9999 : ~ known_digest twin_system "9999").
  { intros H. apply Hknown in H. destruct H as [H|H]; discriminate H. }
  split; [reflexivity|]. split; [reflexivity|]. split; [exact H1234|].
  destruct (@checkout_prefix_resolution sample_hasher twin_system
              (mkWorld twin_fs []) "1234" eq_refl Hclean eq_refl H1234)
    as (Hsome & Hfirst & _).
  split; [|split].
  - destruct (Hsome (le_n 4)) as (outcome & g' & w' & H & _ & Hb & Hk & Hp).
    { exists "12349999". split; [left; simpl; auto | reflexivity]. }
    exists outcome, g', w'. repeat split; assumption.
  - destruct (Hfirst [] "12345678" ["12349999"] (or_intror eq_refl) eq_refl
                (le_n 4) eq_refl (fun k (H : In k []) => match H with end))
      as (outcome & g' & w' & H & Hb & Hh).
    exists outcome, g', w'. split; [exact H|]. split; [exact Hb | exact Hh].
  - destruct (@checkout_prefix_resolution sample_hasher twin_system
                (mkWorld twin_fs []) "9999" eq_refl Hclean eq_refl H9999)
      as (_ & _ & Hnone).
    destruct Hnone as (g' & H & _).
    + right. intros k Hk. apply Hknown in Hk.
      destruct Hk as [Hk|Hk]; subst k; reflexivity.
    + exists g'. exact H.
Defined.

(** [1234] is neither a branch nor a full digest and is a prefix of both
    known digests; [checkout 1234] does not report an unknown target: it
    detaches HEAD on the first of the two and restores that commit's file.
    Were the commit map to iterate the other way round, HEAD would be
    detached on the other digest. *)
Lemma checkout_ambiguous_prefix_resolves :
  let r := checkout sample_hasher twin_system (mkWorld twin_fs []) "1234" in
  let r' := checkout sample_hasher twin_system_reversed (mkWorld twin_fs [])
                     "1234" in
  fst (fst r') = CheckedOut []
  /\ headBranch (snd (fst r')) = ""
  /\ headCommitHash (snd (fst r')) = "12349999"
  /\ Umap.find "1234" (branches twin_system) = None
  /\ Umap.count "1234" (commits twin_system) = false
  /\ filter (starts_with "1234") (Umap.keys (commits twin_system))
     = ["12345678"; "12349999"]
  /\ fst (fst r) = CheckedOut []
  /\ headBranch (snd (fst r)) = ""
  /\ headCommitHash (snd (fst r)) = "12345678"
  /\ HEAD_file (disk (snd r)) = Some ("12345678" ++ nl)
  /\ workdir (disk (snd r))
     = [("file.txt", RegularFile ("Line 1" ++ nl ++ "Line 2" ++ nl))].
Proof.
  vm_compute. repeat split.
Qed.

(* ================================================================= *)
(** ** Reading blobs *)




(** A snapshot with one missing blob and one stored empty blob: the first
    path is reported and skipped, the second is written as an empty file. *)
Example populate_example :
  let c := mkCommit "12345678" "Two files" "2024-01-01 10:00:00" []
                    [("lost.txt", "55"); ("empty.txt", "77")] in
  let r := populateWorkingDirectory c (mkWorld fs_with_empty_blob []) in
  snd r = [MissingObject "lost.txt" "55"]
  /\ workdir (disk (fst r)) = [("empty.txt", RegularFile "")].
Proof. vm_compute. repeat split. Qed.

(* ================================================================= *)
(** ** [displayLineDiff] *)

Lemma old_side_app (p q : list DiffLine) :
  old_side (p ++ q) = (old_side p ++ old_side q)%list.
Proof.
  induction p as [|[l|l|l] p IH]; simpl; auto; now rewrite IH.
Qed.

Lemma new_side_app (p q : list DiffLine) :
  new_side (p ++ q) = (new_side p ++ new_side q)%list.
Proof.
  induction p as [|[l|l|l] p IH]; simpl; auto; now rewrite IH.
Qed.

(** Whatever a turn prints accounts for the lines it moves past. *)
Lemma diff_turn_sides (oldLines newLines : list string) :
  (old_side (fst (fst (diff_turn oldLines newLines)))
   ++ snd (fst (diff_turn oldLines newLines)))%list = oldLines
  /\ (new_side (fst (fst (diff_turn oldLines newLines)))
      ++ snd (diff_turn oldLines newLines))%list = newLines.
Proof.
  unfold diff_turn.
  destruct oldLines as [|o oldLines], newLines as [|n newLines]; simpl; auto.
  - destruct (String.eqb o n) eqn:E; simpl.
    + apply String.eqb_eq in E. now subst.
    + rewrite (String.eqb_sym n o), E. simpl.
      destruct (existsb (String.eqb o) newLines); simpl; auto.
      destruct (existsb (String.eqb n) oldLines); simpl; auto.
Qed.

Lemma diff_loop_sides (fuel : nat) (oldLines newLines : list string)
      (printed : list DiffLine) :
  diff_loop fuel oldLines newLines = Some printed ->
  old_side printed = oldLines /\ new_side printed = newLines.
Proof.
  revert oldLines newLines printed.
  induction fuel as [|fuel IH]; intros oldLines newLines printed; simpl.
  - destruct oldLines, newLines; simpl; try discriminate.
    intros H. inversion H. auto.
  - destruct (is_nil oldLines && is_nil newLines) eqn:E.
    + destruct oldLines, newLines; try discriminate.
      intros H. inversion H. auto.
    + pose proof (diff_turn_sides oldLines newLines) as [Ho Hn].
      destruct (diff_turn oldLines newLines) as [[p o'] n']. simpl in Ho, Hn.
      destruct (diff_loop fuel o' n') as [rest|] eqn:Erest; [|discriminate].
      intros H. inversion H; subst printed.
      destruct (IH _ _ _ Erest) as [Ho' Hn'].
      rewrite old_side_app, new_side_app, Ho', Hn'. auto.
Qed.

(** X1: a diff that [displayLineDiff] finishes is the header, one line
    per printed entry and the footer, where the unchanged and removed lines,
    in order, are exactly the lines of the old content and the unchanged and
    inserted lines are exactly the lines of the new content. *)
Theorem displayLineDiff_accounts_for_both_texts
        (fuel : nat) (oldContent newContent filename : string)
        (output : list string) :
  displayLineDiff fuel oldContent newContent filename = Some output ->
  exists printed,
    output = (("--- Diff for: " ++ filename ++ " ---")
                :: (map render printed ++ ["---------------------------"])%list)
    /\ old_side printed = getlines oldContent
    /\ new_side printed = getlines newContent.
Proof.
  unfold displayLineDiff.
  destruct (diff_loop fuel (getlines oldContent) (getlines newContent))
    as [printed|] eqn:E; [|discriminate].
  intros H. inversion H. exists printed. split; [reflexivity|].
  exact (diff_loop_sides _ _ _ E).
Qed.

Lemma displayLineDiff_accounts_for_both_texts_witness :
  exists printed,
    displayLineDiff 4 ("Line 1" ++ nl ++ "Line 2" ++ nl)
      ("Modified Line 1" ++ nl ++ "Line 2" ++ nl ++ "New Line 3" ++ nl)
      "file.txt"
    = Some (("--- Diff for: " ++ "file.txt" ++ " ---")
              :: (map render printed ++ ["---------------------------"])%list)
    /\ old_side printed = ["Line 1"; "Line 2"]
    /\ new_side printed = ["Modified Line 1"; "Line 2"; "New Line 3"].
Proof.
  destruct (@displayLineDiff_accounts_for_both_texts 4
              ("Line 1" ++ nl ++ "Line 2" ++ nl)
              ("Modified Line 1" ++ nl ++ "Line 2" ++ nl ++ "New Line 3" ++ nl)
              "file.txt" _ eq_refl) as (printed & Hout & Ho & Hn).
  exists printed. split; [|split; [exact Ho | exact Hn]].
  rewrite <- Hout. reflexivity.
Defined.

(** X2: lines the two texts start with in common are printed as
    unchanged, one turn each, and the diff goes on with what follows them;
    in particular a text diffed against itself prints every line as
    unchanged. *)
Theorem diff_loop_common_prefix (fuel : nat)
        (common oldRest newRest : list string) :
  diff_loop (length common + fuel) (common ++ oldRest) (common ++ newRest)
  = match diff_loop fuel oldRest newRest with
    | Some rest => Some (map Unchanged common ++ rest)%list
    | None => None
    end.
Proof.
  induction common as [|l common IH]; simpl.
  - now destruct (diff_loop fuel oldRest newRest).
  - unfold diff_turn. simpl. rewrite String.eqb_refl. simpl.
    rewrite IH. now destruct (diff_loop fuel oldRest newRest).
Qed.

Lemma diff_loop_common_prefix_witness :
  diff_loop 2 ["Line 1"; "Line 2"] ["Line 1"; "Line 2"]
  = Some [Unchanged "Line 1"; Unchanged "Line 2"]
  /\ diff_loop 3 ["Line 1"; "Line 2"] ["Line 1"; "Line 2"; "New Line 3"]
     = Some [Unchanged "Line 1"; Unchanged "Line 2"; Inserted "New Line 3"].
Proof.
  split.
  - exact (diff_loop_common_prefix 0 ["Line 1"; "Line 2"] [] []).
  - exact (diff_loop_common_prefix 1 ["Line 1"; "Line 2"] [] ["New Line 3"]).
Defined.

(** X3: when no line of the old text occurs in the new text, the diff
    finishes within one turn per line and prints every old line as removed,
    then every new line as inserted.  This is the diff of a deleted file
    (new text empty) and of a new file (old text empty). *)
Theorem diff_loop_disjoint (fuel : nat) (oldLines newLines : list string) :
  (forall line, In line oldLines -> ~ In line newLines) ->
  length oldLines + length newLines <= fuel ->
  diff_loop fuel oldLines newLines
  = Some (map Removed oldLines ++ map Inserted newLines)%list.
Proof.
  revert oldLines newLines.
  induction fuel as [|fuel IH]; intros oldLines newLines Hdisj Hfuel.
  - destruct oldLines, newLines; simpl in *; try lia. reflexivity.
  - destruct oldLines as [|o oldLines].
    + destruct newLines as [|n newLines]; [reflexivity|].
      simpl. unfold diff_turn. simpl.
      rewrite (IH [] newLines).
      * reflexivity.
      * intros line [].
      * simpl in *. lia.
    + assert (Hnot : existsb (String.eqb o) newLines = false).
      { destruct (existsb (String.eqb o) newLines) eqn:E; auto.
        apply existsb_exists in E. destruct E as (x & Hin & Hx).
        apply String.eqb_eq in Hx. subst x.
        exfalso. apply (Hdisj o); simpl; auto. }
      assert (Hrest : forall line, In line oldLines -> ~ In line newLines).
      { intros line Hin. apply Hdisj. now right. }
      simpl. unfold diff_turn.
      destruct newLines as [|n newLines]; simpl.
      * rewrite (IH oldLines []).
        -- reflexivity.
        -- exact Hrest.
        -- simpl in *. lia.
      * simpl in Hnot. apply orb_false_elim in Hnot. destruct Hnot as [Hon Hnot].
        rewrite Hon, Hnot. simpl.
        rewrite (IH oldLines (n :: newLines)).
        -- reflexivity.
        -- exact Hrest.
        -- simpl in *. lia.
Qed.

Lemma diff_loop_disjoint_witness :
  diff_loop 3 ["a"; "b"] ["c"] = Some [Removed "a"; Removed "b"; Inserted "c"]
  /\ diff_loop 2 ["Line 1"; "Line 2"] [] = Some [Removed "Line 1"; Removed "Line 2"].
Proof.
  split.
  - refine (@diff_loop_disjoint 3 ["a"; "b"] ["c"] _ (le_n 3)).
    simpl. intros line [H|[H|[]]] [H'|[]]; subst; discriminate.
  - refine (@diff_loop_disjoint 2 ["Line 1"; "Line 2"] [] _ (le_n 2)).
    simpl. intros line _ [].
Defined.

(** X4: when the two current lines differ and each of them occurs
    further on in the other text, a turn prints nothing and moves neither
    index, so the loop of [displayLineDiff] never ends: no amount of fuel
    finishes it. *)
Theorem diff_loop_stuck (fuel : nat) (o n : string)
        (oldLines newLines : list string) :
  String.eqb o n = false ->
  In o newLines ->
  In n oldLines ->
  diff_turn (o :: oldLines) (n :: newLines) = ([], o :: oldLines, n :: newLines)
  /\ diff_loop fuel (o :: oldLines) (n :: newLines) = None.
Proof.
  intros Hne Ho Hn.
  assert (Hturn : diff_turn (o :: oldLines) (n :: newLines)
                  = ([], o :: oldLines, n :: newLines)).
  { unfold diff_turn. simpl. rewrite Hne, (String.eqb_sym n o), Hne. simpl.
    replace (existsb (String.eqb o) newLines) with true.
    - replace (existsb (String.eqb n) oldLines) with true; [reflexivity|].
      symmetry. apply existsb_exists. exists n. split; auto.
      apply String.eqb_refl.
    - symmetry. apply existsb_exists. exists o. split; auto.
      apply String.eqb_refl. }
  split; [exact Hturn|].
  induction fuel as [|fuel IH]; simpl; auto.
  rewrite Hturn, IH. reflexivity.
Qed.

Lemma diff_loop_stuck_witness :
  diff_loop 1000 ["a"; "b"] ["b"; "a"] = None
  /\ displayLineDiff 1000 ("a" ++ nl ++ "b" ++ nl) ("b" ++ nl ++ "a" ++ nl) "f"
     = None.
Proof.
  assert (H : diff_loop 1000 ["a"; "b"] ["b"; "a"] = None).
  { refine (proj2 (@diff_loop_stuck 1000 "a" "b" ["b"] ["a"] eq_refl _ _));
      simpl; auto. }
  split; [exact H|].
  unfold displayLineDiff.
  change (getlines ("a" ++ nl ++ "b" ++ nl)) with ["a"; "b"].
  change (getlines ("b" ++ nl ++ "a" ++ nl)) with ["b"; "a"].
  rewrite H. reflexivity.
Defined.

(* ================================================================= *)
(** ** [log] *)

Lemma uset_count_In (k : string) (s : Uset.t) :
  Uset.count k s = true <-> In k s.
Proof.
  unfold Uset.count. rewrite existsb_exists. split.
  - intros (x & Hin & Hx). apply String.eqb_eq in Hx. now subst.
  - intros Hin. exists k. split; auto. apply String.eqb_refl.
Qed.

Lemma umap_count_In (V : Type) (k : string) (m : Umap.t V) :
  Umap.count k m = true <-> In k (Umap.keys m).
Proof.
  unfold Umap.count. destruct (Umap.find k m) eqn:E.
  - split; auto. intros _. exact (UmapFacts.find_In_keys _ _ E).
  - apply UmapFacts.find_None_keys in E. split; [discriminate | contradiction].
Qed.

(** A commit file that loads with a non-empty [hash] field exists. *)
Lemma loadCommitFromFile_found (fs : FileSystem) (commitHash : string) :
  empty (hash (loadCommitFromFile fs commitHash)) = false ->
  In commitHash (Umap.keys (commit_files fs)).
Proof.
  unfold loadCommitFromFile.
  destruct (Umap.find commitHash (commit_files fs)) eqn:E; [|discriminate].
  intros _. exact (UmapFacts.find_In_keys _ _ E).
Qed.

Lemma touch_branch_commits (g : MiniGitSystem) :
  commits (touch_branch g) = commits g.
Proof.
  unfold touch_branch. now destruct (Umap.count _ _).
Qed.

Lemma log_body_inv (fs : FileSystem) (g : MiniGitSystem) (current : string)
      (g' : MiniGitSystem) (entry : LogEntry) (next : string) :
  log_body fs g current = (g', Some (entry, next)) ->
  (Umap.count current (commits g) = true /\ commits g' = commits g)
  \/ (Umap.count current (commits g) = false
      /\ empty (hash (loadCommitFromFile fs current)) = false
      /\ commits g' = Umap.assign current (loadCommitFromFile fs current)
                                  (commits g)).
Proof.
  unfold log_body.
  destruct (Umap.count current (commits g)) eqn:Ecount.
  - cbv beta iota zeta. unfold negb at 1. unfold andb at 1.
    intros H. injection H as Hg _. left. split; auto. subst g'.
    destruct (negb (empty (headBranch g))); auto using touch_branch_commits.
  - cbv beta iota zeta. unfold negb at 1. unfold andb at 1.
    unfold set_commits at 1. unfold commits at 1.
    rewrite UmapFacts.find_assign_same.
    destruct (empty (hash (loadCommitFromFile fs current))) eqn:Ehash;
      [discriminate|].
    intros H. injection H as Hg _. right. split; auto. split; auto. subst g'.
    match goal with
    | |- commits (if ?b then _ else _) = _ => destruct b
    end; [rewrite touch_branch_commits|]; reflexivity.
Qed.

(** A turn that prints an entry was on a digest of the universe, and
    leaves the cache inside it. *)
Lemma log_body_universe (fs : FileSystem) (g : MiniGitSystem)
      (current : string) (universe : list string)
      (g' : MiniGitSystem) (entry : LogEntry) (next : string) :
  incl (Umap.keys (commits g)) universe ->
  incl (Umap.keys (commit_files fs)) universe ->
  log_body fs g current = (g', Some (entry, next)) ->
  In current universe /\ incl (Umap.keys (commits g')) universe.
Proof.
  intros Hcache Hfiles H. apply log_body_inv in H.
  destruct H as [[Ecount Hg] | (Ecount & Ehash & Hg)]; rewrite Hg.
  - split; auto. apply Hcache. now apply umap_count_In.
  - assert (Hin : In current universe)
      by (apply Hfiles; now apply loadCommitFromFile_found).
    split; auto.
    rewrite UmapFacts.keys_assign, Ecount.
    apply incl_app; auto. intros x [Hx|[]]. now subst.
Qed.

(** A corrupt reference ends the loop with the cache still inside the
    universe extended by that reference. *)
Lemma log_loop_finishes (fs : FileSystem) (universe : list string)
      (fuel : nat) (g : MiniGitSystem) (current : string)
      (visitedCommits : Uset.t) (entries : list LogEntry) :
  incl (Umap.keys (commits g)) universe ->
  incl (Umap.keys (commit_files fs)) universe ->
  NoDup visitedCommits ->
  incl visitedCommits universe ->
  length entries = length visitedCommits ->
  length universe < fuel + length visitedCommits ->
  exists g' entries' visited' corrupt,
    log_loop fuel fs g current visitedCommits entries
    = Some (g', entries', visited', corrupt)
    /\ NoDup visited'
    /\ incl visited' universe
    /\ length entries' = length visited'.
Proof.
  intros Hcache Hfiles. revert g current visitedCommits entries Hcache.
  induction fuel as [|fuel IH];
    intros g current visited entries Hcache Hnd Hincl Hlen Hfuel.
  - pose proof (NoDup_incl_length Hnd Hincl). simpl in Hfuel. lia.
  - simpl.
    destruct (empty current || Uset.count current visited) eqn:Econd.
    + eexists _, _, _, _. split; [reflexivity|]. auto.
    + apply orb_false_elim in Econd. destruct Econd as [_ Enew].
      destruct (log_body fs g current) as [g' [[entry next]|]] eqn:Ebody.
      * destruct (@log_body_universe fs g current universe g' entry next
                    Hcache Hfiles Ebody) as [Hin Hcache'].
        assert (Hnotin : ~ In current visited).
        { intros H. apply uset_count_In in H. congruence. }
        unfold Uset.insert. rewrite Enew.
        apply IH; auto.
        -- apply NoDup_rev in Hnd. rewrite <- (rev_involutive (_ ++ _)).
           apply NoDup_rev. rewrite rev_app_distr. simpl.
           constructor; auto. now rewrite <- in_rev.
        -- apply incl_app; auto. intros x [Hx|[]]. now subst.
        -- rewrite !length_app. simpl. lia.
        -- rewrite length_app. simpl. lia.
      * eexists _, _, _, _. split; [reflexivity|]. auto.
Qed.

(** More fuel does not change what a finished loop returns. *)
Lemma log_loop_more_fuel (fs : FileSystem) (fuel extra : nat)
      (g : MiniGitSystem) (current : string) (visitedCommits : Uset.t)
      (entries : list LogEntry)
      (result : MiniGitSystem * list LogEntry * Uset.t * option string) :
  log_loop fuel fs g current visitedCommits entries = Some result ->
  log_loop (fuel + extra) fs g current visitedCommits entries = Some result.
Proof.
  revert g current visitedCommits entries.
  induction fuel as [|fuel IH]; intros g current visited entries; simpl.
  - destruct (empty current || Uset.count current visited) eqn:E;
      [|discriminate].
    intros H. destruct extra; simpl; now rewrite E.
  - destruct (empty current || Uset.count current visited); auto.
    destruct (log_body fs g current) as [g' [[entry next]|]]; auto.
Qed.

(** X5: [log] always finishes: one more turn than there are cached
    commits and commit files is enough fuel, also when parent links form a
    cycle, and more fuel gives the same result.  It prints no more entries
    than there are such digests. *)
Theorem log_terminates (g : MiniGitSystem) (fs : FileSystem) :
  exists result g',
    log (S (length (commit_universe g fs))) g fs = Some (result, g')
    /\ (forall extra,
          log (S (length (commit_universe g fs)) + extra) g fs
          = Some (result, g'))
    /\ match result with
       | LogHistory entries _ => length entries <= length (commit_universe g fs)
       | _ => True
       end.
Proof.
  unfold log.
  destruct (negb (dot_minigit fs)).
  { eexists _, _. split; [reflexivity|]. split; auto. }
  destruct (empty (headCommitHash g)).
  { eexists _, _. split; [reflexivity|]. split; auto. }
  destruct (@log_loop_finishes fs (commit_universe g fs)
              (S (length (commit_universe g fs))) g (headCommitHash g) [] [])
    as (g' & entries' & visited' & corrupt & Hloop & Hnd & Hincl & Hlen).
  - unfold commit_universe. apply incl_appl, incl_refl.
  - unfold commit_universe. apply incl_appr, incl_refl.
  - constructor.
  - intros x [].
  - reflexivity.
  - simpl. lia.
  - exists (LogHistory entries' corrupt), g'.
    split; [now rewrite Hloop|]. split.
    + intros extra.
      change (S (length (commit_universe g fs)) + extra)
        with (S (length (commit_universe g fs)) + extra)%nat.
      now rewrite (@log_loop_more_fuel fs _ extra _ _ _ _ _ Hloop).
    + rewrite Hlen. exact (NoDup_incl_length Hnd Hincl).
Qed.

(** On two commits that name each other as parent, [log] prints each once
    and stops. *)
Example log_cycle_example :
  log 3 cyclic_system fs_without_blob
  = Some (LogHistory
            [mkLogEntry "1111222" (HeadOnBranch "master") [] ["3333444"]
                        "2024-01-01 10:00:00" "One";
             mkLogEntry "3333444" NoMark [] ["1111222"]
                        "2024-01-02 10:00:00" "Two"]
            None,
          cyclic_system).
Proof. vm_compute. reflexivity. Qed.

(* ================================================================= *)
(** ** Commit records on disk *)

Lemma string_app_assoc (a b c : string) : (a ++ b) ++ c = a ++ b ++ c.
Proof.
  induction a as [|x a IH]; simpl; auto. now rewrite IH.
Qed.

Lemma string_app_empty (a : string) : a ++ "" = a.
Proof.
  induction a as [|x a IH]; simpl; auto. now rewrite IH.
Qed.

Lemma no_char_app (p : ascii -> bool) (a b : string) :
  no_char p (a ++ b) = no_char p a && no_char p b.
Proof.
  induction a as [|x a IH]; simpl; auto.
  rewrite IH. now rewrite andb_assoc.
Qed.

Lemma no_space_no_newline (s : string) :
  no_char isspace s = true -> no_char is_newline s = true.
Proof.
  induction s as [|c s IH]; simpl; auto.
  intros H. apply andb_prop in H. destruct H as [Hc Hs].
  rewrite (IH Hs), andb_true_r.
  unfold is_newline. destruct (Ascii.eqb c newline) eqn:E; auto.
  apply Ascii.eqb_eq in E. subst c. discriminate Hc.
Qed.

(** [std::getline] takes a newline-free text up to the newline after it. *)
Lemma getlines_line (a rest : string) :
  no_char is_newline a = true ->
  getlines (a ++ nl ++ rest) = a :: getlines rest.
Proof.
  induction a as [|c a IH]; simpl.
  - reflexivity.
  - intros H. apply andb_prop in H. destruct H as [Hc Ha].
    unfold is_newline in Hc.
    destruct (Ascii.eqb c newline); [discriminate|].
    simpl in IH. now rewrite (IH Ha).
Qed.

Lemma concat_empty_cons (x : string) (xs : list string) :
  String.concat "" (x :: xs) = x ++ String.concat "" xs.
Proof.
  destruct xs; simpl; auto. now rewrite string_app_empty.
Qed.

(** [ss >> word] on words written one after the other, a space after each. *)
Lemma tokens_word (p rest : string) :
  no_char isspace p = true ->
  tokens (p ++ " " ++ rest) = (p, words rest).
Proof.
  induction p as [|c p IH]; simpl.
  - intros _. unfold words. now destruct (tokens rest).
  - intros H. apply andb_prop in H. destruct H as [Hc Hp].
    simpl in IH. rewrite (IH Hp).
    now destruct (isspace c).
Qed.

Lemma words_parents (ps : list string) :
  forallb parent_ok ps = true ->
  words (String.concat "" (map (fun p => p ++ " ") ps)) = ps.
Proof.
  induction ps as [|p ps IH]; simpl map.
  - reflexivity.
  - intros H. simpl in H. apply andb_prop in H. destruct H as [Hp Hps].
    unfold parent_ok in Hp. apply andb_prop in Hp. destruct Hp as [Hne Hp].
    rewrite concat_empty_cons, string_app_assoc.
    unfold words at 1. rewrite tokens_word by exact Hp. rewrite (IH Hps).
    now destruct p.
Qed.

Lemma parents_no_newline (ps : list string) :
  forallb parent_ok ps = true ->
  no_char is_newline (String.concat "" (map (fun p => p ++ " ") ps)) = true.
Proof.
  induction ps as [|p ps IH]; simpl map; auto.
  intros H. simpl in H. apply andb_prop in H. destruct H as [Hp Hps].
  unfold parent_ok in Hp. apply andb_prop in Hp. destruct Hp as [_ Hp].
  rewrite concat_empty_cons, !no_char_app, (IH Hps).
  rewrite no_space_no_newline by exact Hp. reflexivity.
Qed.

Lemma split_colon_entry (f b : string) :
  no_char is_colon f = true ->
  split_colon (f ++ ":" ++ b) = Some (f, b).
Proof.
  induction f as [|c f IH]; simpl.
  - reflexivity.
  - intros H. apply andb_prop in H. destruct H as [Hc Hf].
    unfold is_colon in Hc. destruct (Ascii.eqb c ":"); [discriminate|].
    simpl in IH. now rewrite (IH Hf).
Qed.

Lemma entry_line_nonempty (f b : string) : empty (f ++ ":" ++ b) = false.
Proof.
  now destruct f.
Qed.

(** The lines of the [files:] section are the entries, one per line. *)
Lemma getlines_entries (entries : Umap.t string) :
  forallb entry_ok entries = true ->
  getlines (String.concat ""
              (map (fun fb => fst fb ++ ":" ++ snd fb ++ nl) entries))
  = map (fun fb => fst fb ++ ":" ++ snd fb) entries.
Proof.
  induction entries as [|[f b] entries IH]; simpl map.
  - reflexivity.
  - intros H. simpl in H. apply andb_prop in H. destruct H as [Hfb Hrest].
    unfold entry_ok in Hfb. simpl in Hfb.
    apply andb_prop in Hfb. destruct Hfb as [Hf Hb].
    apply andb_prop in Hf. destruct Hf as [Hfn Hfc].
    rewrite concat_empty_cons. simpl fst. simpl snd.
    replace ((f ++ ":" ++ b ++ nl) ++ String.concat "" _)
      with ((f ++ ":" ++ b) ++ nl ++
            String.concat "" (map (fun fb => fst fb ++ ":" ++ snd fb ++ nl) entries))
      by now rewrite !string_app_assoc.
    rewrite getlines_line, (IH Hrest); auto.
    now rewrite !no_char_app, Hfn, Hb.
Qed.

(** The inner loop of [loadCommitFromFile] on such lines assigns every
    entry in turn. *)
Lemma parse_entries (entries : Umap.t string) (c : Commit) :
  forallb entry_ok entries = true ->
  parseCommitLines true (map (fun fb => fst fb ++ ":" ++ snd fb) entries) c
  = with_fileBlobs
      (fold_left (fun acc e => Umap.assign (fst e) (snd e) acc) entries
                 (fileBlobs c)) c.
Proof.
  revert c. induction entries as [|[f b] entries IH]; intros c H.
  - simpl. now destruct c.
  - simpl in H. apply andb_prop in H. destruct H as [Hfb Hrest].
    unfold entry_ok in Hfb. simpl in Hfb.
    apply andb_prop in Hfb. destruct Hfb as [Hf _].
    apply andb_prop in Hf. destruct Hf as [_ Hfc].
    change (map (fun fb => fst fb ++ ":" ++ snd fb) ((f, b) :: entries))
      with ((f ++ ":" ++ b)
              :: map (fun fb => fst fb ++ ":" ++ snd fb) entries).
    cbn [parseCommitLines].
    rewrite entry_line_nonempty. rewrite split_colon_entry by exact Hfc.
    rewrite IH by exact Hrest. reflexivity.
Qed.

Lemma assign_new_key (V : Type) (k : string) (v : V) (m : Umap.t V) :
  ~ In k (Umap.keys m) -> Umap.assign k v m = (m ++ [(k, v)])%list.
Proof.
  induction m as [|[k0 v0] m IH]; simpl; auto.
  intros H. destruct (String.eqb k0 k) eqn:E.
  - apply String.eqb_eq in E. tauto.
  - rewrite IH; auto.
Qed.

Lemma fold_assign_distinct (V : Type) (entries acc : Umap.t V) :
  NoDup (Umap.keys (acc ++ entries)%list) ->
  fold_left (fun acc e => Umap.assign (fst e) (snd e) acc) entries acc
  = (acc ++ entries)%list.
Proof.
  revert acc. induction entries as [|[k v] entries IH]; intros acc Hnd; simpl.
  - now rewrite app_nil_r.
  - assert (Hnew : ~ In k (Umap.keys acc)).
    { unfold Umap.keys in *. rewrite map_app in Hnd. simpl in Hnd.
      apply NoDup_remove_2 in Hnd. intros H. apply Hnd.
      apply in_or_app. now left. }
    rewrite assign_new_key by exact Hnew.
    rewrite IH; rewrite <- app_assoc; auto.
Qed.

Lemma starts_with_app (p s : string) : starts_with p (p ++ s) = true.
Proof.
  unfold starts_with. induction p as [|c p IH]; simpl.
  - now destruct s.
  - destruct (ascii_dec c c); [exact IH | contradiction].
Qed.

Lemma parse_message_line (m : string) (rest : list string) (c : Commit) :
  parseCommitLines false (("message:" ++ m) :: rest) c
  = parseCommitLines false rest (with_message m c).
Proof.
  cbn [parseCommitLines]. now rewrite (starts_with_app "message:" m).
Qed.

Lemma parse_timestamp_line (t : string) (rest : list string) (c : Commit) :
  parseCommitLines false (("timestamp:" ++ t) :: rest) c
  = parseCommitLines false rest (with_timestamp t c).
Proof.
  cbn [parseCommitLines].
  change (starts_with "message:" ("timestamp:" ++ t)) with false.
  cbv iota. now rewrite (starts_with_app "timestamp:" t).
Qed.

Lemma parse_parents_line (ps : string) (rest : list string) (c : Commit) :
  parseCommitLines false (("parents:" ++ ps) :: rest) c
  = parseCommitLines false rest
      (with_parentHashes (parentHashes c ++ words ps)%list c).
Proof.
  cbn [parseCommitLines].
  change (starts_with "message:" ("parents:" ++ ps)) with false.
  change (starts_with "timestamp:" ("parents:" ++ ps)) with false.
  cbv iota. now rewrite (starts_with_app "parents:" ps).
Qed.

Lemma parse_files_line (rest : list string) (c : Commit) :
  parseCommitLines false ("files:" :: rest) c = parseCommitLines true rest c.
Proof.
  reflexivity.
Qed.

(** What [loadCommitFromFile] makes of the text [writeCommitToFile] writes. *)
Lemma parse_commit_text (c : Commit) (commitHash : string) :
  record_ok c = true ->
  NoDup (Umap.keys (fileBlobs c)) ->
  parseCommitLines false (getlines (commit_text c))
                   (with_hash commitHash Commit_default)
  = with_hash commitHash c.
Proof.
  intros Hok Hnd. unfold record_ok in Hok.
  apply andb_prop in Hok. destruct Hok as [Hok Hfiles].
  apply andb_prop in Hok. destruct Hok as [Hok Hparents].
  apply andb_prop in Hok. destruct Hok as [Hmsg Htime].
  unfold commit_text.
  replace ("message:" ++ message c ++ nl ++ "timestamp:" ++ timestamp c ++ nl
           ++ "parents:"
           ++ String.concat "" (map (fun p => p ++ " ") (parentHashes c)) ++ nl
           ++ "files:" ++ nl
           ++ String.concat ""
                (map (fun fb => fst fb ++ ":" ++ snd fb ++ nl) (fileBlobs c)))
    with (("message:" ++ message c) ++ nl
          ++ ("timestamp:" ++ timestamp c) ++ nl
          ++ ("parents:"
              ++ String.concat "" (map (fun p => p ++ " ") (parentHashes c)))
          ++ nl ++ "files:" ++ nl
          ++ String.concat ""
               (map (fun fb => fst fb ++ ":" ++ snd fb ++ nl) (fileBlobs c)))
    by (rewrite !string_app_assoc; reflexivity).
  rewrite getlines_line by (rewrite no_char_app; now rewrite Hmsg).
  rewrite getlines_line by (rewrite no_char_app; now rewrite Htime).
  rewrite getlines_line
    by (rewrite no_char_app; now rewrite parents_no_newline).
  rewrite (@getlines_line "files:" _ eq_refl).
  rewrite getlines_entries by exact Hfiles.
  rewrite parse_message_line, parse_timestamp_line, parse_parents_line,
          parse_files_line.
  rewrite parse_entries by exact Hfiles.
  rewrite words_parents by exact Hparents. simpl.
  rewrite fold_assign_distinct by exact Hnd. reflexivity.
Qed.

Lemma commit_record_reloaded (c : Commit) (w : World) :
  commits_dir (disk w) = true ->
  record_ok c = true ->
  NoDup (Umap.keys (fileBlobs c)) ->
  loadCommitFromFile (disk (writeCommitToFile c w)) (hash c) = c.
Proof.
  intros Hdir Hok Hnd.
  unfold writeCommitToFile, loadCommitFromFile. rewrite Hdir. simpl.
  rewrite UmapFacts.find_assign_same.
  rewrite parse_commit_text by assumption.
  now destruct c.
Qed.

Lemma same_record_refl (c : Commit) : same_record c c.
Proof.
  unfold same_record. auto.
Qed.

(** X6: a commit record that fits the line format is read back as it was
    written: [loadCommitFromFile] after [writeCommitToFile] returns a commit
    with the same digest, message, timestamp, parents in order and tree. *)
Theorem commit_record_round_trip (c : Commit) (w : World) :
  commits_dir (disk w) = true ->
  record_ok c = true ->
  NoDup (Umap.keys (fileBlobs c)) ->
  same_record c (loadCommitFromFile (disk (writeCommitToFile c w)) (hash c)).
Proof.
  intros Hdir Hok Hnd.
  rewrite commit_record_reloaded by assumption. apply same_record_refl.
Qed.

Lemma commit_record_round_trip_witness :
  commits_dir staged_fs = true
  /\ record_ok first_commit = true
  /\ same_record first_commit
       (loadCommitFromFile
          (disk (writeCommitToFile first_commit (mkWorld staged_fs [])))
          "8276604627639202864").
Proof.
  assert (Hnd : NoDup (Umap.keys (fileBlobs first_commit))).
  { simpl. constructor; [intros [] | constructor]. }
  split; [reflexivity|]. split; [reflexivity|].
  exact (@commit_record_round_trip first_commit (mkWorld staged_fs [])
           eq_refl eq_refl Hnd).
Defined.

(* ================================================================= *)
(** ** Restarting the process *)

Lemma getline_line (a : string) :
  no_char is_newline a = true -> getline (a ++ nl) = a.
Proof.
  intros H. unfold getline.
  change (a ++ nl) with (a ++ nl ++ "").
  now rewrite getlines_line.
Qed.

Lemma to_string_word (n : N) : no_char isspace (to_string n) = true.
Proof.
  unfold to_string.
  assert (H : forall d, no_char isspace (NilEmpty.string_of_uint d) = true).
  { induction d; simpl; auto. }
  destruct (N.to_uint n) eqn:E; try (rewrite <- E; apply H);
    unfold NilZero.string_of_uint; try apply H. reflexivity.
Qed.

Lemma to_string_not_symbolic (n : N) :
  starts_with "ref: refs/heads/" (to_string n) = false.
Proof.
  unfold to_string. now destruct (N.to_uint n).
Qed.

(** The two HEAD fields a new process reads from [.minigit/HEAD] and the
    ref file it names. *)
Lemma reload_head (fs : FileSystem) (b h : string) :
  dot_minigit fs = true ->
  HEAD_file fs = Some (if negb (empty b) then "ref: refs/heads/" ++ b ++ nl
                       else h ++ nl) ->
  no_char is_newline b = true ->
  no_char is_newline h = true ->
  (empty b = true -> starts_with "ref: refs/heads/" h = false) ->
  (empty b = false -> is_filename b = true) ->
  (empty b = false ->
   match (if refs_heads_dir fs then Umap.find b (ref_files fs) else None) with
   | Some text => getline text = h
   | None => h = ""
   end) ->
  headBranch (MiniGitSystem_new fs) = b
  /\ headCommitHash (MiniGitSystem_new fs) = h.
Proof.
  intros Hrepo Hhead Hb Hh Hdetached Hfile Hattached.
  unfold MiniGitSystem_new. rewrite Hrepo.
  unfold loadRepoState. rewrite Hhead. cbv zeta.
  cbn [headBranch headCommitHash].
  destruct (empty b) eqn:Eb; cbn [negb].
  - rewrite getline_line by exact Hh. rewrite (Hdetached eq_refl).
    cbn [fst snd]. split; auto. now destruct b.
  - replace ("ref: refs/heads/" ++ b ++ nl)
      with (("ref: refs/heads/" ++ b) ++ nl)
      by now rewrite string_app_assoc.
    rewrite getline_line by (rewrite no_char_app; now rewrite Hb).
    rewrite (starts_with_app "ref: refs/heads/" b).
    change (substr_from 16 ("ref: refs/heads/" ++ b)) with b.
    cbn [fst snd]. split; auto. specialize (Hattached eq_refl).
    rewrite locate_branch_ref by exact (Hfile eq_refl). rewrite Hrepo.
    cbn [andb].
    destruct (refs_heads_dir fs); auto.
    destruct (Umap.find b (ref_files fs)); auto.
Qed.

(** X7: what [saveHeadAndBranchRefs] writes is what [loadRepoState]
    reads: a process started on the saved disk has the same current branch
    and the same HEAD digest, provided the name of the current branch is a
    file name (so that its ref file opens), branch and digest fit on a
    line, a detached digest does not look like a symbolic ref, and a branch
    without commits has no stale ref file. *)
Theorem head_round_trip (g : MiniGitSystem) (w : World) :
  dot_minigit (disk w) = true ->
  (empty (headBranch g) = false -> is_filename (headBranch g) = true) ->
  no_char is_newline (headBranch g) = true ->
  no_char is_newline (headCommitHash g) = true ->
  (empty (headBranch g) = true ->
   starts_with "ref: refs/heads/" (headCommitHash g) = false) ->
  (empty (headBranch g) = false -> empty (headCommitHash g) = true ->
   Umap.find (headBranch g) (ref_files (disk w)) = None) ->
  headBranch (MiniGitSystem_new (disk (saveHeadAndBranchRefs g w)))
  = headBranch g
  /\ headCommitHash (MiniGitSystem_new (disk (saveHeadAndBranchRefs g w)))
     = headCommitHash g.
Proof.
  intros Hrepo Hfile Hb Hh Hdetached Hstale.
  rewrite saveHeadAndBranchRefs_named by assumption.
  apply reload_head; auto.
  - unfold save_head, create_refs_heads.
    destruct (negb (empty (headBranch g)) && negb (empty (headCommitHash g)));
      [destruct (refs_heads_dir (disk w))|]; simpl; rewrite ?Hrepo; auto.
  - unfold save_head, create_refs_heads.
    destruct (negb (empty (headBranch g)) && negb (empty (headCommitHash g)));
      [destruct (refs_heads_dir (disk w))|]; simpl; rewrite ?Hrepo; auto.
  - intros Eb.
    match goal with
    | |- context [disk (save_head g ?x)] =>
        destruct (save_head_frame g x) as (_ & _ & _ & Hrf & _ & _ & _ & Hrd)
    end.
    rewrite Hrf, Hrd. rewrite Eb. cbn [negb andb].
    destruct (empty (headCommitHash g)) eqn:Eh; cbn [negb].
    + destruct (refs_heads_dir (disk w));
        [rewrite (Hstale Eb eq_refl)|]; now destruct (headCommitHash g).
    + destruct (create_refs_heads_frame w) as (_ & _ & _ & _ & _ & _ & _ & Hr).
      cbn [perform disk apply_op refs_heads_dir ref_files]. rewrite Hr.
      rewrite UmapFacts.find_assign_same. now apply getline_line.
Qed.

Lemma head_round_trip_witness :
  headBranch (MiniGitSystem_new
                (disk (saveHeadAndBranchRefs committed_system
                         (mkWorld staged_fs [])))) = "master"
  /\ headCommitHash (MiniGitSystem_new
                       (disk (saveHeadAndBranchRefs committed_system
                                (mkWorld staged_fs []))))
     = "8276604627639202864".
Proof.
  refine (@head_round_trip committed_system (mkWorld staged_fs [])
            eq_refl (fun _ => eq_refl) eq_refl eq_refl _ _); simpl; discriminate.
Defined.

Lemma fold_assign_by_key (A B : Type) (f : string -> B)
      (l : Umap.t A) (acc : Umap.t B) (k : string) :
  Umap.find k (fold_left (fun acc e => Umap.assign (fst e) (f (fst e)) acc) l acc)
  = if Umap.count k l then Some (f k) else Umap.find k acc.
Proof.
  revert acc. induction l as [|[k0 v0] l IH]; intros acc; simpl; auto.
  rewrite IH, UmapFacts.find_assign. unfold Umap.count. simpl.
  destruct (String.eqb k0 k) eqn:E.
  - apply String.eqb_eq in E. subst k0. now destruct (Umap.find k l).
  - reflexivity.
Qed.

Lemma fold_assign_by_value (A B : Type) (f : A -> B)
      (l : Umap.t A) (acc : Umap.t B) (k : string) :
  NoDup (Umap.keys l) ->
  Umap.find k (fold_left (fun acc e => Umap.assign (fst e) (f (snd e)) acc) l acc)
  = match Umap.find k l with
    | Some v => Some (f v)
    | None => Umap.find k acc
    end.
Proof.
  revert acc. induction l as [|[k0 v0] l IH]; intros acc Hnd; simpl; auto.
  inversion Hnd as [|? ? Hnotin Hnd']; subst.
  rewrite (IH _ Hnd'), UmapFacts.find_assign.
  destruct (String.eqb k0 k) eqn:E; auto.
  apply String.eqb_eq in E. subst k0.
  apply UmapFacts.find_None_keys in Hnotin. now rewrite Hnotin.
Qed.

Lemma saveHeadAndBranchRefs_layout (g : MiniGitSystem) (w : World) :
  dot_minigit (disk w) = true ->
  refs_heads_dir (disk w) = true ->
  (empty (headBranch g) = false -> is_filename (headBranch g) = true) ->
  dot_minigit (disk (saveHeadAndBranchRefs g w)) = true
  /\ refs_heads_dir (disk (saveHeadAndBranchRefs g w)) = true
  /\ HEAD_file (disk (saveHeadAndBranchRefs g w))
     = Some (if negb (empty (headBranch g))
             then "ref: refs/heads/" ++ headBranch g ++ nl
             else headCommitHash g ++ nl).
Proof.
  intros Hrepo Hrefs Hfile.
  rewrite saveHeadAndBranchRefs_named by assumption.
  unfold save_head, create_refs_heads. rewrite Hrefs.
  destruct (negb (empty (headBranch g)) && negb (empty (headCommitHash g)));
    simpl; rewrite Hrepo; simpl; auto.
Qed.

Section RestartFacts.
Variable hasher : string -> N.

(** X8: a commit survives a restart.  After [commit] has created a
    commit whose record fits the line format, on a branch whose name is a
    file name or with a detached HEAD, a process started on the resulting
    disk is on the same branch, has the new digest as HEAD, finds the new
    commit in its cache with the fields it was created with, binds the
    current branch to the new digest, and has an empty index. *)
Theorem commit_then_restart (g : MiniGitSystem) (w : World)
        (msg now : string) (c : Commit) (g' : MiniGitSystem) (w' : World) :
  dot_minigit (disk w) = true ->
  refs_heads_dir (disk w) = true ->
  commits_dir (disk w) = true ->
  NoDup (Umap.keys (ref_files (disk w))) ->
  (empty (headBranch g) = false -> is_filename (headBranch g) = true) ->
  no_char is_newline (headBranch g) = true ->
  commit hasher g w msg now = (Committed c, g', w') ->
  record_ok c = true ->
  NoDup (Umap.keys (fileBlobs c)) ->
  headBranch (MiniGitSystem_new (disk w')) = headBranch g
  /\ headCommitHash (MiniGitSystem_new (disk w')) = hash c
  /\ (exists c', Umap.find (hash c) (commits (MiniGitSystem_new (disk w')))
                  = Some c'
                  /\ same_record c c')
  /\ (empty (headBranch g) = false ->
      Umap.find (headBranch g) (branches (MiniGitSystem_new (disk w')))
      = Some (hash c))
  /\ stagingArea (MiniGitSystem_new (disk w')) = [].
Proof.
  intros Hrepo Hrefs Hcommits Hnd Hfile Hb Hcommit Hok Htree.
  assert (Hstaged :
    nothing_staged
      (getStagedChanges g (disk w) (snd (currentHeadCommit g (disk w))))
    = false).
  { revert Hcommit. unfold commit. rewrite Hrepo. simpl negb. cbv iota.
    destruct (currentHeadCommit_frame g (disk w)) as (_ & Hs & _).
    destruct (currentHeadCommit g (disk w)) as [g1 headCommit]. simpl in *.
    rewrite (getStagedChanges_index g1 g (disk w) headCommit Hs).
    destruct (nothing_staged _); [discriminate | reflexivity]. }
  pose proof (commit_creates hasher g w msg now Hrepo Hstaged) as H.
  cbv zeta in H. rewrite H in Hcommit. clear H.
  injection Hcommit as Hc _ Hw.
  set (g2 := mkSystem _ _ _ _ _) in Hw.
  assert (Hhb : headBranch g2 = headBranch g) by reflexivity.
  assert (Hhc : headCommitHash g2 = hash c) by (subst c; reflexivity).
  destruct (saveHeadAndBranchRefs_frame g2 w) as (_ & _ & Hcf & _ & Hcd).
  pose proof (saveHeadAndBranchRefs_ref_files_named g2 w Hrepo Hfile) as Hrf.
  assert (Hhash : hash c = to_string (hasher (commitContentToHash
                     (mkCommit "" (message c) (timestamp c) (parentHashes c)
                               (fileBlobs c))))) by (subst c; reflexivity).
  assert (Hne : empty (hash c) = false)
    by (rewrite Hhash; apply to_string_nonempty).
  assert (Hline : no_char is_newline (hash c) = true)
    by (rewrite Hhash; apply no_space_no_newline, to_string_word).
  assert (Hdisk : disk w'
                  = apply_op (CommitWrite (hash c) (commit_text c))
                             (disk (saveHeadAndBranchRefs g2 w))).
  { rewrite <- Hw. unfold writeCommitToFile. rewrite Hcd, Hcommits.
    rewrite Hc. reflexivity. }
  destruct (saveHeadAndBranchRefs_layout g2 w Hrepo Hrefs Hfile)
    as (Hrepo1 & Hrefs1 & Hhead1).
  assert (Hrepo' : dot_minigit (disk w') = true)
    by (rewrite Hdisk; exact Hrepo1).
  assert (Hrefs' : refs_heads_dir (disk w') = true)
    by (rewrite Hdisk; exact Hrefs1).
  assert (Hcommits' : commits_dir (disk w') = true).
  { rewrite Hdisk.
    change (commits_dir (disk (saveHeadAndBranchRefs g2 w)) = true).
    now rewrite Hcd. }
  assert (Hrf' : ref_files (disk w')
                 = if negb (empty (headBranch g))
                   then Umap.assign (headBranch g) (hash c ++ nl)
                                    (ref_files (disk w))
                   else ref_files (disk w)).
  { rewrite Hdisk.
    change (ref_files (apply_op (CommitWrite (hash c) (commit_text c))
                                (disk (saveHeadAndBranchRefs g2 w))))
      with (ref_files (disk (saveHeadAndBranchRefs g2 w))).
    rewrite Hrf, Hhb, Hhc, Hne. now rewrite andb_true_r. }
  assert (Hhead' : HEAD_file (disk w')
                   = Some (if negb (empty (headBranch g))
                           then "ref: refs/heads/" ++ headBranch g ++ nl
                           else hash c ++ nl)).
  { rewrite Hdisk.
    change (HEAD_file (apply_op (CommitWrite (hash c) (commit_text c))
                                (disk (saveHeadAndBranchRefs g2 w))))
      with (HEAD_file (disk (saveHeadAndBranchRefs g2 w))).
    now rewrite Hhead1, Hhb, Hhc. }
  destruct (@reload_head (disk w') (headBranch g) (hash c))
    as [Hbranch Hdigest]; auto.
  { intros _. rewrite Hhash. apply to_string_not_symbolic. }
  { intros Eb. rewrite Hrefs', Hrf', Eb. simpl.
    rewrite UmapFacts.find_assign_same. now apply getline_line. }
  split; [exact Hbranch|]. split; [exact Hdigest|]. split; [|split].
  - exists c. split; [|apply same_record_refl].
    unfold MiniGitSystem_new, loadRepoState. rewrite Hrepo', Hcommits'. simpl.
    rewrite (fold_assign_by_key (loadCommitFromFile (disk w'))).
    assert (Hload : loadCommitFromFile (disk w') (hash c) = c).
    { rewrite Hdisk. unfold loadCommitFromFile. simpl.
      rewrite UmapFacts.find_assign_same.
      rewrite parse_commit_text by assumption. now destruct c. }
    rewrite Hload.
    replace (Umap.count (hash c) (commit_files (disk w'))) with true;
      [reflexivity|].
    rewrite Hdisk. simpl. unfold Umap.count.
    now rewrite UmapFacts.find_assign_same.
  - intros Eb.
    unfold MiniGitSystem_new, loadRepoState. rewrite Hrepo', Hrefs'. simpl.
    rewrite (fold_assign_by_value getline).
    + rewrite Hrf', Eb. simpl. rewrite UmapFacts.find_assign_same.
      now rewrite getline_line.
    + rewrite Hrf'. destruct (negb (empty (headBranch g))); auto.
      now apply UmapFacts.NoDup_keys_assign.
  - unfold MiniGitSystem_new, loadRepoState. now rewrite Hrepo'.
Qed.

End RestartFacts.

Lemma commit_then_restart_witness :
  MiniGitSystem_new
    (disk (snd (commit sample_hasher staged_system (mkWorld staged_fs [])
                       "Add file.txt" "2024-01-01 10:00:00")))
  = committed_system
  /\ headCommitHash (MiniGitSystem_new committed_fs) = "8276604627639202864"
  /\ exists c',
       Umap.find "8276604627639202864" (commits (MiniGitSystem_new committed_fs))
       = Some c'
       /\ same_record first_commit c'.
Proof.
  assert (Hrefs : NoDup (Umap.keys (ref_files staged_fs))) by constructor.
  assert (Htree : NoDup (Umap.keys (fileBlobs first_commit))).
  { simpl. constructor; [intros [] | constructor]. }
  pose proof (@commit_then_restart sample_hasher staged_system
                (mkWorld staged_fs []) "Add file.txt" "2024-01-01 10:00:00"
                first_commit committed_system _
                eq_refl eq_refl eq_refl Hrefs (fun _ => eq_refl) eq_refl
                commit_example eq_refl Htree) as H.
  split; [rewrite commit_example; exact reload_example|].
  split; [exact (proj1 (proj2 H)) | exact (proj1 (proj2 (proj2 H)))].
Defined.

(* ================================================================= *)
(** ** Staging and classification *)

Lemma scan_workdir_keys_acc (l : Umap.t DirEntry) (acc : Uset.t) (x : string) :
  In x (fold_left (fun acc entry =>
                     if scanned (fst entry) (snd entry)
                     then Uset.insert (fst entry) acc else acc) l acc) ->
  In x acc \/ In x (Umap.keys l).
Proof.
  revert acc. induction l as [|[k e] l IH]; intros acc; simpl; auto.
  intros H. apply IH in H. destruct H as [H|H]; auto.
  destruct (scanned k e); auto.
  unfold Uset.insert in H. destruct (Uset.count k acc); auto.
  apply in_app_or in H. destruct H as [H|[H|[]]]; auto.
Qed.

Lemma scan_workdir_exists (fs : FileSystem) (x : string) :
  fs_exists fs x = false -> Uset.count x (scan_workdir fs) = false.
Proof.
  intros H. destruct (Uset.count x (scan_workdir fs)) eqn:E; auto.
  apply uset_count_In in E. unfold scan_workdir in E.
  apply scan_workdir_keys_acc in E. destruct E as [[]|E].
  apply umap_count_In in E. unfold fs_exists, entry_at in H.
  unfold Umap.count in E.
  destruct (Umap.find x (workdir fs)); discriminate.
Qed.

Lemma existsb_map_filter (A : Type) (keep : A -> bool) (f : A -> string)
      (path : string) (l : list A) :
  existsb (String.eqb path) (map f (filter keep l))
  = existsb (fun e => String.eqb path (f e) && keep e) l.
Proof.
  induction l as [|e l IH]; simpl; auto.
  destruct (keep e); simpl.
  - now rewrite IH, andb_true_r.
  - now rewrite andb_false_r, IH.
Qed.

Section StagingFacts.
Variable hasher : string -> N.

(** X9: a path [status] lists as a staged deletion is also listed as a
    deletion that is not staged: the two classifiers use the same test, so a
    file removed from the working directory shows up in both groups. *)
Theorem staged_deletion_also_unstaged (g : MiniGitSystem) (fs : FileSystem)
        (headCommit : option Commit) (path : string) :
  In path (deleted (getStagedChanges g fs headCommit)) ->
  In path (wd_deleted (getUnstagedChanges hasher g fs headCommit)).
Proof.
  unfold getStagedChanges, getUnstagedChanges. simpl.
  rewrite !in_map_iff. intros (e & Hpath & Hin).
  apply filter_In in Hin. destruct Hin as [Hin Htest].
  apply andb_prop in Htest. destruct Htest as [Hstaged Hgone].
  exists e. split; auto. apply filter_In. split; auto.
  rewrite Hstaged, andb_true_r.
  apply negb_true_iff in Hgone. now rewrite scan_workdir_exists.
Qed.

Lemma add_added_inv (g : MiniGitSystem) (w : World) (filename : string)
      (g' : MiniGitSystem) (w' : World) :
  add hasher g w filename = (Added, g', w') ->
  dot_minigit (disk w) = true
  /\ (exists content,
        entry_at (disk w) filename = Some (RegularFile content))
  /\ g' = set_stagingArea
            (Umap.assign filename
               (hashFileContent hasher (readFileContent (disk w) filename))
               (stagingArea g)) g
  /\ w' = saveBlob (hashFileContent hasher (readFileContent (disk w) filename))
                   (readFileContent (disk w) filename) w.
Proof.
  unfold add.
  destruct (dot_minigit (disk w)); simpl; [|discriminate].
  destruct (entry_at (disk w) filename) as [[content|]|];
    try discriminate.
  destruct (Umap.find filename (stagingArea g)) as [staged|].
  - destruct (String.eqb staged _); [discriminate|].
    intros H. inversion H. split; auto. split; [now exists content | auto].
  - intros H. inversion H. split; auto. split; [now exists content | auto].
Qed.

Lemma saveBlob_frame (blobHash content : string) (w : World) :
  workdir (disk (saveBlob blobHash content w)) = workdir (disk w)
  /\ dot_minigit (disk (saveBlob blobHash content w)) = dot_minigit (disk w)
  /\ ref_files (disk (saveBlob blobHash content w)) = ref_files (disk w)
  /\ commit_files (disk (saveBlob blobHash content w)) = commit_files (disk w)
  /\ HEAD_file (disk (saveBlob blobHash content w)) = HEAD_file (disk w).
Proof.
  unfold saveBlob. destruct (objects_dir (disk w)); simpl; auto.
Qed.

(** Resolution looks at the directories only. *)
Lemma locate_from_ext (fs fs' : FileSystem) (pos : Position) (cs : list string) :
  dot_minigit fs' = dot_minigit fs ->
  objects_dir fs' = objects_dir fs ->
  commits_dir fs' = commits_dir fs ->
  refs_heads_dir fs' = refs_heads_dir fs ->
  locate_from fs' pos cs = locate_from fs pos cs.
Proof.
  intros Hd Ho Hc Hr.
  assert (Henter : forall pos c, enter fs' pos c = enter fs pos c).
  { intros pos0 c. unfold enter. now rewrite Hd, Ho, Hc, Hr. }
  revert pos. induction cs as [|c cs IH]; intros pos; simpl; auto.
  rewrite Henter. destruct cs as [|c' cs]; auto.
  destruct (empty c || String.eqb c "."); auto.
  destruct (String.eqb c ".."); auto.
  destruct (enter fs pos c); auto.
Qed.

Lemma locate_ext (fs fs' : FileSystem) (path : string) :
  dot_minigit fs' = dot_minigit fs ->
  objects_dir fs' = objects_dir fs ->
  commits_dir fs' = commits_dir fs ->
  refs_heads_dir fs' = refs_heads_dir fs ->
  locate fs' path = locate fs path.
Proof.
  intros Hd Ho Hc Hr. unfold locate. destruct path as [|c path]; auto.
  destruct (is_slash c); auto. now apply locate_from_ext.
Qed.

(** A file that was read is found again, with the same content, once its
    content has been saved as a blob. *)
Lemma entry_at_saveBlob (blobHash content path : string) (w : World) :
  entry_at (disk w) path = Some (RegularFile content) ->
  entry_at (disk (saveBlob blobHash content w)) path
  = Some (RegularFile content).
Proof.
  intros H. unfold saveBlob.
  destruct (objects_dir (disk w)); [|exact H].
  unfold entry_at in *. cbn [perform disk].
  change (workdir (apply_op (BlobWrite blobHash content) (disk w)))
    with (workdir (disk w)).
  destruct (Umap.find path (workdir (disk w))) as [e|]; [exact H|].
  rewrite (@locate_ext (disk w) (apply_op (BlobWrite blobHash content) (disk w)))
    by reflexivity.
  destruct (locate (disk w) path); try exact H.
  cbn [apply_op objects]. rewrite UmapFacts.find_assign.
  destruct (String.eqb blobHash name); [reflexivity | exact H].
Qed.

(** X10: staging is idempotent.  Once [add] has staged a file, adding it
    again while its content is the same reports that it is already up to
    date and changes neither the object nor the disk. *)
Theorem add_twice (g : MiniGitSystem) (w : World) (filename : string)
        (g' : MiniGitSystem) (w' : World) :
  add hasher g w filename = (Added, g', w') ->
  add hasher g' w' filename = (AlreadyStaged, g', w').
Proof.
  intros H. apply add_added_inv in H.
  destruct H as (Hrepo & (content & Hfile) & Hg & Hw).
  destruct (saveBlob_frame
              (hashFileContent hasher (readFileContent (disk w) filename))
              (readFileContent (disk w) filename) w) as (Hwd & Hdm & _).
  assert (Hread : readFileContent (disk w) filename = content)
    by (unfold readFileContent; now rewrite Hfile).
  assert (Hfile' : entry_at (disk w') filename = Some (RegularFile content)).
  { rewrite Hw, Hread. now apply entry_at_saveBlob. }
  assert (Hrepo' : dot_minigit (disk w') = true) by (rewrite Hw, Hdm; exact Hrepo).
  unfold add. rewrite Hrepo', Hfile'. simpl negb. cbv iota.
  rewrite Hg. simpl stagingArea.
  rewrite UmapFacts.find_assign_same.
  unfold readFileContent. rewrite Hfile', Hfile.
  now rewrite String.eqb_refl.
Qed.

(** X11: [add] stores what it stages.  After a successful [add] in a
    repository with an object directory, the index maps the file to the
    digest of its content, the object store returns that content for the
    digest, every other index entry is as before, and HEAD, the branch map,
    the commit cache, the working directory, the refs, the commit store and
    [.minigit/HEAD] are untouched. *)
Theorem add_stores_blob (g : MiniGitSystem) (w : World) (filename : string)
        (g' : MiniGitSystem) (w' : World) :
  objects_dir (disk w) = true ->
  add hasher g w filename = (Added, g', w') ->
  let content := readFileContent (disk w) filename in
  Umap.find filename (stagingArea g') = Some (hashFileContent hasher content)
  /\ loadBlob (disk w') (hashFileContent hasher content) = content
  /\ (forall other, other <> filename ->
        Umap.find other (stagingArea g') = Umap.find other (stagingArea g))
  /\ commits g' = commits g /\ branches g' = branches g
  /\ headBranch g' = headBranch g /\ headCommitHash g' = headCommitHash g
  /\ workdir (disk w') = workdir (disk w)
  /\ ref_files (disk w') = ref_files (disk w)
  /\ commit_files (disk w') = commit_files (disk w)
  /\ HEAD_file (disk w') = HEAD_file (disk w).
Proof.
  intros Hobjects H. apply add_added_inv in H.
  destruct H as (_ & _ & Hg & Hw). cbv zeta.
  destruct (saveBlob_frame
              (hashFileContent hasher (readFileContent (disk w) filename))
              (readFileContent (disk w) filename) w)
    as (Hwd & _ & Hrf & Hcf & Hhf).
  rewrite Hw, Hwd, Hrf, Hcf, Hhf, Hg. simpl.
  repeat split.
  - apply UmapFacts.find_assign_same.
  - unfold saveBlob, loadBlob. rewrite Hobjects. simpl.
    now rewrite UmapFacts.find_assign_same.
  - intros other Hne. apply UmapFacts.find_assign_other. congruence.
Qed.

Lemma commit_committed_pre (g : MiniGitSystem) (w : World) (msg now : string)
      (c : Commit) (g' : MiniGitSystem) (w' : World) :
  commit hasher g w msg now = (Committed c, g', w') ->
  dot_minigit (disk w) = true
  /\ nothing_staged
       (getStagedChanges g (disk w) (snd (currentHeadCommit g (disk w))))
     = false.
Proof.
  unfold commit.
  destruct (dot_minigit (disk w)); simpl negb; cbv iota; [|discriminate].
  destruct (currentHeadCommit_frame g (disk w)) as (_ & Hs & _).
  destruct (currentHeadCommit g (disk w)) as [g1 headCommit]. simpl in *.
  rewrite (getStagedChanges_index g1 g (disk w) headCommit Hs).
  destruct (nothing_staged _); [discriminate | auto].
Qed.

(** X12: with an empty index, which is what every new process starts
    with, [commit] can only record deletions.  If it creates a commit, some
    path of HEAD's tree is missing from the working directory, and the new
    tree is HEAD's tree without the missing paths: no path is added and no
    digest changes. *)
Theorem commit_with_empty_index (g : MiniGitSystem) (w : World)
        (msg now : string) (c : Commit) (g' : MiniGitSystem) (w' : World) :
  stagingArea g = [] ->
  commit hasher g w msg now = (Committed c, g', w') ->
  let headTree := commitFiles_of (snd (currentHeadCommit g (disk w))) in
  (exists path, In path (Umap.keys headTree)
                /\ fs_exists (disk w) path = false)
  /\ (forall path,
        Umap.find path (fileBlobs c)
        = if existsb (fun e => String.eqb path (fst e)
                               && negb (fs_exists (disk w) (fst e))) headTree
          then None
          else Umap.find path headTree).
Proof.
  intros Hempty Hcommit. cbv zeta.
  destruct (commit_committed_pre _ _ _ _ Hcommit) as [Hrepo Hstaged].
  pose proof (commit_creates hasher g w msg now Hrepo Hstaged) as H.
  cbv zeta in H. rewrite H in Hcommit. clear H.
  injection Hcommit as Hc _ _.
  destruct (currentHeadCommit_frame g (disk w)) as (_ & Hs & _ & Hhc & _).
  set (headTree := commitFiles_of (snd (currentHeadCommit g (disk w)))) in *.
  assert (Hdeleted :
    deleted (getStagedChanges g (disk w) (snd (currentHeadCommit g (disk w))))
    = map fst (filter (fun e => negb (fs_exists (disk w) (fst e))) headTree)).
  { unfold getStagedChanges. rewrite Hempty. reflexivity. }
  split.
  - unfold nothing_staged, getStagedChanges in Hstaged.
    rewrite Hempty in Hstaged. simpl in Hstaged.
    fold headTree in Hstaged.
    destruct (filter (fun e => negb (fs_exists (disk w) (fst e))) headTree)
      as [|e rest] eqn:E; [discriminate|].
    assert (Hin : In e (filter (fun e => negb (fs_exists (disk w) (fst e)))
                               headTree))
      by (rewrite E; now left).
    apply filter_In in Hin. destruct Hin as [Hin Hgone].
    exists (fst e). split.
    + unfold Umap.keys. now apply in_map.
    + now apply negb_true_iff.
  - intros path. rewrite <- Hc. simpl. unfold new_fileBlobs.
    rewrite Hs, Hempty, Hhc, Hdeleted. simpl fold_left at 2.
    rewrite fold_erase_find.
    assert (Hbase : (if negb (empty (headCommitHash g)) then headTree else [])
                    = headTree).
    { unfold headTree, currentHeadCommit.
      destruct (empty (headCommitHash g)); reflexivity. }
    fold headTree. rewrite Hbase.
    replace (existsb (String.eqb path)
               (map fst (filter (fun e => negb (fs_exists (disk w) (fst e)))
                                headTree)))
      with (existsb (fun e => String.eqb path (fst e)
                              && negb (fs_exists (disk w) (fst e))) headTree);
      [reflexivity|].
    symmetry. apply existsb_map_filter.
Qed.

End StagingFacts.

Lemma staged_deletion_also_unstaged_witness :
  In "file.txt"
     (deleted (getStagedChanges second_system second_fs (Some first_commit)))
  /\ In "file.txt"
        (wd_deleted (getUnstagedChanges sample_hasher second_system second_fs
                       (Some first_commit))).
Proof.
  assert (H : In "file.txt"
                 (deleted (getStagedChanges second_system second_fs
                             (Some first_commit))))
    by (simpl; auto).
  split; [exact H|].
  exact (@staged_deletion_also_unstaged sample_hasher second_system second_fs
           (Some first_commit) "file.txt" H).
Defined.

Lemma add_twice_witness :
  add sample_hasher initialized_system (mkWorld initialized_fs []) "file.txt"
  = (Added, staged_system,
     mkWorld staged_fs
             [BlobWrite "4590712520188692798" ("Line 1" ++ nl ++ "Line 2" ++ nl)])
  /\ add sample_hasher staged_system
         (mkWorld staged_fs
            [BlobWrite "4590712520188692798" ("Line 1" ++ nl ++ "Line 2" ++ nl)])
         "file.txt"
     = (AlreadyStaged, staged_system,
        mkWorld staged_fs
          [BlobWrite "4590712520188692798" ("Line 1" ++ nl ++ "Line 2" ++ nl)]).
Proof.
  split; [exact add_example|].
  exact (@add_twice sample_hasher _ _ _ _ _ add_example).
Defined.

Lemma add_stores_blob_witness :
  objects_dir initialized_fs = true
  /\ Umap.find "file.txt" (stagingArea staged_system)
     = Some "4590712520188692798"
  /\ loadBlob staged_fs "4590712520188692798" = "Line 1" ++ nl ++ "Line 2" ++ nl.
Proof.
  pose proof (@add_stores_blob sample_hasher initialized_system
                (mkWorld initialized_fs []) "file.txt" _ _ eq_refl add_example)
    as H.
  split; [reflexivity|].
  split; [exact (proj1 H) | exact (proj1 (proj2 H))].
Defined.

Example commit_deletion_example :
  exists g' w',
    commit sample_hasher committed_system (mkWorld emptied_fs [])
           "Remove file" "2024-01-02 10:00:00"
    = (Committed (mkCommit "15163147540121874127" "Remove file"
                           "2024-01-02 10:00:00" ["8276604627639202864"] []),
       g', w').
Proof. eexists _, _. vm_compute. reflexivity. Qed.

Lemma commit_with_empty_index_witness :
  stagingArea committed_system = []
  /\ (exists path,
        In path (Umap.keys (fileBlobs first_commit))
        /\ fs_exists emptied_fs path = false)
  /\ exists c g' w',
       commit sample_hasher committed_system (mkWorld emptied_fs [])
              "Remove file" "2024-01-02 10:00:00" = (Committed c, g', w')
       /\ Umap.find "file.txt" (fileBlobs c) = None.
Proof.
  destruct commit_deletion_example as (g' & w' & Hcommit).
  destruct (@commit_with_empty_index sample_hasher committed_system
              (mkWorld emptied_fs []) "Remove file" "2024-01-02 10:00:00"
              _ g' w' eq_refl Hcommit) as [Hmissing Htree].
  split; [reflexivity|]. split; [exact Hmissing|].
  eexists _, g', w'. split; [exact Hcommit | exact (Htree "file.txt")].
Defined.

(* ================================================================= *)
(** ** [status] and [checkout] agree *)

Lemma parse_keeps_hash (inFiles : bool) (lines : list string) (c : Commit) :
  hash (parseCommitLines inFiles lines c) = hash c.
Proof.
  revert inFiles c. induction lines as [|line lines IH]; intros inFiles c.
  - reflexivity.
  - cbn [parseCommitLines]. destruct inFiles.
    + destruct (empty line); rewrite IH; auto.
      now destruct (split_colon line) as [[filename blobHash]|].
    + destruct (starts_with "message:" line); [now rewrite IH|].
      destruct (starts_with "timestamp:" line); [now rewrite IH|].
      destruct (starts_with "parents:" line); [now rewrite IH|].
      destruct (starts_with "files:" line); now rewrite IH.
Qed.

(** A commit that fails to load has an empty tree. *)
Lemma loadCommitFromFile_failed (fs : FileSystem) (commitHash : string) :
  empty commitHash = false ->
  empty (hash (loadCommitFromFile fs commitHash)) = true ->
  fileBlobs (loadCommitFromFile fs commitHash) = [].
Proof.
  unfold loadCommitFromFile.
  destruct (Umap.find commitHash (commit_files fs)); auto.
  rewrite parse_keeps_hash. simpl. congruence.
Qed.

Lemma status_head_commit_tree (g : MiniGitSystem) (fs : FileSystem) :
  commitFiles_of (status_head_commit g fs)
  = commitFiles_of (snd (currentHeadCommit g fs)).
Proof.
  unfold status_head_commit, currentHeadCommit.
  destruct (empty (headCommitHash g)) eqn:Ehead; auto.
  destruct (Umap.count (headCommitHash g) (commits g)) eqn:Ecached; simpl; auto.
  rewrite UmapFacts.find_assign_same.
  destruct (empty (hash (loadCommitFromFile fs (headCommitHash g)))) eqn:E;
    auto.
  simpl. symmetry. now apply loadCommitFromFile_failed.
Qed.

Lemma getStagedChanges_tree (g : MiniGitSystem) (fs : FileSystem)
      (h1 h2 : option Commit) :
  commitFiles_of h1 = commitFiles_of h2 ->
  getStagedChanges g fs h1 = getStagedChanges g fs h2.
Proof.
  intros H. unfold getStagedChanges. now rewrite H.
Qed.

Lemma clean_is_no_changes (staged : StagedChanges) (unstaged : WorkingDirChanges) :
  nothing_staged staged && is_nil (wd_modified unstaged)
  && is_nil (wd_deleted unstaged) && is_nil (untracked unstaged)
  = negb (has_changes staged unstaged).
Proof.
  unfold nothing_staged, has_changes.
  destruct (added staged), (modified staged), (deleted staged),
    (wd_modified unstaged), (wd_deleted unstaged), (untracked unstaged);
    reflexivity.
Qed.

Section StatusFacts.
Variable hasher : string -> N.

Lemma getUnstagedChanges_tree (g : MiniGitSystem) (fs : FileSystem)
      (h1 h2 : option Commit) :
  commitFiles_of h1 = commitFiles_of h2 ->
  getUnstagedChanges hasher g fs h1 = getUnstagedChanges hasher g fs h2.
Proof.
  intros H. unfold getUnstagedChanges. now rewrite H.
Qed.

(** [checkout] reports uncommitted changes exactly when its test finds
    some. *)
Lemma checkout_dirty_iff (g : MiniGitSystem) (w : World) (target : string) :
  dot_minigit (disk w) = true ->
  fst (fst (checkout hasher g w target)) = WorkingDirDirty
  <-> has_changes
        (getStagedChanges g (disk w) (snd (currentHeadCommit g (disk w))))
        (getUnstagedChanges hasher g (disk w)
           (snd (currentHeadCommit g (disk w)))) = true.
Proof.
  intros Hrepo.
  destruct (currentHeadCommit_frame g (disk w)) as (_ & Hs & _).
  unfold checkout. rewrite Hrepo. simpl negb. cbv iota.
  destruct (currentHeadCommit g (disk w)) as [g1 headCommit]. simpl in Hs.
  cbn [snd].
  rewrite (getStagedChanges_index g1 g (disk w) headCommit Hs),
          (getUnstagedChanges_index hasher g1 g (disk w) headCommit Hs).
  destruct (has_changes _ _); [split; reflexivity|].
  split; [|discriminate]. intros H. exfalso. revert H.
  destruct (resolve_target g1 target) as [targetCommitHash newHeadBranch].
  destruct (empty targetCommitHash && negb (empty newHeadBranch)).
  { destruct (String.eqb (headBranch g1) newHeadBranch); discriminate. }
  destruct (empty targetCommitHash); [discriminate|].
  match goal with
  | |- context [if ?b then (CorruptCommit, _, _) else _] => destruct b
  end; [discriminate|].
  match goal with
  | |- context [if ?b then (AlreadyOn, _, _) else _] => destruct b
  end; [discriminate|].
  destruct (populateWorkingDirectory _ _). discriminate.
Qed.

(** X13: [status] and [checkout] agree on what a clean working directory
    is: [status] omits its closing line "Your working directory is clean."
    exactly when [checkout], called in the same state, refuses because of
    uncommitted changes. *)
Theorem status_clean_iff_checkout_proceeds (g : MiniGitSystem) (w : World)
        (target : string) :
  dot_minigit (disk w) = true ->
  exists report,
    status_report hasher g (disk w) = Some report
    /\ (report_clean report = false
        <-> fst (fst (checkout hasher g w target)) = WorkingDirDirty).
Proof.
  intros Hrepo. unfold status_report. rewrite Hrepo. simpl negb. cbv iota.
  eexists. split; [reflexivity|]. cbn [report_clean].
  destruct (status_frame g (disk w)) as (_ & Hs & _).
  rewrite (getStagedChanges_index (status g (disk w)) g (disk w) _ Hs),
          (getUnstagedChanges_index hasher (status g (disk w)) g (disk w) _ Hs).
  rewrite (getStagedChanges_tree g (disk w) _ _
             (status_head_commit_tree g (disk w))),
          (getUnstagedChanges_tree g (disk w) _ _
             (status_head_commit_tree g (disk w))).
  rewrite clean_is_no_changes, (checkout_dirty_iff g w target Hrepo).
  now rewrite negb_false_iff.
Qed.

End StatusFacts.

Lemma status_clean_iff_checkout_proceeds_witness :
  dot_minigit modified_fs = true
  /\ exists report,
       status_report sample_hasher committed_system modified_fs = Some report
       /\ report_clean report = false
       /\ fst (fst (checkout sample_hasher committed_system
                             (mkWorld modified_fs []) "master"))
          = WorkingDirDirty.
Proof.
  split; [reflexivity|].
  destruct (@status_clean_iff_checkout_proceeds sample_hasher committed_system
              (mkWorld modified_fs []) "master" eq_refl)
    as (report & Hreport & Hiff).
  exists report. split; [exact Hreport|].
  assert (Hdirty : fst (fst (checkout sample_hasher committed_system
                                      (mkWorld modified_fs []) "master"))
                   = WorkingDirDirty) by (vm_compute; reflexivity).
  split; [exact (proj2 Hiff Hdirty) | exact Hdirty].
Defined.

(* ================================================================= *)
(** ** [populateWorkingDirectory] *)

Lemma same_repository_refl (fs : FileSystem) : same_repository fs fs.
Proof.
  unfold same_repository. tauto.
Qed.

Lemma same_repository_trans (fs1 fs2 fs3 : FileSystem) :
  same_repository fs1 fs2 -> same_repository fs2 fs3 -> same_repository fs1 fs3.
Proof.
  unfold same_repository. intuition congruence.
Qed.

Lemma uset_erase_In (k x : string) (s : Uset.t) :
  In x (Uset.erase k s) <-> In x s /\ x <> k.
Proof.
  unfold Uset.erase. rewrite filter_In, negb_true_iff, String.eqb_neq. tauto.
Qed.

(** Writing on the name of an entry of the working root. *)
Lemma write_workname (fs : FileSystem) (filename content : string) :
  is_workname filename = true ->
  Umap.find filename (workdir fs) <> Some Directory ->
  apply_op (WorkingFileWrite filename content) fs
  = mkFS (Umap.assign filename (RegularFile content) (workdir fs))
         (dot_minigit fs) (objects_dir fs) (commits_dir fs)
         (refs_heads_dir fs) (objects fs) (commit_files fs) (ref_files fs)
         (HEAD_file fs).
Proof.
  intros Hname Hfile. unfold apply_op. rewrite locate_workname by exact Hname.
  unfold write_at.
  destruct (Umap.find filename (workdir fs)) as [[content0|]|];
    [reflexivity | contradiction | reflexivity].
Qed.

Lemma materialize_step (w : World) (wdFiles : Uset.t) (warnings : list Warning)
      (filename blobHash : string) :
  is_workname filename = true ->
  let st := materialize (w, wdFiles, warnings) (filename, blobHash) in
  same_repository (disk w) (disk (fst (fst st)))
  /\ (forall f, Umap.find f (workdir (disk (fst (fst st))))
                = if String.eqb filename f
                  then materialized (disk w) filename blobHash
                  else Umap.find f (workdir (disk w)))
  /\ (forall x, x <> filename -> (In x (snd (fst st)) <-> In x wdFiles)).
Proof.
  intros Hname. unfold materialize, materialized. cbv zeta.
  destruct (empty (loadBlob (disk w) blobHash)
            && negb (Umap.count blobHash (objects (disk w)))); simpl.
  - split; [apply same_repository_refl|]. split; [|tauto].
    intros f. destruct (String.eqb filename f) eqn:E; auto.
    apply String.eqb_eq in E. now subst.
  - destruct (Umap.find filename (workdir (disk w))) as [[content|]|] eqn:Efile;
      cbn [fst snd perform disk].
    + rewrite write_workname by (auto; rewrite Efile; discriminate).
      split; [unfold same_repository; simpl; tauto|]. split.
      * intros f. apply UmapFacts.find_assign.
      * intros x Hx. rewrite uset_erase_In. tauto.
    + split; [apply same_repository_refl|]. split.
      * intros f. destruct (String.eqb filename f) eqn:E; auto.
        apply String.eqb_eq in E. now subst.
      * intros x Hx. rewrite uset_erase_In. tauto.
    + rewrite write_workname by (auto; rewrite Efile; discriminate).
      split; [unfold same_repository; simpl; tauto|]. split.
      * intros f. apply UmapFacts.find_assign.
      * intros x Hx. rewrite uset_erase_In. tauto.
Qed.

Lemma materialized_stable (fs fs' : FileSystem) (filename blobHash : string) :
  same_repository fs fs' ->
  Umap.find filename (workdir fs') = Umap.find filename (workdir fs) ->
  materialized fs' filename blobHash = materialized fs filename blobHash.
Proof.
  intros (_ & _ & _ & _ & Hobjects & _) Hfile.
  unfold materialized, loadBlob. now rewrite Hobjects, Hfile.
Qed.

(** The first loop: every path of the tree is dealt with once. *)
Lemma materialize_all (entries : Umap.t string) (w : World) (wdFiles : Uset.t)
      (warnings : list Warning) :
  NoDup (Umap.keys entries) ->
  (forall f, In f (Umap.keys entries) -> is_workname f = true) ->
  let st := fold_left materialize entries (w, wdFiles, warnings) in
  same_repository (disk w) (disk (fst (fst st)))
  /\ (forall f, Umap.find f (workdir (disk (fst (fst st))))
                = match Umap.find f entries with
                  | Some blobHash => materialized (disk w) f blobHash
                  | None => Umap.find f (workdir (disk w))
                  end)
  /\ (forall x, ~ In x (Umap.keys entries) ->
                (In x (snd (fst st)) <-> In x wdFiles)).
Proof.
  revert w wdFiles warnings.
  induction entries as [|[filename blobHash] entries IH];
    intros w wdFiles warnings Hnd Hnames; cbv zeta.
  - simpl. split; [apply same_repository_refl|]. split; [auto | tauto].
  - inversion Hnd as [|? ? Hnotin Hnd']; subst.
    cbn [fold_left].
    destruct (@materialize_step w wdFiles warnings filename blobHash
                (Hnames filename (or_introl eq_refl)))
      as (Hsame1 & Hfind1 & Hset1).
    destruct (materialize (w, wdFiles, warnings) (filename, blobHash))
      as [[w1 wd1] warnings1]. cbn [fst snd] in *.
    destruct (IH w1 wd1 warnings1 Hnd'
                 (fun f Hf => Hnames f (or_intror Hf)))
      as (Hsame & Hfind & Hset).
    split; [exact (same_repository_trans Hsame1 Hsame)|]. split.
    + intros f. rewrite Hfind. cbn [Umap.find].
      destruct (String.eqb filename f) eqn:E.
      * apply String.eqb_eq in E. subst f.
        apply UmapFacts.find_None_keys in Hnotin. rewrite Hnotin.
        rewrite Hfind1. now rewrite String.eqb_refl.
      * destruct (Umap.find f entries) as [b|] eqn:Ef.
        -- apply materialized_stable; auto. rewrite Hfind1. now rewrite E.
        -- rewrite Hfind1. now rewrite E.
    + intros x Hx. simpl in Hx. rewrite Hset by tauto.
      apply Hset1. intros Heq. apply Hx. now left.
Qed.

Lemma materialize_all_frame (entries : Umap.t string) (w : World)
      (wdFiles : Uset.t) (warnings : list Warning) :
  (forall f, In f (Umap.keys entries) -> is_workname f = true) ->
  same_repository (disk w)
    (disk (fst (fst (fold_left materialize entries (w, wdFiles, warnings))))).
Proof.
  revert w wdFiles warnings.
  induction entries as [|[filename blobHash] entries IH];
    intros w wdFiles warnings Hnames.
  - apply same_repository_refl.
  - cbn [fold_left].
    destruct (@materialize_step w wdFiles warnings filename blobHash
                (Hnames filename (or_introl eq_refl)))
      as (Hsame1 & _).
    destruct (materialize (w, wdFiles, warnings) (filename, blobHash))
      as [[w1 wd1] warnings1]. cbn [fst snd] in *.
    exact (same_repository_trans Hsame1
             (IH w1 wd1 warnings1 (fun f Hf => Hnames f (or_intror Hf)))).
Qed.

(** The second loop removes the scanned names that are not in the tree. *)
Lemma remove_stale_all (c : Commit) (names : list string) (w : World) :
  let w' := fold_left (remove_stale c) names w in
  same_repository (disk w) (disk w')
  /\ forall f,
       Umap.find f (workdir (disk w'))
       = if existsb (fun x => String.eqb x f
                              && negb (String.eqb x ".minigit" || hidden x)
                              && negb (Umap.count x (fileBlobs c))) names
         then None
         else Umap.find f (workdir (disk w)).
Proof.
  revert w. induction names as [|x names IH]; intros w; cbv zeta.
  - simpl. split; [apply same_repository_refl | auto].
  - cbn [fold_left existsb].
    destruct (IH (remove_stale c w x)) as [Hsame Hfind].
    assert (Hstep : same_repository (disk w) (disk (remove_stale c w x))
                    /\ forall f,
                         Umap.find f (workdir (disk (remove_stale c w x)))
                         = if String.eqb x f
                              && negb (String.eqb x ".minigit" || hidden x)
                              && negb (Umap.count x (fileBlobs c))
                           then None
                           else Umap.find f (workdir (disk w))).
    { unfold remove_stale.
      destruct (String.eqb x ".minigit" || hidden x); simpl.
      - split; [apply same_repository_refl|]. intros f.
        now rewrite andb_false_r.
      - destruct (Umap.count x (fileBlobs c)); simpl.
        + split; [apply same_repository_refl|]. intros f.
          now rewrite andb_false_r.
        + split; [unfold same_repository; simpl; tauto|]. intros f.
          rewrite UmapFacts.find_erase. now rewrite !andb_true_r. }
    destruct Hstep as [Hsame1 Hfind1].
    split; [exact (same_repository_trans Hsame1 Hsame)|].
    intros f. rewrite Hfind, Hfind1.
    destruct (String.eqb x f && negb (String.eqb x ".minigit" || hidden x)
              && negb (Umap.count x (fileBlobs c))); simpl; auto.
    now destruct (existsb _ names).
Qed.

Lemma in_find_distinct (V : Type) (k : string) (v : V) (m : Umap.t V) :
  NoDup (Umap.keys m) -> In (k, v) m -> Umap.find k m = Some v.
Proof.
  induction m as [|[k0 v0] m IH]; simpl; [tauto|].
  intros Hnd [Heq|Hin].
  - inversion Heq; subst. now rewrite String.eqb_refl.
  - inversion Hnd as [|? ? Hnotin Hnd']; subst.
    destruct (String.eqb k0 k) eqn:E; auto.
    apply String.eqb_eq in E. subst k0. exfalso. apply Hnotin.
    unfold Umap.keys. change k with (fst (k, v)). now apply in_map.
Qed.

Lemma find_in (V : Type) (k : string) (v : V) (m : Umap.t V) :
  Umap.find k m = Some v -> In (k, v) m.
Proof.
  induction m as [|[k0 v0] m IH]; simpl; [discriminate|].
  destruct (String.eqb k0 k) eqn:E; auto.
  apply String.eqb_eq in E. intros H. inversion H; subst. now left.
Qed.

Lemma scan_acc (l : Umap.t DirEntry) (acc : Uset.t) (x : string) :
  In x (fold_left (fun acc entry =>
                     if scanned (fst entry) (snd entry)
                     then Uset.insert (fst entry) acc else acc) l acc)
  <-> In x acc \/ exists e, In (x, e) l /\ scanned x e = true.
Proof.
  revert acc. induction l as [|[k e] l IH]; intros acc; simpl.
  - split; auto. intros [H|(e & [] & _)]; auto.
  - rewrite IH. split.
    + intros [H|(e' & Hin & Hs)].
      * destruct (scanned k e) eqn:Es; auto.
        unfold Uset.insert in H. destruct (Uset.count k acc); auto.
        apply in_app_or in H. destruct H as [H|[H|[]]]; auto.
        subst x. right. exists e. auto.
      * right. exists e'. auto.
    + intros [H|(e' & [Heq|Hin] & Hs)].
      * left. destruct (scanned k e); auto.
        unfold Uset.insert. destruct (Uset.count k acc); auto.
        apply in_or_app. auto.
      * inversion Heq; subst. left. rewrite Hs.
        unfold Uset.insert. destruct (Uset.count x acc) eqn:Ec.
        -- now apply uset_count_In.
        -- apply in_or_app. right. now left.
      * right. exists e'. auto.
Qed.

Lemma scanned_visible (x : string) (e : DirEntry) :
  scanned x e = true -> String.eqb x ".minigit" || hidden x = false.
Proof.
  unfold scanned. intros H.
  apply andb_prop in H. destruct H as [H Hh].
  apply andb_prop in H. destruct H as [_ Hm].
  apply negb_true_iff in Hh. apply negb_true_iff in Hm.
  now rewrite Hh, Hm.
Qed.

(** X14: what [populateWorkingDirectory] leaves in the working root when
    every path of the target tree is the name of an entry of the working
    root (a single component other than [.minigit]).  A path of the tree
    holds the content of its blob, unless the blob is missing or a directory
    has that name, in which case it is left as it was.  Every other visible
    regular file is removed, and hidden files and directories are left
    alone.  Nothing under [.minigit] changes.  (A tree path that leads into
    [.minigit] is written where it leads: see
    [populate_overwrites_HEAD_example].) *)
Theorem populateWorkingDirectory_result (c : Commit) (w : World) :
  NoDup (Umap.keys (fileBlobs c)) ->
  (forall f, In f (Umap.keys (fileBlobs c)) -> is_workname f = true) ->
  NoDup (Umap.keys (workdir (disk w))) ->
  let w' := fst (populateWorkingDirectory c w) in
  same_repository (disk w) (disk w')
  /\ forall f,
       Umap.find f (workdir (disk w'))
       = match Umap.find f (fileBlobs c) with
         | Some blobHash => materialized (disk w) f blobHash
         | None =>
             match Umap.find f (workdir (disk w)) with
             | Some e => if scanned f e then None else Some e
             | None => None
             end
         end.
Proof.
  intros Htree Hnames Hdir. cbv zeta. unfold populateWorkingDirectory.
  destruct (@materialize_all (fileBlobs c) w (scan_workdir (disk w)) [] Htree
              Hnames)
    as (Hsame1 & Hfind1 & Hset1).
  destruct (fold_left materialize (fileBlobs c) (w, scan_workdir (disk w), []))
    as [[w1 wdFiles] warnings]. cbn [fst snd] in *.
  destruct (remove_stale_all c wdFiles w1) as [Hsame2 Hfind2].
  split; [exact (same_repository_trans Hsame1 Hsame2)|].
  intros f. rewrite Hfind2, Hfind1.
  destruct (Umap.find f (fileBlobs c)) as [blobHash|] eqn:Etree.
  - replace (existsb _ wdFiles) with false; auto.
    symmetry. apply not_true_is_false. intros H.
    apply existsb_exists in H. destruct H as (x & _ & Hx).
    apply andb_prop in Hx. destruct Hx as [Hx Hcount].
    apply andb_prop in Hx. destruct Hx as [Hx _].
    apply String.eqb_eq in Hx. subst x.
    unfold Umap.count in Hcount. now rewrite Etree in Hcount.
  - assert (Hnotin : ~ In f (Umap.keys (fileBlobs c)))
      by now apply UmapFacts.find_None_keys.
    destruct (Umap.find f (workdir (disk w))) as [e|] eqn:Efile.
    + destruct (scanned f e) eqn:Es.
      * replace (existsb _ wdFiles) with true; auto.
        symmetry. apply existsb_exists. exists f. split.
        -- apply Hset1; auto. unfold scan_workdir. apply scan_acc.
           right. exists e. split; auto. now apply find_in.
        -- rewrite String.eqb_refl, (@scanned_visible f e Es).
           unfold Umap.count. now rewrite Etree.
      * replace (existsb _ wdFiles) with false; auto.
        symmetry. apply not_true_is_false. intros H.
        apply existsb_exists in H. destruct H as (x & Hin & Hx).
        apply andb_prop in Hx. destruct Hx as [Hx _].
        apply andb_prop in Hx. destruct Hx as [Hx _].
        apply String.eqb_eq in Hx. subst x.
        apply Hset1 in Hin; auto. unfold scan_workdir in Hin.
        apply scan_acc in Hin. destruct Hin as [[]|(e' & Hin & Hs)].
        apply (@in_find_distinct _ f e' _ Hdir) in Hin. congruence.
    + replace (existsb _ wdFiles) with false; auto.
      symmetry. apply not_true_is_false. intros H.
      apply existsb_exists in H. destruct H as (x & Hin & Hx).
      apply andb_prop in Hx. destruct Hx as [Hx _].
      apply andb_prop in Hx. destruct Hx as [Hx _].
      apply String.eqb_eq in Hx. subst x.
      apply Hset1 in Hin; auto. unfold scan_workdir in Hin.
      apply scan_acc in Hin. destruct Hin as [[]|(e' & Hin & Hs)].
      apply (@in_find_distinct _ f e' _ Hdir) in Hin. congruence.
Qed.

Lemma populateWorkingDirectory_result_witness :
  NoDup (Umap.keys (fileBlobs first_commit))
  /\ (forall f, In f (Umap.keys (fileBlobs first_commit)) ->
                is_workname f = true)
  /\ NoDup (Umap.keys (workdir modified_fs))
  /\ HEAD_file (disk (fst (populateWorkingDirectory first_commit
                             (mkWorld modified_fs []))))
     = HEAD_file modified_fs
  /\ Umap.find "file.txt"
       (workdir (disk (fst (populateWorkingDirectory first_commit
                              (mkWorld modified_fs [])))))
     = Some (RegularFile ("Line 1" ++ nl ++ "Line 2" ++ nl)).
Proof.
  assert (Htree : NoDup (Umap.keys (fileBlobs first_commit))).
  { simpl. constructor; [intros [] | constructor]. }
  assert (Hnames : forall f, In f (Umap.keys (fileBlobs first_commit)) ->
                             is_workname f = true).
  { simpl. intros f [Hf|[]]. now subst f. }
  assert (Hdir : NoDup (Umap.keys (workdir modified_fs))).
  { simpl. constructor; [intros [] | constructor]. }
  split; [exact Htree|]. split; [exact Hnames|]. split; [exact Hdir|].
  destruct (@populateWorkingDirectory_result first_commit
              (mkWorld modified_fs []) Htree Hnames Hdir) as [Hsame Hfind].
  split; [|exact (Hfind "file.txt")].
  exact (proj2 (proj2 (proj2 (proj2 (proj2 (proj2 (proj2 Hsame))))))).
Defined.

(** A tree path that leads into the repository is written where it
    leads: materializing a tree that holds the path [.minigit/HEAD]
    overwrites [.minigit/HEAD] and adds no entry to the working root. *)
Example populate_overwrites_HEAD_example :
  let c := mkCommit "12345678" "Path into the repository" "2024-01-01 10:00:00"
                    [] [(".minigit/HEAD", "4590712520188692798")] in
  let r := populateWorkingDirectory c (mkWorld emptied_fs []) in
  snd r = []
  /\ HEAD_file (disk (fst r)) = Some ("Line 1" ++ nl ++ "Line 2" ++ nl)
  /\ workdir (disk (fst r)) = [].
Proof. vm_compute. repeat split. Qed.

(* ================================================================= *)
(** ** A successful [checkout] *)

Section CheckoutSuccess.
Variable hasher : string -> N.

Lemma checkout_checked_out_inv (g : MiniGitSystem) (w : World)
      (target : string) (warnings : list Warning)
      (g' : MiniGitSystem) (w' : World) :
  checkout hasher g w target = (CheckedOut warnings, g', w') ->
  exists g2 targetCommit,
    branches g2 = branches g
    /\ empty (headCommitHash g') = false
    /\ resolve_target (fst (currentHeadCommit g (disk w))) target
       = (headCommitHash g', headBranch g')
    /\ g' = set_stagingArea [] (set_head (headBranch g') (headCommitHash g') g2)
    /\ targetCommit = match Umap.find (headCommitHash g') (commits g') with
                      | Some c => c
                      | None => Commit_default
                      end
    /\ (w', warnings)
       = populateWorkingDirectory targetCommit
           (saveHeadAndBranchRefs
              (set_head (headBranch g') (headCommitHash g') g2) w).
Proof.
  unfold checkout.
  destruct (negb (dot_minigit (disk w))); [discriminate|].
  destruct (currentHeadCommit_frame g (disk w)) as (Hb & _).
  destruct (currentHeadCommit g (disk w)) as [g1 headCommit]. simpl in Hb.
  cbn [fst].
  destruct (has_changes _ _); [discriminate|].
  destruct (resolve_target g1 target) as [targetCommitHash newHeadBranch].
  destruct (empty targetCommitHash && negb (empty newHeadBranch)).
  { destruct (String.eqb (headBranch g1) newHeadBranch); discriminate. }
  destruct (empty targetCommitHash) eqn:Etarget; [discriminate|].
  set (g2 := if Umap.count targetCommitHash (commits g1) then g1
             else set_commits _ g1).
  assert (Hb2 : branches g2 = branches g)
    by (unfold g2; destruct (Umap.count targetCommitHash (commits g1)); auto).
  match goal with
  | |- context [if ?b then (CorruptCommit, _, _) else _] => destruct b
  end; [discriminate|].
  match goal with
  | |- context [if ?b then (AlreadyOn, _, _) else _] => destruct b
  end; [discriminate|].
  match goal with
  | |- context [populateWorkingDirectory ?c ?w0] =>
      destruct (populateWorkingDirectory c w0) as [w2 warnings2] eqn:Epop;
      exists g2, c
  end.
  inversion H; subst. simpl. repeat split; auto.
Qed.

(** X15: a [checkout] that switches leaves HEAD consistent on disk and in
    memory, when the branch it switches to has a file name (so that its ref
    file opens) and every path of the tree it restores is the name of an
    entry of the working root (so that no path leads into [.minigit]).  The
    index is empty and the branch map is unchanged; [.minigit/HEAD] holds
    the symbolic ref of the new branch, or the digest when detached; when
    attached, the ref file of the new branch exists and holds the HEAD
    digest; and the object store and the commit store are untouched.  HEAD
    is what the target resolves to. *)
Theorem checkout_switches_consistently (g : MiniGitSystem) (w : World)
        (target : string) (warnings : list Warning)
        (g' : MiniGitSystem) (w' : World) :
  dot_minigit (disk w) = true ->
  refs_heads_dir (disk w) = true ->
  checkout hasher g w target = (CheckedOut warnings, g', w') ->
  (empty (headBranch g') = false -> is_filename (headBranch g') = true) ->
  (forall c f,
      Umap.find (headCommitHash g') (commits g') = Some c ->
      In f (Umap.keys (fileBlobs c)) -> is_workname f = true) ->
  stagingArea g' = []
  /\ branches g' = branches g
  /\ resolve_target (fst (currentHeadCommit g (disk w))) target
     = (headCommitHash g', headBranch g')
  /\ HEAD_file (disk w')
     = Some (if negb (empty (headBranch g'))
             then "ref: refs/heads/" ++ headBranch g' ++ nl
             else headCommitHash g' ++ nl)
  /\ (empty (headBranch g') = false ->
      Umap.find (headBranch g') (ref_files (disk w'))
      = Some (headCommitHash g' ++ nl))
  /\ objects (disk w') = objects (disk w)
  /\ commit_files (disk w') = commit_files (disk w).
Proof.
  intros Hrepo Hrefs H Hfile Hnames. apply checkout_checked_out_inv in H.
  destruct H as (g2 & targetCommit & Hb & Hne & Hresolve & Hg & Htarget & Hw).
  set (g3 := set_head (headBranch g') (headCommitHash g') g2) in *.
  assert (Hw' : w' = fst (populateWorkingDirectory targetCommit
                            (saveHeadAndBranchRefs g3 w)))
    by now rewrite <- Hw.
  assert (Htree : forall f, In f (Umap.keys (fileBlobs targetCommit)) ->
                            is_workname f = true).
  { intros f Hf. rewrite Htarget in Hf.
    destruct (Umap.find (headCommitHash g') (commits g')) as [c|] eqn:E;
      [exact (Hnames c f eq_refl Hf) | destruct Hf]. }
  assert (Hsame : same_repository (disk (saveHeadAndBranchRefs g3 w)) (disk w')).
  { rewrite Hw'. unfold populateWorkingDirectory.
    pose proof (@materialize_all_frame (fileBlobs targetCommit)
                  (saveHeadAndBranchRefs g3 w)
                  (scan_workdir (disk (saveHeadAndBranchRefs g3 w))) [] Htree)
      as Hsame1.
    destruct (fold_left materialize (fileBlobs targetCommit) _)
      as [[w1 wdFiles] warnings1]. cbn [fst snd] in *.
    destruct (remove_stale_all targetCommit wdFiles w1) as [Hsame2 _].
    exact (same_repository_trans Hsame1 Hsame2). }
  destruct Hsame as (_ & _ & _ & _ & Hobj & Hcf & Hrf & Hhf).
  destruct (saveHeadAndBranchRefs_layout g3 w Hrepo Hrefs Hfile)
    as (_ & _ & Hhead).
  destruct (saveHeadAndBranchRefs_frame g3 w) as (_ & Hobj0 & Hcf0 & _).
  pose proof (saveHeadAndBranchRefs_ref_files_named g3 w Hrepo Hfile) as Hrf0.
  rewrite Hobj, Hcf, Hrf, Hhf, Hhead, Hobj0, Hcf0, Hrf0.
  split; [rewrite Hg; reflexivity|].
  split; [rewrite Hg; exact Hb|].
  split; [exact Hresolve|].
  split; [reflexivity|].
  split; [|auto].
  intros Hattached. unfold g3. simpl. rewrite Hattached, Hne. simpl.
  apply UmapFacts.find_assign_same.
Qed.

End CheckoutSuccess.

(** [branch feature] followed by [checkout feature] in the same process:
    the checkout writes the ref file that [branch] did not. *)
Example branch_then_checkout_example :
  exists g' w',
    checkout sample_hasher
      (snd (fst (branch committed_system (mkWorld committed_fs []) "feature")))
      (snd (branch committed_system (mkWorld committed_fs []) "feature"))
      "feature"
    = (CheckedOut [], g', w')
    /\ headBranch g' = "feature"
    /\ ref_files (disk w')
       = [("master", "8276604627639202864" ++ nl);
          ("feature", "8276604627639202864" ++ nl)].
Proof. eexists _, _. vm_compute. repeat split. Qed.

Lemma checkout_switches_consistently_witness :
  let r := checkout sample_hasher
             (snd (fst (branch committed_system (mkWorld committed_fs [])
                               "feature")))
             (snd (branch committed_system (mkWorld committed_fs []) "feature"))
             "feature" in
  fst (fst r) = CheckedOut []
  /\ is_filename (headBranch (snd (fst r))) = true
  /\ stagingArea (snd (fst r)) = []
  /\ HEAD_file (disk (snd r)) = Some ("ref: refs/heads/feature" ++ nl)
  /\ Umap.find "feature" (ref_files (disk (snd r)))
     = Some ("8276604627639202864" ++ nl).
Proof.
  cbv zeta.
  set (r := checkout sample_hasher
              (snd (fst (branch committed_system (mkWorld committed_fs [])
                                "feature")))
              (snd (branch committed_system (mkWorld committed_fs []) "feature"))
              "feature").
  assert (Hr : r = (CheckedOut [], snd (fst r), snd r))
    by (vm_compute; reflexivity).
  assert (Hbranch : headBranch (snd (fst r)) = "feature")
    by (vm_compute; reflexivity).
  assert (Hdigest : headCommitHash (snd (fst r)) = "8276604627639202864")
    by (vm_compute; reflexivity).
  assert (Hfile : empty (headBranch (snd (fst r))) = false ->
                  is_filename (headBranch (snd (fst r))) = true)
    by (intros _; rewrite Hbranch; reflexivity).
  assert (Hnames : forall c f,
             Umap.find (headCommitHash (snd (fst r))) (commits (snd (fst r)))
             = Some c ->
             In f (Umap.keys (fileBlobs c)) -> is_workname f = true).
  { intros c f Hc Hf. vm_compute in Hc. inversion Hc; subst c.
    simpl in Hf. destruct Hf as [Hf|[]]. now subst f. }
  destruct (@checkout_switches_consistently sample_hasher
              (snd (fst (branch committed_system (mkWorld committed_fs [])
                                "feature")))
              (snd (branch committed_system (mkWorld committed_fs []) "feature"))
              "feature" [] (snd (fst r)) (snd r) eq_refl eq_refl Hr Hfile Hnames)
    as (Hindex & _ & _ & Hhead & Href & _).
  split; [now rewrite Hr|]. split; [now rewrite Hbranch|].
  split; [exact Hindex|]. split.
  - rewrite Hhead, Hbranch. reflexivity.
  - rewrite <- Hbranch at 1. rewrite <- Hdigest.
    apply Href. now rewrite Hbranch.
Defined.

(* ================================================================= *)
(** ** Checking out a branch without commits *)

Lemma clear_workdir_acc (l : Umap.t DirEntry) (w : World) (f : string) :
  same_repository (disk w)
    (disk (fold_left (fun w entry =>
                        if scanned (fst entry) (snd entry)
                        then perform (WorkingFileRemove (fst entry)) w else w)
                     l w))
  /\ Umap.find f (workdir (disk
       (fold_left (fun w entry =>
                     if scanned (fst entry) (snd entry)
                     then perform (WorkingFileRemove (fst entry)) w else w)
                  l w)))
     = if existsb (fun entry => String.eqb (fst entry) f
                                && scanned (fst entry) (snd entry)) l
       then None
       else Umap.find f (workdir (disk w)).
Proof.
  revert w. induction l as [|[k e] l IH]; intros w.
  - simpl. split; [apply same_repository_refl | reflexivity].
  - cbn [fold_left existsb fst snd].
    destruct (scanned k e) eqn:Es.
    + destruct (IH (perform (WorkingFileRemove k) w)) as [Hsame Hfind].
      split.
      * refine (same_repository_trans _ Hsame).
        unfold same_repository. simpl. tauto.
      * rewrite Hfind. simpl. rewrite UmapFacts.find_erase, andb_true_r.
        destruct (String.eqb k f); simpl; auto.
        now destruct (existsb _ l).
    + destruct (IH w) as [Hsame Hfind]. split; auto.
      rewrite Hfind. now rewrite andb_false_r.
Qed.

Lemma existsb_entry (l : Umap.t DirEntry) (f : string) :
  NoDup (Umap.keys l) ->
  existsb (fun entry => String.eqb (fst entry) f
                        && scanned (fst entry) (snd entry)) l
  = match Umap.find f l with
    | Some e => scanned f e
    | None => false
    end.
Proof.
  induction l as [|[k e] l IH]; intros Hnd; simpl; auto.
  inversion Hnd as [|? ? Hnotin Hnd']; subst.
  destruct (String.eqb k f) eqn:E; simpl.
  - apply String.eqb_eq in E. subst k.
    destruct (scanned f e) eqn:Es; auto.
    rewrite (IH Hnd'). apply UmapFacts.find_None_keys in Hnotin.
    now rewrite Hnotin.
  - exact (IH Hnd').
Qed.

Section EmptyBranch.
Variable hasher : string -> N.

(** X16: checking out a branch that has no commit empties the working
    root.  When [checkout] switches to such a branch, every visible regular
    file is removed while hidden files and directories stay; HEAD becomes
    the symbolic ref of the branch with no commit, the index is empty, and
    no ref file is written. *)
Theorem checkout_empty_branch (g : MiniGitSystem) (w : World)
        (target : string) (g' : MiniGitSystem) (w' : World) :
  NoDup (Umap.keys (workdir (disk w))) ->
  checkout hasher g w target = (SwitchedToEmptyBranch, g', w') ->
  headBranch g' = target
  /\ headCommitHash g' = ""
  /\ stagingArea g' = []
  /\ Umap.find target (branches g) = Some ""
  /\ (forall f,
        Umap.find f (workdir (disk w'))
        = match Umap.find f (workdir (disk w)) with
          | Some e => if scanned f e then None else Some e
          | None => None
          end)
  /\ ref_files (disk w') = ref_files (disk w)
  /\ HEAD_file (disk w') = Some ("ref: refs/heads/" ++ target ++ nl).
Proof.
  intros Hdir. unfold checkout.
  destruct (dot_minigit (disk w)) eqn:Hrepo; simpl negb; cbv iota;
    [|discriminate].
  destruct (currentHeadCommit_frame g (disk w)) as (Hb & _).
  destruct (currentHeadCommit g (disk w)) as [g1 headCommit]. simpl in Hb.
  destruct (has_changes _ _); [discriminate|].
  unfold resolve_target. rewrite Hb.
  destruct (Umap.find target (branches g)) as [h|] eqn:Ebranch.
  - destruct (empty h && negb (empty target)) eqn:Econd.
    + destruct (String.eqb (headBranch g1) target); [discriminate|].
      intros H. inversion H; subst g' w'. clear H.
      apply andb_prop in Econd. destruct Econd as [Eh Et].
      destruct h; [|discriminate]. apply negb_true_iff in Et.
      destruct (clear_workdir_acc (workdir (disk w)) w "") as [Hsame _].
      fold (clear_workdir w) in Hsame.
      destruct Hsame as (Hdm & _ & _ & _ & _ & _ & Hrf & _).
      destruct (saveHeadAndBranchRefs_frame (set_head target "" g1)
                  (clear_workdir w)) as (Hwd & _).
      pose proof (saveHeadAndBranchRefs_ref_files (set_head target "" g1)
                    (clear_workdir w)) as Hrf'.
      simpl in Hrf'. rewrite andb_false_r in Hrf'.
      rewrite Hwd, Hrf', Hrf. simpl.
      repeat split.
      * intros f.
        destruct (clear_workdir_acc (workdir (disk w)) w f) as [_ Hfind].
        fold (clear_workdir w) in Hfind. rewrite Hfind.
        rewrite (@existsb_entry (workdir (disk w)) f Hdir).
        destruct (Umap.find f (workdir (disk w))) as [e|]; auto.
      * unfold saveHeadAndBranchRefs, save_head. simpl. rewrite andb_false_r.
        rewrite Hdm, Hrepo. simpl. now rewrite Et.
    + destruct (empty h); [discriminate|].
      match goal with
      | |- context [if ?b then (CorruptCommit, _, _) else _] => destruct b
      end; [discriminate|].
      match goal with
      | |- context [if ?b then (AlreadyOn, _, _) else _] => destruct b
      end; [discriminate|].
      destruct (populateWorkingDirectory _ _). discriminate.
  - destruct (Umap.count target (commits g1)).
    + simpl. destruct (empty target) eqn:Et; simpl; [discriminate|].
      match goal with
      | |- context [if ?b then (CorruptCommit, _, _) else _] => destruct b
      end; [discriminate|].
      match goal with
      | |- context [if ?b then (AlreadyOn, _, _) else _] => destruct b
      end; [discriminate|].
      destruct (populateWorkingDirectory _ _). discriminate.
    + destruct (List.find _ (commits g1)) as [entry|]; simpl.
      * rewrite andb_false_r.
        destruct (empty (fst entry)); [discriminate|].
        match goal with
        | |- context [if ?b then (CorruptCommit, _, _) else _] => destruct b
        end; [discriminate|].
        match goal with
        | |- context [if ?b then (AlreadyOn, _, _) else _] => destruct b
        end; [discriminate|].
        destruct (populateWorkingDirectory _ _). discriminate.
      * discriminate.
Qed.

End EmptyBranch.

Example checkout_empty_branch_example :
  exists g' w',
    checkout sample_hasher (MiniGitSystem_new empty_branch_fs)
             (mkWorld empty_branch_fs []) "empty"
    = (SwitchedToEmptyBranch, g', w')
    /\ workdir (disk w') = [(".hidden", RegularFile "keep"); ("docs", Directory)].
Proof. eexists _, _. vm_compute. repeat split. Qed.

Lemma checkout_empty_branch_witness :
  NoDup (Umap.keys (workdir empty_branch_fs))
  /\ exists g' w',
       checkout sample_hasher (MiniGitSystem_new empty_branch_fs)
                (mkWorld empty_branch_fs []) "empty"
       = (SwitchedToEmptyBranch, g', w')
       /\ Umap.find "file.txt" (workdir (disk w')) = None
       /\ Umap.find ".hidden" (workdir (disk w')) = Some (RegularFile "keep")
       /\ HEAD_file (disk w') = Some ("ref: refs/heads/" ++ "empty" ++ nl).
Proof.
  assert (Hdir : NoDup (Umap.keys (workdir empty_branch_fs))).
  { simpl. repeat constructor; simpl; intuition discriminate. }
  split; [exact Hdir|].
  destruct checkout_empty_branch_example as (g' & w' & Hcheckout & _).
  destruct (@checkout_empty_branch sample_hasher
              (MiniGitSystem_new empty_branch_fs) (mkWorld empty_branch_fs [])
              "empty" g' w' Hdir Hcheckout)
    as (_ & _ & _ & _ & Hfiles & _ & Hhead).
  exists g', w'. split; [exact Hcheckout|].
  split; [exact (Hfiles "file.txt")|].
  split; [exact (Hfiles ".hidden") | exact Hhead].
Defined.

(* ================================================================= *)
(** ** What a process starts with *)

(** X17: what the constructor loads.  In an initialized repository a new
    process has an empty index; its branch map binds exactly the names of
    the ref files, each to the first line of its file; and its commit cache
    holds exactly the names of the commit files, each bound to what
    [loadCommitFromFile] reads from it. *)
Theorem constructor_loads_disk (fs : FileSystem) :
  dot_minigit fs = true ->
  refs_heads_dir fs = true ->
  commits_dir fs = true ->
  NoDup (Umap.keys (ref_files fs)) ->
  stagingArea (MiniGitSystem_new fs) = []
  /\ (forall name,
        Umap.find name (branches (MiniGitSystem_new fs))
        = match Umap.find name (ref_files fs) with
          | Some text => Some (getline text)
          | None => None
          end)
  /\ (forall commitHash,
        Umap.find commitHash (commits (MiniGitSystem_new fs))
        = if Umap.count commitHash (commit_files fs)
          then Some (loadCommitFromFile fs commitHash)
          else None).
Proof.
  intros Hrepo Hrefs Hcommits Hnd.
  unfold MiniGitSystem_new, loadRepoState. rewrite Hrepo, Hrefs, Hcommits.
  simpl. split; [reflexivity|]. split.
  - intros name. now rewrite (fold_assign_by_value getline).
  - intros commitHash.
    exact (fold_assign_by_key (loadCommitFromFile fs) (commit_files fs) []
                              commitHash).
Qed.

Lemma constructor_loads_disk_witness :
  NoDup (Umap.keys (ref_files empty_branch_fs))
  /\ Umap.find "empty" (branches (MiniGitSystem_new empty_branch_fs)) = Some ""
  /\ Umap.find "8276604627639202864"
       (commits (MiniGitSystem_new empty_branch_fs)) = Some first_commit.
Proof.
  assert (Hnd : NoDup (Umap.keys (ref_files empty_branch_fs))).
  { simpl. repeat constructor; simpl; intuition discriminate. }
  destruct (@constructor_loads_disk empty_branch_fs eq_refl eq_refl eq_refl Hnd)
    as (_ & Hbranches & Hcommits).
  split; [exact Hnd|].
  split; [exact (Hbranches "empty")|].
  rewrite (Hcommits "8276604627639202864"). vm_compute. reflexivity.
Defined.

(* ================================================================= *)
(** ** [diff] *)

Lemma insert_all_In (names : list string) (acc : Uset.t) (x : string) :
  In x (fold_left (fun acc k => Uset.insert k acc) names acc)
  <-> In x acc \/ In x names.
Proof.
  revert acc. induction names as [|k names IH]; intros acc; simpl.
  - tauto.
  - rewrite IH. unfold Uset.insert.
    destruct (Uset.count k acc) eqn:E.
    + apply uset_count_In in E. split; [tauto|].
      intros [H|[H|H]]; auto. subst. auto.
    + rewrite in_app_iff. simpl. tauto.
Qed.

Lemma all_files_In (first second : list string) (x : string) :
  In x (all_files first second) <-> In x first \/ In x second.
Proof.
  unfold all_files. rewrite !insert_all_In. simpl. tauto.
Qed.

Lemma diff_commits_file_path (fs : FileSystem) (c1 c2 : Commit)
      (filename : string) (call : DiffCall) :
  In call (diff_commits_file fs c1 c2 filename) -> diff_path call = filename.
Proof.
  unfold diff_commits_file.
  destruct (Umap.find filename (fileBlobs c1)) as [b1|],
           (Umap.find filename (fileBlobs c2)) as [b2|]; simpl;
    try (destruct (negb (String.eqb b1 b2)); simpl);
    intuition (subst; auto).
Qed.

Lemma diff_commits_file_differs (fs : FileSystem) (c1 c2 : Commit)
      (filename : string) :
  diff_commits_file fs c1 c2 filename <> []
  <-> Umap.find filename (fileBlobs c1) <> Umap.find filename (fileBlobs c2).
Proof.
  unfold diff_commits_file.
  destruct (Umap.find filename (fileBlobs c1)) as [b1|],
           (Umap.find filename (fileBlobs c2)) as [b2|]; simpl;
    try (split; [discriminate | intros; discriminate]).
  - destruct (String.eqb b1 b2) eqn:E; simpl.
    + apply String.eqb_eq in E. subst. tauto.
    + apply String.eqb_neq in E. split; [congruence | discriminate].
  - tauto.
Qed.

(** A text against the empty text: one turn per line. *)
Lemma diff_loop_removed_only (fuel : nat) (oldLines : list string) :
  length oldLines <= fuel ->
  diff_loop fuel oldLines [] = Some (map Removed oldLines).
Proof.
  revert oldLines. induction fuel as [|fuel IH]; intros oldLines Hfuel.
  - destruct oldLines; simpl in *; [reflexivity | lia].
  - destruct oldLines as [|o oldLines]; [reflexivity|].
    simpl. unfold diff_turn. simpl.
    rewrite IH by (simpl in Hfuel; lia). reflexivity.
Qed.

(** A turn that prints nothing and moves neither index is repeated for
    ever. *)
Lemma diff_loop_no_progress (fuel : nat) (oldLines newLines : list string) :
  is_nil oldLines && is_nil newLines = false ->
  diff_turn oldLines newLines = ([], oldLines, newLines) ->
  diff_loop fuel oldLines newLines = None.
Proof.
  intros Hleft Hturn. induction fuel as [|fuel IH]; simpl; rewrite Hleft; auto.
  now rewrite Hturn, IH.
Qed.

Lemma returns_deleted (fuel : nat) (call : DiffCall) :
  diff_new call = "" ->
  length (getlines (diff_old call)) <= fuel ->
  returns fuel call = true.
Proof.
  intros Hnew Hfuel. unfold returns, displayLineDiff. rewrite Hnew.
  change (getlines "") with (@nil string).
  now rewrite diff_loop_removed_only.
Qed.

(** X18: the calls of [displayLineDiff] that [diff <commit1> <commit2>]
    makes, one after the other while each of them returns, are for exactly
    the paths on which the two trees disagree: the digests differ, or the
    path is in one tree only.  [diff] returns, having shown all of them,
    when every call returns, and does not return otherwise.  Two commits
    with the same tree, a commit and itself included, give no call at all,
    and then [diff] returns. *)
Theorem diff_two_commits (g : MiniGitSystem) (fs : FileSystem)
        (arg1 arg2 : string) (c1 c2 : Commit) :
  dot_minigit fs = true ->
  empty arg1 = false ->
  empty arg2 = false ->
  String.eqb arg1 "--staged" || String.eqb arg1 "--cached" = false ->
  usable_commit g (resolveHash g arg1) = Some c1 ->
  usable_commit g (resolveHash g arg2) = Some c2 ->
  exists calls,
    diff_calls g fs arg1 arg2 = (DiffShown calls, g)
    /\ (forall path,
          In path (map diff_path calls)
          <-> Umap.find path (fileBlobs c1) <> Umap.find path (fileBlobs c2))
    /\ (forall fuel,
          diff fuel g fs arg1 arg2
          = if forallb (returns fuel) calls then Some (DiffShown calls, g)
            else None)
    /\ (fileBlobs c1 = fileBlobs c2 ->
        calls = []
        /\ forall fuel, diff fuel g fs arg1 arg2 = Some (DiffShown [], g)).
Proof.
  intros Hrepo H1 H2 Hmode Hc1 Hc2.
  assert (Hcalls :
    diff_calls g fs arg1 arg2
    = (DiffShown (flat_map (diff_commits_file fs c1 c2)
                           (all_files (Umap.keys (fileBlobs c1))
                                      (Umap.keys (fileBlobs c2)))), g)).
  { unfold diff_calls. rewrite Hrepo, H1, H2, Hmode, Hc1, Hc2. reflexivity. }
  eexists. split; [exact Hcalls|].
  assert (Hpaths : forall path,
    In path (map diff_path
               (flat_map (diff_commits_file fs c1 c2)
                         (all_files (Umap.keys (fileBlobs c1))
                                    (Umap.keys (fileBlobs c2)))))
    <-> Umap.find path (fileBlobs c1) <> Umap.find path (fileBlobs c2)).
  { intros path. rewrite in_map_iff. split.
    - intros (call & Hpath & Hin). apply in_flat_map in Hin.
      destruct Hin as (filename & _ & Hin).
      rewrite (diff_commits_file_path _ _ _ _ _ Hin) in Hpath. subst filename.
      apply (diff_commits_file_differs fs). intros Hnil.
      now rewrite Hnil in Hin.
    - intros Hdiff.
      assert (Hne : diff_commits_file fs c1 c2 path <> [])
        by now apply diff_commits_file_differs.
      destruct (diff_commits_file fs c1 c2 path) as [|call rest] eqn:E;
        [contradiction|].
      exists call. split.
      + apply (diff_commits_file_path fs c1 c2 path). rewrite E. now left.
      + apply in_flat_map. exists path. split; [|rewrite E; now left].
        apply all_files_In.
        destruct (Umap.find path (fileBlobs c1)) as [b1|] eqn:E1.
        * left. exact (UmapFacts.find_In_keys _ _ E1).
        * destruct (Umap.find path (fileBlobs c2)) as [b2|] eqn:E2;
            [|contradiction].
          right. exact (UmapFacts.find_In_keys _ _ E2). }
  split; [exact Hpaths|].
  split; [intros fuel; unfold diff; now rewrite Hcalls|].
  intros Hsame.
  assert (Hnone : flat_map (diff_commits_file fs c1 c2)
                    (all_files (Umap.keys (fileBlobs c1))
                               (Umap.keys (fileBlobs c2))) = []).
  { destruct (flat_map (diff_commits_file fs c1 c2) _) as [|call rest] eqn:E;
      auto.
    exfalso. apply (Hpaths (diff_path call)); [now left | now rewrite Hsame]. }
  split; [exact Hnone|].
  intros fuel. unfold diff. now rewrite Hcalls, Hnone.
Qed.

Lemma diff_two_commits_witness :
  diff 0 twin_system twin_fs "12345678" "1234" = Some (DiffShown [], twin_system)
  /\ diff 2 twin_system twin_fs "12345678" "12349999"
     = Some (DiffShown [mkDiffCall ("Line 1" ++ nl ++ "Line 2" ++ nl) ""
                                   "file.txt" " (deleted)"], twin_system)
  /\ diff 1 twin_system twin_fs "12345678" "12349999" = None.
Proof.
  split.
  - destruct (@diff_two_commits twin_system twin_fs "12345678" "1234"
                twin_older twin_older eq_refl eq_refl eq_refl eq_refl
                eq_refl eq_refl) as (calls & _ & _ & _ & Hsame).
    exact (proj2 (Hsame eq_refl) 0).
  - destruct (@diff_two_commits twin_system twin_fs "12345678" "12349999"
                twin_older twin_newer eq_refl eq_refl eq_refl eq_refl
                eq_refl eq_refl) as (calls & Hcalls & _ & Hruns & _).
    assert (Hthese : calls = [mkDiffCall ("Line 1" ++ nl ++ "Line 2" ++ nl) ""
                                         "file.txt" " (deleted)"]).
    { vm_compute in Hcalls. now inversion Hcalls. }
    subst calls. split; [exact (Hruns 2) | exact (Hruns 1)].
Defined.

(** Between the two commits of [swapped_system] the two lines of
    [file.txt] change places: the one call of [displayLineDiff] never
    returns, and neither does [diff], whatever the fuel. *)
Example diff_swapped_lines_example (fuel : nat) :
  fst (diff_calls swapped_system swapped_fs "11110000" "22220000")
  = DiffShown [mkDiffCall ("a" ++ nl ++ "b" ++ nl) ("b" ++ nl ++ "a" ++ nl)
                          "file.txt" ""]
  /\ diff fuel swapped_system swapped_fs "11110000" "22220000" = None.
Proof.
  split; [reflexivity|].
  unfold diff.
  change (diff_calls swapped_system swapped_fs "11110000" "22220000")
    with (DiffShown [mkDiffCall ("a" ++ nl ++ "b" ++ nl)
                                ("b" ++ nl ++ "a" ++ nl) "file.txt" ""],
          swapped_system).
  cbn [forallb]. unfold returns, displayLineDiff. cbn [diff_old diff_new].
  change (getlines ("a" ++ nl ++ "b" ++ nl)) with ["a"; "b"].
  change (getlines ("b" ++ nl ++ "a" ++ nl)) with ["b"; "a"].
  now rewrite diff_loop_no_progress.
Qed.

Lemma insert_all_distinct (names : list string) (acc : Uset.t) :
  NoDup (acc ++ names)%list ->
  fold_left (fun acc k => Uset.insert k acc) names acc = (acc ++ names)%list.
Proof.
  revert acc. induction names as [|k names IH]; intros acc Hnd; simpl.
  - now rewrite app_nil_r.
  - assert (Hnew : Uset.count k acc = false).
    { destruct (Uset.count k acc) eqn:E; auto.
      apply uset_count_In in E. apply NoDup_remove_2 in Hnd.
      exfalso. apply Hnd. apply in_or_app. now left. }
    unfold Uset.insert. rewrite Hnew.
    rewrite IH; rewrite <- app_assoc; auto.
Qed.

Lemma list_sum_bound (A : Type) (f : A -> nat) (l : list A) (x : A) :
  In x l -> f x <= list_sum (map f l).
Proof.
  induction l as [|y l IH]; simpl; [tauto|].
  intros [Heq|Hin]; [subst; lia | specialize (IH Hin); lia].
Qed.

(** X19: with an empty index, which is what every new process has,
    [diff --staged] hands every path of HEAD's tree to [displayLineDiff] as
    deleted from staged, the whole blob against the empty text, whether or
    not the file was touched; each of these calls returns, and so does
    [diff]. *)
Theorem diff_staged_with_empty_index (g : MiniGitSystem) (fs : FileSystem)
        (arg2 : string) :
  dot_minigit fs = true ->
  stagingArea g = [] ->
  empty (headCommitHash g) = false ->
  NoDup (Umap.keys (commitFiles_of (snd (currentHeadCommit g fs)))) ->
  exists calls enough,
    (forall fuel, enough <= fuel ->
       diff fuel g fs "--staged" arg2
       = Some (DiffShown calls, fst (currentHeadCommit g fs)))
    /\ Permutation calls
         (map (fun entry => mkDiffCall (loadBlob fs (snd entry)) "" (fst entry)
                                       " (deleted from staged)")
              (commitFiles_of (snd (currentHeadCommit g fs)))).
Proof.
  intros Hrepo Hindex Hhead Hnd.
  assert (Hcalls :
    diff_calls g fs "--staged" arg2
    = (DiffShown
         (map (fun entry => mkDiffCall (loadBlob fs (snd entry)) "" (fst entry)
                                       " (deleted from staged)")
              (commitFiles_of (snd (currentHeadCommit g fs)))),
       fst (currentHeadCommit g fs))).
  { unfold diff_calls. rewrite Hrepo, Hhead. simpl.
    destruct (currentHeadCommit_frame g fs) as (_ & Hs & _).
    destruct (currentHeadCommit g fs) as [g' headCommit]. simpl in *.
    rewrite Hs, Hindex. simpl. f_equal. f_equal.
    unfold all_files. simpl.
    rewrite (insert_all_distinct (Umap.keys (commitFiles_of headCommit)) [])
      by exact Hnd.
    simpl. unfold Umap.keys. rewrite flat_map_concat_map, map_map.
    set (tree := commitFiles_of headCommit) in *.
    assert (Hfind : forall entry, In entry tree ->
                      Umap.find (fst entry) tree = Some (snd entry)).
    { intros [k v] Hin. now apply in_find_distinct. }
    clearbody tree. clear Hs.
    assert (Hmap : map (fun x => diff_staged_file fs [] tree (fst x)) tree
                   = map (fun entry => [mkDiffCall (loadBlob fs (snd entry)) ""
                                          (fst entry) " (deleted from staged)"])
                         tree).
    { apply map_ext_in. intros entry Hin. unfold diff_staged_file. simpl.
      now rewrite (Hfind entry Hin). }
    rewrite Hmap. clear. induction tree as [|e tree IH]; simpl; auto.
    now rewrite IH. }
  eexists.
  exists (list_sum
            (map (fun call => length (getlines (diff_old call)))
                 (map (fun entry => mkDiffCall (loadBlob fs (snd entry)) ""
                                               (fst entry)
                                               " (deleted from staged)")
                      (commitFiles_of (snd (currentHeadCommit g fs)))))).
  split; [|apply Permutation_refl].
  intros fuel Hfuel. unfold diff. rewrite Hcalls.
  replace (forallb (returns fuel) _) with true; [reflexivity|].
  symmetry. apply forallb_forall. intros call Hin.
  apply returns_deleted.
  - apply in_map_iff in Hin. destruct Hin as (entry & Hcall & _).
    now subst call.
  - pose proof (list_sum_bound
                  (fun call => length (getlines (diff_old call))) _ _ Hin).
    lia.
Qed.

Lemma diff_staged_with_empty_index_witness :
  stagingArea committed_system = []
  /\ exists calls enough,
       (forall fuel, enough <= fuel ->
          diff fuel committed_system committed_fs "--staged" ""
          = Some (DiffShown calls, committed_system))
       /\ Permutation calls
            [mkDiffCall ("Line 1" ++ nl ++ "Line 2" ++ nl) "" "file.txt"
                        " (deleted from staged)"].
Proof.
  assert (Hnd : NoDup (Umap.keys (commitFiles_of
                  (snd (currentHeadCommit committed_system committed_fs))))).
  { simpl. constructor; [intros [] | constructor]. }
  split; [reflexivity|].
  exact (@diff_staged_with_empty_index committed_system committed_fs ""
           eq_refl eq_refl eq_refl Hnd).
Defined.
